(** * Efficient_GPT2: the sort dataset and the minGPT training loop

    A shallow embedding of [train_fsdp.py] (class [SortDataset]) and of
    [minGPT/mingpt/trainer.py] (class [Trainer]), with the properties the
    specification states about them.

    Python integers are [Z]; tensors of [torch.long] are [list Z]; Python
    exceptions are values of [exn] threaded through explicit results;
    the loops whose length the code does not bound ([while True], and
    the [for] over a list that its body can extend) take a fuel argument
    and answer [Timeout] when the fuel is spent while the loop is still
    running. *)

From stdpp Require Import gmap strings list sorting.
From Stdlib Require Import ZArith QArith Lia.

Local Open Scope Z_scope.

(** ** Python values shared by both files *)

Inductive exn : Type :=
| NameError (name : string)
| AttributeError (obj attr : string)
| RuntimeError (what : string)
| ValueError (what : string)
| AssertionError
| TypeError (what : string)
| StopIteration
| CallbackError (tag : nat).

(** Result of running a piece of code that may loop: it finished with a
    value, it raised, or the fuel ran out before either happened. *)
Inductive outcome (A : Type) : Type :=
| Done (a : A)
| Raised (e : exn)
| Timeout.
Arguments Done {A} a.
Arguments Raised {A} e.
Arguments Timeout {A}.

Module Py.

(** Position denoted by a slice bound [i] on a sequence of [len] items:
    negative bounds count from the end, and the result is clamped to
    [0 .. len]. *)
Definition bound (len : nat) (i : Z) : nat :=
  let j := if i <? 0 then i + Z.of_nat len else i in
  if j <? 0 then 0%nat
  else if Z.of_nat len <? j then len
  else Z.to_nat j.

(** [a[:n]] *)
Definition slice_to {A} (a : list A) (n : Z) : list A :=
  take (bound (length a) n) a.

(** [a[n:]] *)
Definition slice_from {A} (a : list A) (n : Z) : list A :=
  drop (bound (length a) n) a.

(** [a[:n] = v] for a scalar [v] (broadcast over the slice). *)
Definition fill_to {A} (a : list A) (n : Z) (v : A) : list A :=
  replicate (bound (length a) n) v ++ drop (bound (length a) n) a.

(** [range(n)] has [n] elements, none when [n] is negative. *)
Definition range_len (n : Z) : nat := Z.to_nat n.

End Py.

(** ** Code that reads and writes a state and may raise or loop *)

Module Eff.

Definition M (S A : Type) : Type := S -> outcome A * S.

Definition ret {S A} (a : A) : M S A := fun s => (Done a, s).

Definition bind {S A B} (m : M S A) (k : A -> M S B) : M S B :=
  fun s =>
    match m s with
    | (Done a, s') => k a s'
    | (Raised e, s') => (Raised e, s')
    | (Timeout, s') => (Timeout, s')
    end.

Definition raise {S A} (e : exn) : M S A := fun s => (Raised e, s).

(** A function that answers or raises without touching the state. *)
Definition lift {S A} (r : exn + A) : M S A :=
  fun s => (match r with inl e => Raised e | inr a => Done a end, s).

Definition get {S} : M S S := fun s => (Done s, s).

Definition modify {S} (f : S -> S) : M S unit := fun s => (Done tt, f s).

(** [for _ in range(n): body] *)
Fixpoint repeat_ {S} (n : nat) (body : M S unit) : M S unit :=
  match n with
  | O => ret tt
  | S n' => bind body (fun _ => repeat_ n' body)
  end.

(** [for x in xs: body(x)] over a list object that [body] can reach and
    change in place. The iterator of a Python list keeps the object and
    a position: each round it looks at the object as it is then, ends
    when the position is past the end, and otherwise hands out the item
    at the position and moves on by one. [read] gives the items of the
    object in the current state, [i] is the position; [fuel] bounds the
    number of rounds that run [body], since a body that keeps appending
    keeps the loop going. *)
Fixpoint for_each_live {S A} (fuel : nat) (read : S -> list A) (i : nat)
    (body : A -> M S unit) : M S unit :=
  fun s =>
    match read s !! i with
    | None => (Done tt, s)
    | Some x =>
        match fuel with
        | O => (Timeout, s)
        | S fuel' => bind (body x) (fun _ => for_each_live fuel' read (Nat.succ i) body) s
        end
    end.

(** [try: m / except E: handler], for the exceptions [caught] accepts. *)
Definition try_except {S A} (m : M S A) (caught : exn -> bool) (handler : M S A)
  : M S A :=
  fun s =>
    match m s with
    | (Raised e, s') => if caught e then handler s' else (Raised e, s')
    | r => r
    end.

(** [while True: body], where [body] answers [true] when it executes
    [break]. *)
Fixpoint while_true {S} (fuel : nat) (body : M S bool) : M S unit :=
  match fuel with
  | O => fun s => (Timeout, s)
  | S fuel' => bind body (fun stop => if stop then ret tt else while_true fuel' body)
  end.

End Eff.

Notation "x <- c ;; k" := (Eff.bind c (fun x => k))
  (at level 20, c at level 99, k at level 200, only parsing).
Notation "c ;; k" := (Eff.bind c (fun _ => k))
  (at level 100, k at level 200, only parsing).

(** ** The random generator of torch *)

Module Torch.

(** The global generator: an unbounded stream of raw words and a cursor. *)
Record Generator : Type := { draws : nat -> Z; pos : nat }.

Definition skip (n : nat) (g : Generator) : Generator :=
  {| draws := draws g; pos := (pos g + n)%nat |}.

(** [torch.randint(high, size=(n,), dtype=torch.long)]: [n] values in
    [0, high); the call is refused when [high <= 0] or [n < 0]. *)
Definition randint (high n : Z) (g : Generator) : exn + list Z * Generator :=
  if high <=? 0 then inl (RuntimeError "random_ expects from to be less than to")
  else if n <? 0 then inl (RuntimeError "Trying to create tensor with negative dimension")
  else inr (map (fun i => draws g (pos g + i)%nat `mod` high) (seq 0 (Z.to_nat n)),
            skip (Z.to_nat n) g).

(** [torch.rand(1).item() < 0.5]: a float32 uniform is [u / 2^24] for a
    24-bit [u], so the comparison is [u < 2^23]. *)
Definition rand_lt_half (g : Generator) : bool * Generator :=
  (draws g (pos g) `mod` 2 ^ 24 <? 2 ^ 23, skip 1 g).

(** [torch.sort(t)[0]]: ascending. *)
Definition sort (t : list Z) : list Z := merge_sort Z.le t.

(** [t.unique().nelement()] *)
Definition unique_nelement (t : list Z) : Z := Z.of_nat (length (remove_dups t)).

End Torch.

(** ** train_fsdp.py: class SortDataset *)

Module SortDataset.

Record t : Type := { split : string; length : Z; num_digits : Z }.

(** [__init__(self, split, length=6, num_digits=3)] *)
Definition __init__ (split : string) (length num_digits : Z) : exn + t :=
  if bool_decide (split ∈ ["train"; "test"]) then
    inr {| split := split; length := length; num_digits := num_digits |}
  else inl AssertionError.

Definition __len__ (self : t) : Z := 10000.

Definition get_vocab_size (self : t) : Z := num_digits self.

Definition get_block_size (self : t) : Z := length self * 2 - 1.

Section Hashing.

(** [pickle.dumps] on a list of integers and the builtin [hash] on
    bytes are those of the interpreter process that runs the call.
    Within one process both are fixed functions of their argument; the
    hash of bytes is salted with a value the process draws when it
    starts (unless PYTHONHASHSEED fixes it), so each process is an
    instance of this section with a [hash] of its own. *)
Variable pickle_dumps : list Z -> list Byte.byte.
Variable hash : list Byte.byte -> Z.

(** Lines 56-57: the split label of a generated input. *)
Definition inp_split (inp : list Z) : string :=
  let h := hash (pickle_dumps inp) in
  if h `mod` 4 =? 0 then "test" else "train".

(** What one pass through the body of the [while True] decides. *)
Inductive verdict : Type :=
| Continue
| Break (inp : list Z).

(** Lines 46-59: one pass through the loop body. [Continue] stands for
    both ways of going round again: the [continue] of line 54 and the
    failed test of line 58. *)
Definition attempt (self : t) (g : Torch.Generator)
  : exn + verdict * Torch.Generator :=
  match Torch.randint (num_digits self) (length self) g with
  | inl e => inl e
  | inr (inp, g1) =>
      let '(coin, g2) := Torch.rand_lt_half g1 in
      if coin && (length self `div` 2 <? Torch.unique_nelement inp) then
        inr (Continue, g2)
      else if String.eqb (inp_split inp) (split self) then
        inr (Break inp, g2)
      else inr (Continue, g2)
  end.

(** Lines 45-59: the rejection loop. *)
Fixpoint sample (fuel : nat) (self : t) (g : Torch.Generator)
  : outcome (list Z) * Torch.Generator :=
  match fuel with
  | O => (Timeout, g)
  | S fuel' =>
      match attempt self g with
      | inl e => (Raised e, g)
      | inr (Break inp, g') => (Done inp, g')
      | inr (Continue, g') => sample fuel' self g'
      end
  end.

(** Lines 62-72: from the accepted input to the pair [(x, y)]. *)
Definition example_of (self : t) (inp : list Z) : list Z * list Z :=
  let sol := Torch.sort inp in
  let cat := inp ++ sol in
  let x := Py.slice_to cat (-1) in
  let y := Py.slice_from cat 1 in
  let y := Py.fill_to y (length self - 1) (-1) in
  (x, y).

(** [__getitem__(self, idx)]; [idx] is not read. *)
Definition __getitem__ (fuel : nat) (self : t) (idx : Z) (g : Torch.Generator)
  : outcome (list Z * list Z) * Torch.Generator :=
  match sample fuel self g with
  | (Done inp, g') => (Done (example_of self inp), g')
  | (Raised e, g') => (Raised e, g')
  | (Timeout, g') => (Timeout, g')
  end.

(** The first [n] passes through the loop body, starting from
    generator state [g], all go round again. *)
Fixpoint rejects (n : nat) (self : t) (g : Torch.Generator) : Prop :=
  match n with
  | O => True
  | S n' => exists g', attempt self g = inr (Continue, g') /\ rejects n' self g'
  end.

(** [n] passes go round again and the next one leaves the loop with
    [inp], the generator being at [g_end]. *)
Fixpoint accepts_after (n : nat) (self : t) (g : Torch.Generator)
    (inp : list Z) (g_end : Torch.Generator) : Prop :=
  match n with
  | O => attempt self g = inr (Break inp, g_end)
  | S n' =>
      exists g', attempt self g = inr (Continue, g') /\
                 accepts_after n' self g' inp g_end
  end.

End Hashing.

End SortDataset.

(** ** mingpt.utils.CfgNode, with the fields the trainer reads *)

Module CfgNode.

Record t : Type := {
  device : string;
  num_workers : Z;
  max_iters : option Z;
  batch_size : Z;
  learning_rate : Q;
  betas : Q * Q;
  weight_decay : Q;
  grad_norm_clip : Q;
  cross_batch_num : Z;
  use_fsdp : bool
}.

Definition set_max_iters (v : option Z) (c : t) : t :=
  {| device := device c; num_workers := num_workers c; max_iters := v;
     batch_size := batch_size c; learning_rate := learning_rate c;
     betas := betas c; weight_decay := weight_decay c;
     grad_norm_clip := grad_norm_clip c; cross_batch_num := cross_batch_num c;
     use_fsdp := use_fsdp c |}.

Definition set_cross_batch_num (v : Z) (c : t) : t :=
  {| device := device c; num_workers := num_workers c; max_iters := max_iters c;
     batch_size := batch_size c; learning_rate := learning_rate c;
     betas := betas c; weight_decay := weight_decay c;
     grad_norm_clip := grad_norm_clip c; cross_batch_num := v;
     use_fsdp := use_fsdp c |}.

Definition set_use_fsdp (v : bool) (c : t) : t :=
  {| device := device c; num_workers := num_workers c; max_iters := max_iters c;
     batch_size := batch_size c; learning_rate := learning_rate c;
     betas := betas c; weight_decay := weight_decay c;
     grad_norm_clip := grad_norm_clip c; cross_batch_num := cross_batch_num c;
     use_fsdp := v |}.

End CfgNode.

(** ** minGPT/mingpt/trainer.py: class Trainer *)

Module Trainer.

(** A batch is known by its serial number in the run; a callback by the
    identity of the function object that was registered. *)
Definition batch : Type := N.
Definition cbid : Type := nat.

(** [Trainer.get_default_config()] *)
Definition get_default_config : CfgNode.t := {|
  CfgNode.device := "auto";
  CfgNode.num_workers := 4;
  CfgNode.max_iters := None;
  CfgNode.batch_size := 64;
  CfgNode.learning_rate := (3 # 10000)%Q;
  CfgNode.betas := ((9 # 10)%Q, (95 # 100)%Q);
  CfgNode.weight_decay := (1 # 10)%Q;
  CfgNode.grad_norm_clip := (1 # 1)%Q;
  CfgNode.cross_batch_num := 1;
  CfgNode.use_fsdp := false
|}.

(** Argument of [module.to(...)] and value of [self.device]: a device
    name, a bare device index, or [torch.device("cuda", index)]. *)
Inductive device_spec : Type :=
| DevName (name : string)
| DevIndex (index : Z)
| DevCuda (index : Z).

(** The model collaborator, as far as the trainer touches it: where it
    was moved, whether it is wrapped for sharding, its mode, and its
    gradient buffers. The buffers are kept symbolically: [None] after
    [zero_grad(set_to_none=True)], otherwise the batches whose backward
    passes have been added into them, oldest first. *)
Record Model : Type := {
  placed : option device_spec;
  sharded : bool;
  training : bool;
  grad : option (list batch)
}.

(** The optimizer built by [model.configure_optimizers(config)]. *)
Record Optimizer : Type := {
  lr : Q;
  opt_betas : Q * Q;
  opt_weight_decay : Q
}.

Definition configure_optimizers (m : Model) (c : CfgNode.t) : Optimizer :=
  {| lr := CfgNode.learning_rate c; opt_betas := CfgNode.betas c;
     opt_weight_decay := CfgNode.weight_decay c |}.

(** What the process finds around it. *)
Record Env : Type := {
  environ : gmap string string;
  cuda_is_available : bool;
  process_group_ok : bool;
  world_size : Z;
  time_time : nat -> Q
}.

(** Python objects that [__init__] handles. *)
Inductive value : Type :=
| VNone
| VBool (b : bool)
| VInt (z : Z)
| VFloat (q : Q)
| VStr (s : string)
| VConfig (c : CfgNode.t)
| VModel (m : Model)
| VDataset (d : SortDataset.t)
| VRegistry (r : gmap string nat)
| VDevice (d : device_spec)
| VEnviron (e : gmap string string)
| VGlobal (name : string).

(** *** Name resolution

    A name that a function neither takes as a parameter nor assigns is
    looked up in the module's globals and then in the builtins. *)

(** Names bound at the top level of trainer.py (lines 6-55). *)
Definition module_globals : list string :=
  [ "time"; "defaultdict"; "torch"; "DataLoader"; "dist"; "mp"; "FSDP";
    "CPUOffload"; "os"; "DistributedSampler"; "profile"; "record_function";
    "ProfilerActivity"; "schedule"; "CN"; "TorchProfiler"; "Trainer";
    "__name__"; "__doc__"; "__file__"; "__package__"; "__loader__";
    "__spec__"; "__builtins__"; "__cached__" ].

(** The builtin functions and the exceptions the file names. *)
Definition builtins : list string :=
  [ "abs"; "aiter"; "all"; "anext"; "any"; "ascii"; "bin"; "bool";
    "breakpoint"; "bytearray"; "bytes"; "callable"; "chr"; "classmethod";
    "compile"; "complex"; "delattr"; "dict"; "dir"; "divmod"; "enumerate";
    "eval"; "exec"; "filter"; "float"; "format"; "frozenset"; "getattr";
    "globals"; "hasattr"; "hash"; "help"; "hex"; "id"; "input"; "int";
    "isinstance"; "issubclass"; "iter"; "len"; "list"; "locals"; "map";
    "max"; "memoryview"; "min"; "next"; "object"; "oct"; "open"; "ord";
    "pow"; "print"; "property"; "range"; "repr"; "reversed"; "round";
    "set"; "setattr"; "slice"; "sorted"; "staticmethod"; "str"; "sum";
    "super"; "tuple"; "type"; "vars"; "zip"; "__import__";
    "None"; "True"; "False"; "Exception"; "StopIteration"; "NameError";
    "AttributeError"; "ValueError"; "TypeError"; "RuntimeError" ].

Definition load_global (name : string) : exn + value :=
  if bool_decide (name ∈ module_globals ++ builtins) then inr (VGlobal name)
  else inl (NameError name).

(** Attributes of the [os] module that matter here: the process
    environment is [os.environ]; there is no [os.env]. *)
Definition os_attributes : list string :=
  [ "environ"; "getenv"; "putenv"; "path"; "name"; "sep"; "getcwd"; "getpid" ].

(** [v.attr], for the objects whose attributes [__init__] reads. *)
Definition getattr (env : Env) (v : value) (attr : string) : exn + value :=
  match v with
  | VConfig c =>
      if String.eqb attr "use_fsdp" then inr (VBool (CfgNode.use_fsdp c))
      else if String.eqb attr "device" then inr (VStr (CfgNode.device c))
      else inl (AttributeError "CfgNode" attr)
  | VGlobal "os" =>
      if String.eqb attr "environ" then inr (VEnviron (environ env))
      else if bool_decide (attr ∈ os_attributes) then inr (VGlobal ("os." +:+ attr))
      else inl (AttributeError "os" attr)
  | _ => inl (AttributeError "object" attr)
  end.

(** [mapping.get(key, default)] *)
Definition mapping_get (v : value) (key : string) (default : value) : exn + value :=
  match v with
  | VEnviron e => inr (match e !! key with Some s => VStr s | None => default end)
  | _ => inl (AttributeError "object" "get")
  end.

Definition digit_of (a : Ascii.ascii) : option Z :=
  let n := Z.of_N (Ascii.N_of_ascii a) in
  if (48 <=? n) && (n <=? 57) then Some (n - 48) else None.

Fixpoint digits (acc : Z) (s : string) : option Z :=
  match s with
  | EmptyString => Some acc
  | String a s' =>
      match digit_of a with
      | Some d => digits (acc * 10 + d) s'
      | None => None
      end
  end.

(** [int(v)] on an integer or on a decimal numeral with an optional
    sign (the blanks and underscores that [int] also accepts are not
    covered). *)
Definition py_int (v : value) : exn + Z :=
  match v with
  | VInt z => inr z
  | VBool b => inr (if b then 1 else 0)
  | VStr EmptyString => inl (ValueError "invalid literal for int()")
  | VStr (String a s' as s) =>
      let r :=
        if Ascii.eqb a (Ascii.ascii_of_nat 45) then
          match s' with EmptyString => None | _ => Z.opp <$> digits 0 s' end
        else if Ascii.eqb a (Ascii.ascii_of_nat 43) then
          match s' with EmptyString => None | _ => digits 0 s' end
        else digits 0 s in
      match r with
      | Some z => inr z
      | None => inl (ValueError "invalid literal for int()")
      end
  | _ => inl (ValueError "int() argument must be a string or a number")
  end.

(** Truth value of an object in an [if]. *)
Definition truthy (v : value) : bool :=
  match v with
  | VNone => false
  | VBool b => b
  | VInt z => negb (z =? 0)
  | VStr s => negb (String.eqb s "")
  | _ => true
  end.

(** *** Construction

    The instance under construction is its attribute dictionary;
    [__init__] runs over it and may raise part of the way through. *)

Definition setattr (name : string) (v : value) : Eff.M (gmap string value) unit :=
  Eff.modify (fun o => <[name := v]> o).

Definition self_attr (name : string) : Eff.M (gmap string value) value :=
  fun o =>
    match o !! name with
    | Some v => (Done v, o)
    | None => (Raised (AttributeError "Trainer" name), o)
    end.

(** [module.to(d)] *)
Definition to (d : device_spec) (m : Model) : Model :=
  {| placed := Some d; sharded := sharded m; training := training m; grad := grad m |}.

(** [FSDP(module)] *)
Definition FSDP (m : Model) : Model :=
  {| placed := placed m; sharded := true; training := training m; grad := grad m |}.

Definition as_model (v : value) : exn + Model :=
  match v with
  | VModel m => inr m
  | _ => inl (AttributeError "object" "to")
  end.

(** [dist.init_process_group(backend="nccl")] *)
Definition init_process_group (env : Env) : exn + unit :=
  if process_group_ok env then inr tt
  else inl (RuntimeError "init_process_group")%string.

(** Lines 83-97: the device is chosen and the model moved to it. The
    two [print] calls and [torch.cuda.set_device] assign no attribute. *)
Definition init_device (env : Env) (config : CfgNode.t)
  : Eff.M (gmap string value) unit :=
  u <- self_attr "use_fsdp" ;;
  if truthy u then
    Eff.lift (init_process_group env) ;;
    os <- Eff.lift (load_global "os") ;;
    e <- Eff.lift (getattr env os "env") ;;
    r <- Eff.lift (mapping_get e "LOCAL_RANK" (VInt 0)) ;;
    local_rank <- Eff.lift (py_int r) ;;
    setattr "local_rank" (VInt local_rank) ;;
    setattr "device" (VDevice (DevCuda local_rank)) ;;
    mv <- self_attr "model" ;;
    m <- Eff.lift (as_model mv) ;;
    setattr "model" (VModel (to (DevIndex local_rank) m)) ;;
    mv <- self_attr "model" ;;
    m <- Eff.lift (as_model mv) ;;
    setattr "model" (VModel (FSDP m))
  else
    (if String.eqb (CfgNode.device config) "auto" then
       setattr "device" (VStr (if cuda_is_available env then "cuda" else "cpu"))
     else
       setattr "device" (VStr (CfgNode.device config))) ;;
    mv <- self_attr "model" ;;
    m <- Eff.lift (as_model mv) ;;
    dv <- self_attr "device" ;;
    match dv with
    | VStr d => setattr "model" (VModel (to (DevName d) m))
    | _ => Eff.raise (ValueError "device")
    end.

(** [__init__(self, config, model, train_dataset)], lines 74-102. *)
Definition __init__ (env : Env) (config : CfgNode.t) (model : Model)
    (train_dataset : SortDataset.t) : Eff.M (gmap string value) unit :=
  setattr "config" (VConfig config) ;;
  setattr "model" (VModel model) ;;
  setattr "optimizer" VNone ;;
  setattr "train_dataset" (VDataset train_dataset) ;;
  setattr "callbacks" (VRegistry ∅) ;;
  confit <- Eff.lift (load_global "confit") ;;
  v <- Eff.lift (getattr env confit "use_fsdp") ;;
  setattr "use_fsdp" v ;;
  init_device env config ;;
  setattr "iter_num" (VInt 0) ;;
  setattr "iter_time" (VFloat 0%Q) ;;
  setattr "iter_dt" (VFloat 0%Q).

(** [Trainer(config, model, train_dataset)]: a fresh object is handed to
    [__init__], and the caller receives it only if [__init__] returns. *)
Definition construct (env : Env) (config : CfgNode.t) (model : Model)
    (train_dataset : SortDataset.t) : outcome (gmap string value) :=
  match __init__ env config model train_dataset ∅ with
  | (Done _, o) => Done o
  | (Raised e, _) => Raised e
  | (Timeout, _) => Timeout
  end.

(** *** The training loop

    [run] works on a constructed trainer: a record of the attributes
    that [__init__] and [run] assign.

    The values of [self.callbacks] are list objects, and the code
    changes them in place ([append], line 105) while it may be going
    through them (line 111), so a list is known by its address: the
    dictionary maps an event to the address of its list, and [lists]
    holds the list objects created so far, the one with address [l] at
    position [l]. It is kept with the trainer because whoever is handed
    the trainer reaches these objects through it. *)

Record t : Type := {
  config : CfgNode.t;
  model : Model;
  optimizer : option Optimizer;
  train_dataset : SortDataset.t;
  callbacks : gmap string nat;
  lists : list (list cbid);
  use_fsdp : bool;
  device : device_spec;
  iter_num : Z;
  iter_time : Q;
  iter_dt : Q;
  loss : option batch;
  train_loader : option N
}.

(** Calls that leave the trainer's own code, in the order they are made. *)
Inductive event : Type :=
| ENext (b : batch)
| EForward (b : batch)
| EZeroGrad
| EBackward (b : batch)
| EClip (max_norm : Q)
| EStep (consumed : option (list batch))
| ETrigger (onevent : string)
| ECall (cb : cbid)
| EDestroy.

(** The local variables of [run] that outlive one statement, the clock
    and the record of calls. [data_iter] is the number of batches the
    iterator still holds, [served] the number handed out so far. *)
Record Frame : Type := {
  data_iter : N;
  served : N;
  clock : nat;
  log : list event
}.

Definition frame0 : Frame :=
  {| data_iter := 0; served := 0; clock := 0; log := [] |}.

Definition set_config (v : CfgNode.t) (s : t) : t :=
  {| config := v; model := model s; optimizer := optimizer s;
     train_dataset := train_dataset s; callbacks := callbacks s;
     lists := lists s;
     use_fsdp := use_fsdp s; device := device s; iter_num := iter_num s;
     iter_time := iter_time s; iter_dt := iter_dt s; loss := loss s;
     train_loader := train_loader s |}.

Definition set_model (v : Model) (s : t) : t :=
  {| config := config s; model := v; optimizer := optimizer s;
     train_dataset := train_dataset s; callbacks := callbacks s;
     lists := lists s;
     use_fsdp := use_fsdp s; device := device s; iter_num := iter_num s;
     iter_time := iter_time s; iter_dt := iter_dt s; loss := loss s;
     train_loader := train_loader s |}.

Definition set_optimizer (v : option Optimizer) (s : t) : t :=
  {| config := config s; model := model s; optimizer := v;
     train_dataset := train_dataset s; callbacks := callbacks s;
     lists := lists s;
     use_fsdp := use_fsdp s; device := device s; iter_num := iter_num s;
     iter_time := iter_time s; iter_dt := iter_dt s; loss := loss s;
     train_loader := train_loader s |}.

Definition set_callbacks (v : gmap string nat) (s : t) : t :=
  {| config := config s; model := model s; optimizer := optimizer s;
     train_dataset := train_dataset s; callbacks := v;
     lists := lists s;
     use_fsdp := use_fsdp s; device := device s; iter_num := iter_num s;
     iter_time := iter_time s; iter_dt := iter_dt s; loss := loss s;
     train_loader := train_loader s |}.

Definition set_lists (v : list (list cbid)) (s : t) : t :=
  {| config := config s; model := model s; optimizer := optimizer s;
     train_dataset := train_dataset s; callbacks := callbacks s;
     lists := v;
     use_fsdp := use_fsdp s; device := device s; iter_num := iter_num s;
     iter_time := iter_time s; iter_dt := iter_dt s; loss := loss s;
     train_loader := train_loader s |}.

Definition set_iter_num (v : Z) (s : t) : t :=
  {| config := config s; model := model s; optimizer := optimizer s;
     train_dataset := train_dataset s; callbacks := callbacks s;
     lists := lists s;
     use_fsdp := use_fsdp s; device := device s; iter_num := v;
     iter_time := iter_time s; iter_dt := iter_dt s; loss := loss s;
     train_loader := train_loader s |}.

Definition set_iter_time (v : Q) (s : t) : t :=
  {| config := config s; model := model s; optimizer := optimizer s;
     train_dataset := train_dataset s; callbacks := callbacks s;
     lists := lists s;
     use_fsdp := use_fsdp s; device := device s; iter_num := iter_num s;
     iter_time := v; iter_dt := iter_dt s; loss := loss s;
     train_loader := train_loader s |}.

Definition set_iter_dt (v : Q) (s : t) : t :=
  {| config := config s; model := model s; optimizer := optimizer s;
     train_dataset := train_dataset s; callbacks := callbacks s;
     lists := lists s;
     use_fsdp := use_fsdp s; device := device s; iter_num := iter_num s;
     iter_time := iter_time s; iter_dt := v; loss := loss s;
     train_loader := train_loader s |}.

Definition set_loss (v : option batch) (s : t) : t :=
  {| config := config s; model := model s; optimizer := optimizer s;
     train_dataset := train_dataset s; callbacks := callbacks s;
     lists := lists s;
     use_fsdp := use_fsdp s; device := device s; iter_num := iter_num s;
     iter_time := iter_time s; iter_dt := iter_dt s; loss := v;
     train_loader := train_loader s |}.

Definition set_train_loader (v : option N) (s : t) : t :=
  {| config := config s; model := model s; optimizer := optimizer s;
     train_dataset := train_dataset s; callbacks := callbacks s;
     lists := lists s;
     use_fsdp := use_fsdp s; device := device s; iter_num := iter_num s;
     iter_time := iter_time s; iter_dt := iter_dt s; loss := loss s;
     train_loader := v |}.

Definition set_grad (v : option (list batch)) (m : Model) : Model :=
  {| placed := placed m; sharded := sharded m; training := training m; grad := v |}.

Definition set_training (v : bool) (m : Model) : Model :=
  {| placed := placed m; sharded := sharded m; training := v; grad := grad m |}.

Definition set_data_iter (n : N) (f : Frame) : Frame :=
  {| data_iter := n; served := served f; clock := clock f; log := log f |}.

Definition append_log (es : list event) (f : Frame) : Frame :=
  {| data_iter := data_iter f; served := served f; clock := clock f;
     log := log f ++ es |}.

Definition tick (f : Frame) : Frame :=
  {| data_iter := data_iter f; served := served f; clock := S (clock f);
     log := log f |}.

(** A new list object with the items [cs], bound to [onevent]. *)
Definition bind_new_list (onevent : string) (cs : list cbid) (self : t) : t :=
  set_callbacks (<[onevent := length (lists self)]> (callbacks self))
    (set_lists (lists self ++ [cs]) self).

(** Lines 104-105: [self.callbacks] is a [defaultdict(list)], so
    reading a missing key binds it to a new empty list; [append] then
    changes the list object in place. (An address without a list
    object, which no dictionary of Python holds, is left alone.) *)
Definition add_callback (onevent : string) (callback : cbid) (self : t) : t :=
  match callbacks self !! onevent with
  | Some l => set_lists (alter (fun cs => cs ++ [callback]) l (lists self)) self
  | None => bind_new_list onevent [callback] self
  end.

(** Lines 107-108: the event is bound to a new list; the list it was
    bound to before is left as it is. *)
Definition set_callback (onevent : string) (callback : cbid) (self : t) : t :=
  bind_new_list onevent [callback] self.

(** Every event of the dictionary is bound to a list object that
    exists. *)
Definition well_formed (self : t) : Prop :=
  map_Forall (fun _ l => (l < length (lists self))%nat) (callbacks self).

(** The items of the list object at address [l]. *)
Definition items (l : nat) (self : t) : list cbid :=
  default [] (lists self !! l).

(** The items of [self.callbacks.get(onevent, [])]. *)
Definition registered (onevent : string) (self : t) : list cbid :=
  match callbacks self !! onevent with
  | Some l => items l self
  | None => []
  end.

Section Run.

Variable env : Env.

(** What calling a registered function on the trainer does: it
    raises, or it returns with the trainer possibly changed, the
    dictionary of callbacks and its list objects included. [run] holds
    [self.model] and [self.config] in the locals [model] and [config]; a
    callback is taken to write into these two objects, which [run] then
    sees, and not to bind [trainer.model] or [trainer.config] to other
    objects. *)
Variable call : cbid -> t -> exn + t.

Definition emit (e : event) : Eff.M (t * Frame) unit :=
  Eff.modify (fun s => (fst s, append_log [e] (snd s))).

Definition update (f : t -> t) : Eff.M (t * Frame) unit :=
  Eff.modify (fun s => (f (fst s), snd s)).

Definition self_ : Eff.M (t * Frame) t := fun s => (Done (fst s), s).

(** [callback(self)] *)
Definition invoke (callback : cbid) : Eff.M (t * Frame) unit :=
  emit (ECall callback) ;;
  (fun s =>
     match call callback (fst s) with
     | inl e => (Raised e, s)
     | inr self' => (Done tt, (self', snd s))
     end).

(** Lines 110-112. [self.callbacks.get(onevent, [])] is evaluated
    once: it gives the list object bound to the event at that moment, or
    a new empty list that nothing else refers to. The [for] then goes
    through that object as the callbacks leave it: what a callback
    appends to it is called in the same dispatch, and binding the event
    to another list does not change what is gone through. *)
Definition trigger_callbacks (fuel : nat) (onevent : string)
  : Eff.M (t * Frame) unit :=
  emit (ETrigger onevent) ;;
  self <- self_ ;;
  match callbacks self !! onevent with
  | Some l => Eff.for_each_live fuel (fun s => items l (fst s)) 0 invoke
  | None => Eff.ret tt
  end.

(** [next(data_iter)] *)
Definition next_ : Eff.M (t * Frame) batch :=
  fun s =>
    let f := snd s in
    if (data_iter f =? 0)%N then (Raised StopIteration, s)
    else (Done (served f),
          (fst s, {| data_iter := N.pred (data_iter f);
                     served := N.succ (served f);
                     clock := clock f;
                     log := log f ++ [ENext (served f)] |})).

(** [iter(v)] for an object found among the globals: none of them is
    a data loader. *)
Definition iter_global (v : value) : exn + N :=
  inl (TypeError "object is not iterable").

Definition is_StopIteration (e : exn) : bool :=
  match e with StopIteration => true | _ => false end.

(** Lines 151-155. The handler names [train_loader], which [run]
    never assigns, so the name is looked up among the globals. *)
Definition fetch : Eff.M (t * Frame) batch :=
  Eff.try_except next_ is_StopIteration
    (v <- Eff.lift (load_global "train_loader") ;;
     n <- Eff.lift (iter_global v) ;;
     Eff.modify (fun s => (fst s, set_data_iter n (snd s))) ;;
     next_).

(** Line 160: [logits, self.loss = model(x, y)] *)
Definition forward (b : batch) : Eff.M (t * Frame) unit :=
  emit (EForward b) ;;
  update (set_loss (Some b)).

(** Line 163: [model.zero_grad(set_to_none=True)] *)
Definition zero_grad : Eff.M (t * Frame) unit :=
  emit EZeroGrad ;;
  update (fun self => set_model (set_grad None (model self)) self).

(** Line 164: [self.loss.backward()] adds the gradient of the loss
    into the buffers. *)
Definition backward : Eff.M (t * Frame) unit :=
  self <- self_ ;;
  match loss self with
  | None => Eff.raise (AttributeError "Trainer" "loss")
  | Some b =>
      emit (EBackward b) ;;
      update (fun self =>
        set_model (set_grad (Some (default [] (grad (model self)) ++ [b]))
                            (model self)) self)
  end.

(** Line 165: [clip_grad_norm_(model.parameters(), config.grad_norm_clip)]
    rescales the buffers in place. *)
Definition clip_grad_norm_ : Eff.M (t * Frame) unit :=
  self <- self_ ;;
  emit (EClip (CfgNode.grad_norm_clip (config self))).

(** Line 166: [self.optimizer.step()] reads the buffers. *)
Definition optimizer_step : Eff.M (t * Frame) unit :=
  self <- self_ ;;
  match optimizer self with
  | None => Eff.raise (AttributeError "NoneType" "step")
  | Some _ => emit (EStep (grad (model self)))
  end.

(** [time.time()] *)
Definition now : Eff.M (t * Frame) Q :=
  fun s =>
    (Done (time_time env (clock (snd s))), (fst s, tick (snd s))).

(** Lines 151-165: the body of the [for i in range(steps)]. Moving
    the batch to the device and unpacking it (lines 156-157) leave
    the state modelled here as it is. *)
Definition micro_batch : Eff.M (t * Frame) unit :=
  b <- fetch ;;
  forward b ;;
  zero_grad ;;
  backward ;;
  clip_grad_norm_.

(** Lines 169-172. *)
Definition bookkeeping : Eff.M (t * Frame) unit :=
  update (fun self => set_iter_num (iter_num self + 1) self) ;;
  tnow <- now ;;
  update (fun self => set_iter_dt (tnow - iter_time self)%Q self) ;;
  update (set_iter_time tnow).

(** Line 175: the test that guards [break]. *)
Definition finished : Eff.M (t * Frame) bool :=
  self <- self_ ;;
  Eff.ret (match CfgNode.max_iters (config self) with
           | Some m => iter_num self >=? m
           | None => false
           end).

(** Lines 150-176: the body of the [while True]; the answer tells
    whether [break] was executed. *)
Definition iteration (fuel : nat) (steps : Z) : Eff.M (t * Frame) bool :=
  Eff.repeat_ (Py.range_len steps) micro_batch ;;
  optimizer_step ;;
  trigger_callbacks fuel "on_batch_end" ;;
  bookkeeping ;;
  finished.

Definition cdiv (a b : Z) : Z := (a + b - 1) `div` b.

(** Number of indices the sampler yields: [DistributedSampler] gives
    each rank its share of the dataset, [RandomSampler] is asked for
    [int(1e10)] draws with replacement. *)
Definition sampler_len (self : t) : Z :=
  if use_fsdp self then
    cdiv (SortDataset.__len__ (train_dataset self)) (world_size env)
  else 10 ^ 10.

(** [DataLoader(..., batch_size=b)]: the number of batches one pass
    over it yields. *)
Definition DataLoader (samples batch_size : Z) : exn + N :=
  if batch_size <=? 0 then
    inl (ValueError "batch_size should be a positive integer value")
  else inr (Z.to_N (cdiv samples batch_size)).

(** Lines 115-146; the answer is [steps]. *)
Definition setup : Eff.M (t * Frame) Z :=
  self <- self_ ;;
  update (set_optimizer (Some (configure_optimizers (model self) (config self)))) ;;
  n <- Eff.lift (DataLoader (sampler_len self) (CfgNode.batch_size (config self))) ;;
  update (set_train_loader (Some n)) ;;
  update (fun self => set_model (set_training true (model self)) self) ;;
  update (set_iter_num 0) ;;
  tm <- now ;;
  update (set_iter_time tm) ;;
  Eff.modify (fun s => (fst s, set_data_iter n (snd s))) ;;
  self <- self_ ;;
  Eff.ret (CfgNode.cross_batch_num (config self)).

(** Lines 178-179. *)
Definition teardown : Eff.M (t * Frame) unit :=
  self <- self_ ;;
  if use_fsdp self then emit EDestroy else Eff.ret tt.

(** [run(self)], started with the locals of a new frame. [fuel]
    bounds the passes of the [while True] and, in every dispatch, the
    calls of callbacks. *)
Definition run (fuel : nat) (self : t) : outcome unit * (t * Frame) :=
  (steps <- setup ;;
   Eff.while_true fuel (iteration fuel steps) ;;
   teardown) (self, frame0).

End Run.

(** *** Reading the record of calls *)

Definition is_step (e : event) : bool :=
  match e with EStep _ => true | _ => false end.
Definition is_zero_grad (e : event) : bool :=
  match e with EZeroGrad => true | _ => false end.
Definition is_forward (e : event) : bool :=
  match e with EForward _ => true | _ => false end.
Definition is_backward (e : event) : bool :=
  match e with EBackward _ => true | _ => false end.
Definition is_clip (e : event) : bool :=
  match e with EClip _ => true | _ => false end.
Definition is_trigger (onevent : string) (e : event) : bool :=
  match e with ETrigger o => String.eqb o onevent | _ => false end.
Definition is_call (e : event) : bool :=
  match e with ECall _ => true | _ => false end.

Definition count (p : event -> bool) (l : list event) : nat :=
  length (List.filter p l).

(** The calls one pass of the inner loop makes for batch [b]. *)
Definition micro_events (clip : Q) (b : batch) : list event :=
  [ENext b; EForward b; EZeroGrad; EBackward b; EClip clip].

(** The batches [first, first + 1, ..., first + n - 1]. *)
Definition batches (first : N) (n : nat) : list batch :=
  map (fun i => (first + N.of_nat i)%N) (seq 0 n).

(** *** Closed forms of the inner loop *)

(** The trainer after one pass of the inner loop on batch [b]: the
    loss is that of [b], and the buffers hold the gradient of [b]
    alone. *)
Definition after_micro (b : batch) (self : t) : t :=
  set_model (set_grad (Some [b]) (model (set_loss (Some b) self)))
            (set_loss (Some b) self).

(** The trainer after [n] passes that started at batch [first]. *)
Definition after_micros (first : N) (n : nat) (self : t) : t :=
  match n with
  | O => self
  | S n' => after_micro (first + N.of_nat n')%N self
  end.

(** The frame after [n] passes. *)
Definition frame_after (clip : Q) (n : nat) (f : Frame) : Frame :=
  {| data_iter := (data_iter f - N.of_nat n)%N;
     served := (served f + N.of_nat n)%N;
     clock := clock f;
     log := log f ++ concat (map (micro_events clip) (batches (served f) n)) |}.

(** The trainer with [config.max_iters] set to [v]. *)
Definition with_max_iters (v : option Z) (self : t) : t :=
  set_config (CfgNode.set_max_iters v (config self)) self.

(** Callbacks that return normally and leave the configuration, the
    optimizer, the iteration counter and the registered callbacks (the
    dictionary and its lists) as they found them. *)
Definition well_behaved (call : cbid -> t -> exn + t) : Prop :=
  forall c s, exists s',
    call c s = inr s' /\ config s' = config s /\
    optimizer s' = optimizer s /\ iter_num s' = iter_num s /\
    callbacks s' = callbacks s /\ lists s' = lists s.

(** *** The dispatch as the specification words it

    The callbacks of [cs] are called one after the other, in the order
    of the list, each on the trainer as the one before it left it; the
    first one that raises ends the dispatch, and the ones after it are
    not called. The answer is what was called, how the dispatch ended
    and the trainer it left. *)
Fixpoint in_order (call : cbid -> t -> exn + t) (cs : list cbid) (self : t)
  : list cbid * outcome unit * t :=
  match cs with
  | [] => ([], Done tt, self)
  | c :: cs' =>
      match call c self with
      | inl e => ([c], Raised e, self)
      | inr self' =>
          let '(called, r, self'') := in_order call cs' self' in
          (c :: called, r, self'')
      end
  end.

End Trainer.

(** ** Concrete instances on which the definitions are run *)

Module Sample.

(** A stand-in for [pickle.dumps]: one byte per element. *)
Definition dumps (l : list Z) : list Byte.byte :=
  map (fun z => default Byte.x00 (Byte.of_N (Z.to_N z))) l.

(** A stand-in for [hash] on bytes. *)
Definition hash (b : list Byte.byte) : Z :=
  foldr (fun x acc => Z.of_N (Byte.to_N x) + 3 * acc) 1 b.

(** A stand-in for the builtin [hash] of a process whose salt is
    [salt]; [hash] above is the one of salt 0. *)
Definition salted_hash (salt : Z) (b : list Byte.byte) : Z :=
  foldr (fun x acc => Z.of_N (Byte.to_N x) + 3 * acc) (1 + salt) b.

(** A degenerate hash: no value is a multiple of 4. *)
Definition odd_hash (b : list Byte.byte) : Z := 1.

Definition generator : Torch.Generator :=
  {| Torch.draws := fun n => Z.of_nat ((n * n + 5 * n + 1) / 7); Torch.pos := 0 |}.

(** Another generator state that happens to produce the same values. *)
Definition shifted_generator : Torch.Generator :=
  {| Torch.draws := fun n => Z.of_nat ((n * n + 5 * n + 1) / 7) + 3 * 2 ^ 24;
     Torch.pos := 0 |}.

Definition train_dataset : SortDataset.t :=
  {| SortDataset.split := "train"; SortDataset.length := 6; SortDataset.num_digits := 3 |}.

Definition test_dataset : SortDataset.t :=
  {| SortDataset.split := "test"; SortDataset.length := 6; SortDataset.num_digits := 3 |}.

(** A single process, no GPU, and no [LOCAL_RANK] in the environment. *)
Definition env : Trainer.Env :=
  {| Trainer.environ := ∅;
     Trainer.cuda_is_available := false;
     Trainer.process_group_ok := true;
     Trainer.world_size := 1;
     Trainer.time_time := fun n => (Z.of_nat n # 1)%Q |}.

Definition model : Trainer.Model :=
  {| Trainer.placed := None; Trainer.sharded := false;
     Trainer.training := false; Trainer.grad := None |}.

(** A trainer with the attributes [__init__] was written to set. *)
Definition trainer (c : CfgNode.t) : Trainer.t :=
  {| Trainer.config := c;
     Trainer.model := Trainer.to (Trainer.DevName "cpu") model;
     Trainer.optimizer := None;
     Trainer.train_dataset := train_dataset;
     Trainer.callbacks := ∅;
     Trainer.lists := [];
     Trainer.use_fsdp := CfgNode.use_fsdp c;
     Trainer.device := Trainer.DevName "cpu";
     Trainer.iter_num := 0;
     Trainer.iter_time := 0%Q;
     Trainer.iter_dt := 0%Q;
     Trainer.loss := None;
     Trainer.train_loader := None |}.

(** The same trainer once [run] has built its optimizer, with ten
    batches left in the iterator. *)
Definition ready (c : CfgNode.t) : Trainer.t :=
  Trainer.set_optimizer
    (Some (Trainer.configure_optimizers (Trainer.model (trainer c)) c)) (trainer c).

Definition frame : Trainer.Frame :=
  {| Trainer.data_iter := 10; Trainer.served := 0; Trainer.clock := 1;
     Trainer.log := [] |}.

(** The default configuration with two passes per optimizer step and
    a single iteration. *)
Definition two_passes : CfgNode.t :=
  CfgNode.set_max_iters (Some 1)
    (CfgNode.set_cross_batch_num 2 Trainer.get_default_config).

(** The default configuration with sharded training switched on. *)
Definition sharded : CfgNode.t :=
  CfgNode.set_use_fsdp true Trainer.get_default_config.

(** Callbacks that only look. *)
Definition quiet (c : Trainer.cbid) (s : Trainer.t) : exn + Trainer.t := inr s.

(** Callback 7 raises; the others only look. *)
Definition faulty (c : Trainer.cbid) (s : Trainer.t) : exn + Trainer.t :=
  if (c =? 7)%nat then inl (CallbackError c) else inr s.

End Sample.

(** ** The statements of the specification that the code does not meet,
    as they are written *)

(** "[__init__] raises a NameError before any field assignment
    completes": the object is still without attributes when the
    exception leaves [__init__]. *)
Definition raises_before_any_assignment (env : Trainer.Env) (config : CfgNode.t)
    (model : Trainer.Model) (train_dataset : SortDataset.t) : Prop :=
  exists name,
    Trainer.__init__ env config model train_dataset ∅ = (Raised (NameError name), ∅).

(** ** train_fsdp.py: the functions of the script *)

Module Script.

(** What these functions raise besides the exceptions of [exn]. *)
Inductive failure : Type :=
| KeyError (key : string)
| IndexError
| Raise (e : exn).

(** A batch as the data loader collates it: one pair [(x, y)] per row. *)
Definition batch : Type := list (list Z * list Z).

(** *** Two-dimensional tensors as lists of rows *)

Definition width (a : list (list Z)) : nat :=
  match a with
  | [] => O
  | r :: _ => length r
  end.

(** Two sizes of one dimension can be broadcast together when they are
    equal or one of them is 1. *)
Definition broadcastable (m n : nat) : bool :=
  (m =? n)%nat || (m =? 1)%nat || (n =? 1)%nat.

Definition broadcast_dim (m n : nat) : nat :=
  if (m =? 1)%nat then n else m.

(** Entry [(i, j)] of [a] seen at the broadcast shape. *)
Definition at2 (a : list (list Z)) (i j : nat) : Z :=
  let r := default [] (a !! (if (length a =? 1)%nat then O else i)) in
  default 0 (r !! (if (width a =? 1)%nat then O else j)).

(** [(a == b).all(1)] *)
Definition eq_all1 (a b : list (list Z)) : exn + list bool :=
  if broadcastable (length a) (length b) && broadcastable (width a) (width b) then
    inr (map (fun i =>
                forallb (fun j => at2 a i j =? at2 b i j)
                  (seq 0 (broadcast_dim (width a) (width b))))
           (seq 0 (broadcast_dim (length a) (length b))))
  else inl (RuntimeError "The size of tensor a must match the size of tensor b").

(** *** eval_split, lines 184-210 *)

(** The variables the loop of [eval_split] updates, and the lines it
    prints about mistakes: input, candidate and ground truth. *)
Record progress : Type := {
  results : list Z;
  mistakes_printed_already : Z;
  printed : list (list Z * list Z * list Z)
}.

Definition progress0 : progress :=
  {| results := []; mistakes_printed_already := 0; printed := [] |}.

Definition index {A} (l : list A) (i : nat) : failure + A :=
  match l !! i with
  | Some a => inr a
  | None => inl IndexError
  end.

(** Lines 202-205: the body of [for i in range(x.size(0))]. *)
Definition record_row (inp sol_candidate sol : list (list Z)) (correct : list bool)
    (st : progress) (i : nat) : failure + progress :=
  match index correct i with
  | inl e => inl e
  | inr c =>
      let results' := results st ++ [if c then 1 else 0] in
      if negb c && (mistakes_printed_already st <? 3) then
        match index inp i, index sol_candidate i, index sol i with
        | inr a, inr b, inr d =>
            inr {| results := results';
                   mistakes_printed_already := mistakes_printed_already st + 1;
                   printed := printed st ++ [(a, b, d)] |}
        | inl e, _, _ => inl e
        | _, inl e, _ => inl e
        | _, _, inl e => inl e
        end
      else
        inr {| results := results';
               mistakes_printed_already := mistakes_printed_already st;
               printed := printed st |}
  end.

Fixpoint record_rows (inp sol_candidate sol : list (list Z)) (correct : list bool)
    (rows : list nat) (st : progress) : failure + progress :=
  match rows with
  | [] => inr st
  | i :: rows' =>
      match record_row inp sol_candidate sol correct st i with
      | inl e => inl e
      | inr st' => record_rows inp sol_candidate sol correct rows' st'
      end
  end.

Section EvalSplit.

(** [model.generate(inp, n, do_sample=False)] *)
Variable generate : list (list Z) -> Z -> list (list Z).

(** The two datasets of the script, and the batches that
    [DataLoader(dataset, batch_size=100, num_workers=0, drop_last=False)]
    yields for each of them. *)
Variable train_dataset test_dataset : SortDataset.t.
Variable loader : SortDataset.t -> list batch.

(** Lines 191-205: the body of [for b, (x, y) in enumerate(loader)] up
    to the test on [max_batches]. *)
Definition eval_batch (n : Z) (xy : batch) (st : progress) : failure + progress :=
  let x := map fst xy in
  let y := map snd xy in
  let inp := map (fun r => Py.slice_to r n) x in
  let sol := map (fun r => Py.slice_from r (- n)) y in
  let cat := generate inp n in
  let sol_candidate := map (fun r => Py.slice_from r n) cat in
  match eq_all1 sol sol_candidate with
  | inl e => inl (Raise e)
  | inr correct => record_rows inp sol_candidate sol correct (seq 0 (length x)) st
  end.

(** Lines 190-207; [b] is the index [enumerate] has reached. *)
Fixpoint batches_loop (n : Z) (max_batches : option Z) (b : nat)
    (batches : list batch) (st : progress) : failure + progress :=
  match batches with
  | [] => inr st
  | xy :: rest =>
      match eval_batch n xy st with
      | inl e => inl e
      | inr st' =>
          if match max_batches with
             | Some m => Z.of_nat b + 1 >=? m
             | None => false
             end
          then inr st'
          else batches_loop n max_batches (S b) rest st'
      end
  end.

(** [eval_split(trainer, split, max_batches)]: the returned [rt.sum()]
    and what the loop left behind. *)
Definition eval_split (split : string) (max_batches : option Z)
  : failure + Z * progress :=
  match (if String.eqb split "train" then Some train_dataset
         else if String.eqb split "test" then Some test_dataset
         else None) with
  | None => inl (KeyError split)
  | Some dataset =>
      let n := SortDataset.length train_dataset in
      match batches_loop n max_batches 0 (loader dataset) progress0 with
      | inl e => inl e
      | inr st => inr (foldr Z.add 0 (results st), st)
      end
  end.

End EvalSplit.

(** A row that the dataset can produce. *)
Definition is_example (dataset : SortDataset.t) (row : list Z * list Z) : Prop :=
  exists inp,
    length inp = Z.to_nat (SortDataset.length dataset) /\
    row = SortDataset.example_of dataset inp.

(** Whether a model that continues an input [r] with [complete r]
    continues the input of [row] with its sorted copy. *)
Definition sorts (complete : list Z -> list Z) (n : Z) (row : list Z * list Z) : bool :=
  bool_decide (complete (Py.slice_to (fst row) n) = Torch.sort (Py.slice_to (fst row) n)).

(** *** plot_memory_usage, lines 134-140 *)

(** The two numbers of the line that is printed: [max(memory_usage)] and,
    under the name of minimum, [memory_usage[0]]. *)
Definition plot_memory_usage (memory_usage : list Z) : exn + Z * Z :=
  match memory_usage with
  | [] => inl (ValueError "max() arg is an empty sequence")
  | first :: rest => inr (foldl Z.max first rest, first)
  end.

End Script.

(** ** More concrete instances *)

Module Demo.

(** A model that completes every row with its sorted copy. *)
Definition sorter (inp : list (list Z)) (n : Z) : list (list Z) :=
  map (fun r => r ++ Torch.sort r) inp.

(** A model that completes every row with the row itself. *)
Definition echo (inp : list (list Z)) (n : Z) : list (list Z) :=
  map (fun r => r ++ r) inp.

(** Batches of two rows each, built from inputs of length 6. *)
Definition loader (d : SortDataset.t) : list Script.batch :=
  map (map (SortDataset.example_of d))
    [ [[0; 0; 2; 1; 0; 1]; [2; 1; 0; 2; 1; 0]];
      [[1; 1; 1; 0; 0; 0]; [0; 1; 2; 0; 1; 2]];
      [[2; 2; 2; 2; 2; 1]; [0; 0; 0; 0; 0; 0]] ].


(** Callback 5 registers callback 9 for "on_batch_end" when it is
    called; the others only look. *)
Definition registrar (c : Trainer.cbid) (s : Trainer.t) : exn + Trainer.t :=
  if (c =? 5)%nat then inr (Trainer.add_callback "on_batch_end" 9%nat s) else inr s.

(** Every callback registers itself once more for "on_batch_end". *)
Definition self_registering (c : Trainer.cbid) (s : Trainer.t) : exn + Trainer.t :=
  inr (Trainer.add_callback "on_batch_end" c s).

(** Callback 5 binds "on_batch_end" to a new list that holds callback
    9; the others only look. *)
Definition replacer (c : Trainer.cbid) (s : Trainer.t) : exn + Trainer.t :=
  if (c =? 5)%nat then inr (Trainer.set_callback "on_batch_end" 9%nat s) else inr s.

(** A callback that raises once it sees [iter_num = 3]. *)
Definition stop_at_three (c : Trainer.cbid) (s : Trainer.t) : exn + Trainer.t :=
  if Trainer.iter_num s =? 3 then inl (CallbackError 3) else inr s.

End Demo.


(** The call [destroy_process_group()] of line 179. *)
Definition is_destroy (e : Trainer.event) : bool :=
  match e with Trainer.EDestroy => true | _ => false end.
(** ** Proof steps that recur *)

(** Unfolds the primitives of the training loop. *)
Ltac unfold_eff :=
  unfold Trainer.micro_batch, Trainer.fetch, Trainer.forward, Trainer.zero_grad,
    Trainer.backward, Trainer.clip_grad_norm_, Trainer.optimizer_step,
    Trainer.emit, Trainer.update, Trainer.self_, Trainer.now, Trainer.next_,
    Trainer.append_log, Trainer.tick,
    Eff.try_except, Eff.bind, Eff.modify, Eff.ret, Eff.raise, Eff.lift.

(** Unfolds the field updates. *)
Ltac unfold_setters :=
  unfold Trainer.after_micro, Trainer.set_model, Trainer.set_loss, Trainer.set_grad,
    Trainer.set_iter_num, Trainer.set_iter_time, Trainer.set_iter_dt,
    Trainer.set_optimizer, Trainer.set_train_loader, Trainer.set_training,
    Trainer.set_data_iter, Trainer.set_callbacks.

(** * Properties *)

(** ** The sort dataset *)

Lemma bound_nonneg (len : nat) (i : Z) :
  0 <= i <= Z.of_nat len -> Py.bound len i = Z.to_nat i.
Proof.
  intros Hi. unfold Py.bound. cbv zeta.
  destruct (Z.ltb_spec i 0); [lia |].
  repeat (match goal with
          | |- context [?a <? ?b] => destruct (Z.ltb_spec a b)
          end; try lia); reflexivity || lia.
Qed.

Lemma bound_minus_one (len : nat) :
  (1 <= len)%nat -> Py.bound len (-1) = (len - 1)%nat.
Proof.
  intros Hlen. unfold Py.bound. cbv zeta.
  change (-1 <? 0) with true. cbv iota.
  repeat (match goal with
          | |- context [?a <? ?b] => destruct (Z.ltb_spec a b)
          end; try lia); reflexivity || lia.
Qed.

Lemma randint_inv (high n : Z) (g g' : Torch.Generator) (l : list Z) :
  Torch.randint high n g = inr (l, g') ->
  0 <= n /\ length l = Z.to_nat n /\ Forall (fun v => 0 <= v < high) l.
Proof.
  unfold Torch.randint.
  destruct (Z.leb_spec high 0) as [|Hhigh]; [discriminate |].
  destruct (Z.ltb_spec n 0) as [|Hn]; [discriminate |].
  intros [= <- <-]. split; [lia |]. split.
  - rewrite length_map, length_seq. reflexivity.
  - apply Forall_forall. intros v Hv.
    apply list_elem_of_fmap in Hv as (i & -> & _).
    apply Z.mod_pos_bound. lia.
Qed.

Section SortDatasetFacts.

Variable pickle_dumps : list Z -> list Byte.byte.
Variable hash : list Byte.byte -> Z.

Lemma attempt_break (self : SortDataset.t) (g g' : Torch.Generator) (inp : list Z) :
  SortDataset.attempt pickle_dumps hash self g = inr (SortDataset.Break inp, g') ->
  SortDataset.inp_split pickle_dumps hash inp = SortDataset.split self /\
  0 <= SortDataset.length self /\
  length inp = Z.to_nat (SortDataset.length self) /\
  Forall (fun v => 0 <= v < SortDataset.num_digits self) inp.
Proof.
  unfold SortDataset.attempt.
  destruct (Torch.randint _ _ g) as [e | [l g1]] eqn:Hdraw; [discriminate |].
  destruct (Torch.rand_lt_half g1) as [coin g2].
  destruct (coin && _); [discriminate |].
  destruct (String.eqb _ _) eqn:Hlabel; [| discriminate].
  intros [= <- <-]. apply String.eqb_eq in Hlabel.
  apply randint_inv in Hdraw as (? & ? & ?). auto.
Qed.

Lemma sample_done (fuel : nat) (self : SortDataset.t) (g g' : Torch.Generator)
    (inp : list Z) :
  SortDataset.sample pickle_dumps hash fuel self g = (Done inp, g') ->
  exists g0, SortDataset.attempt pickle_dumps hash self g0
             = inr (SortDataset.Break inp, g').
Proof.
  revert g. induction fuel as [| fuel IH]; intros g; simpl; [discriminate |].
  destruct (SortDataset.attempt _ _ self g) as [e | [[| inp'] g1]] eqn:Hstep.
  - discriminate.
  - apply IH.
  - intros [= <- <-]. eauto.
Qed.

Lemma getitem_done (fuel : nat) (self : SortDataset.t) (idx : Z)
    (g g' : Torch.Generator) (xy : list Z * list Z) :
  SortDataset.__getitem__ pickle_dumps hash fuel self idx g = (Done xy, g') ->
  exists inp, SortDataset.sample pickle_dumps hash fuel self g = (Done inp, g') /\
              xy = SortDataset.example_of self inp.
Proof.
  unfold SortDataset.__getitem__.
  destruct (SortDataset.sample _ _ fuel self g) as [[inp | e |] g1];
    [| discriminate | discriminate].
  intros [= <- <-]. eauto.
Qed.

End SortDatasetFacts.

Lemma example_of_shape (self : SortDataset.t) (inp : list Z) :
  1 <= SortDataset.length self ->
  length inp = Z.to_nat (SortDataset.length self) ->
  SortDataset.example_of self inp =
    (inp ++ take (length inp - 1) (Torch.sort inp),
     replicate (length inp - 1) (-1) ++ Torch.sort inp).
Proof.
  intros HL Hlen. unfold SortDataset.example_of.
  assert (Hsol : length (Torch.sort inp) = length inp).
  { unfold Torch.sort. apply Permutation_length, merge_sort_Permutation. }
  assert (Hpos : (1 <= length inp)%nat) by lia.
  f_equal.
  - unfold Py.slice_to. rewrite bound_minus_one by (rewrite length_app; lia).
    rewrite length_app, take_app. rewrite take_ge by lia.
    f_equal. f_equal. lia.
  - unfold Py.fill_to, Py.slice_from.
    rewrite (bound_nonneg _ 1) by (rewrite length_app; lia).
    rewrite length_drop, length_app.
    rewrite bound_nonneg by lia.
    replace (Z.to_nat (SortDataset.length self - 1)) with (length inp - 1)%nat by lia.
    f_equal. rewrite drop_drop.
    replace (Z.to_nat 1 + (length inp - 1))%nat with (length inp) by lia.
    apply drop_app_length.
Qed.

(** C6. In the interpreter process that runs the call, the split label
    of a generated example is "test" exactly when the builtin hash of the
    serialized content is 0 modulo 4 and "train" otherwise, and whenever
    the same content leaves the rejection loop of two calls made in that
    process, whatever their generator states, retry budgets and datasets,
    both calls were made for the same split. But the builtin hash of
    bytes is salted per process, so the label is not a function of the
    content alone: where the hashes of two processes disagree on a
    content, a pass of the loop body that accepts it for the train split
    in one accepts it, from the same generator state, for the test split
    in the other. *)
Theorem split_label_follows_the_hash_of_the_process
    (pickle_dumps : list Z -> list Byte.byte) (hash : Z -> list Byte.byte -> Z) :
  (forall salt inp,
     SortDataset.inp_split pickle_dumps (hash salt) inp = "test" <->
     hash salt (pickle_dumps inp) `mod` 4 = 0) /\
  (forall salt inp,
     SortDataset.inp_split pickle_dumps (hash salt) inp = "train" <->
     hash salt (pickle_dumps inp) `mod` 4 <> 0) /\
  (forall salt fuel1 fuel2 self1 self2 g1 g2 g1' g2' inp1 inp2,
     SortDataset.sample pickle_dumps (hash salt) fuel1 self1 g1 = (Done inp1, g1') ->
     SortDataset.sample pickle_dumps (hash salt) fuel2 self2 g2 = (Done inp2, g2') ->
     inp1 = inp2 ->
     SortDataset.split self1 = SortDataset.split self2) /\
  (forall salt1 salt2 self1 self2 g g' inp,
     SortDataset.attempt pickle_dumps (hash salt1) self1 g
     = inr (SortDataset.Break inp, g') ->
     SortDataset.split self1 = "train" ->
     SortDataset.split self2 = "test" ->
     SortDataset.length self2 = SortDataset.length self1 ->
     SortDataset.num_digits self2 = SortDataset.num_digits self1 ->
     hash salt2 (pickle_dumps inp) `mod` 4 = 0 ->
     hash salt1 (pickle_dumps inp) `mod` 4 <> 0 /\
     SortDataset.attempt pickle_dumps (hash salt2) self2 g
     = inr (SortDataset.Break inp, g')).
Proof.
  split; [| split; [| split]].
  - intros salt inp. unfold SortDataset.inp_split. cbv zeta.
    destruct (Z.eqb_spec (hash salt (pickle_dumps inp) `mod` 4) 0); split;
      (done || congruence).
  - intros salt inp. unfold SortDataset.inp_split. cbv zeta.
    destruct (Z.eqb_spec (hash salt (pickle_dumps inp) `mod` 4) 0); split;
      (done || congruence).
  - intros salt fuel1 fuel2 self1 self2 g1 g2 g1' g2' inp1 inp2 H1 H2 ->.
    apply sample_done in H1 as [h1 H1]. apply sample_done in H2 as [h2 H2].
    apply attempt_break in H1 as [<- _]. apply attempt_break in H2 as [<- _].
    reflexivity.
  - intros salt1 salt2 self1 self2 g g' inp Hstep Htrain Htest Hlen Hdigits Hzero.
    pose proof (attempt_break _ _ _ _ _ _ Hstep) as [Hlabel _].
    split.
    + rewrite Htrain in Hlabel. unfold SortDataset.inp_split in Hlabel.
      cbv zeta in Hlabel.
      destruct (Z.eqb_spec (hash salt1 (pickle_dumps inp) `mod` 4) 0);
        [discriminate | assumption].
    + revert Hstep. unfold SortDataset.attempt. rewrite Hlen, Hdigits.
      destruct (Torch.randint _ _ g) as [e | [l g1]]; [discriminate |].
      destruct (Torch.rand_lt_half g1) as [coin g2].
      destruct (coin && _); [discriminate |].
      destruct (String.eqb _ _); [| discriminate].
      intros [= -> ->]. unfold SortDataset.inp_split. cbv zeta.
      rewrite Hzero, Htest. reflexivity.
Qed.

Lemma split_label_follows_the_hash_of_the_process_witness :
  SortDataset.attempt Sample.dumps (Sample.salted_hash 0) Sample.train_dataset
    Sample.generator
  = inr (SortDataset.Break [0; 1; 2; 0; 2; 1],
         snd (SortDataset.sample Sample.dumps (Sample.salted_hash 0) 1
                Sample.train_dataset Sample.generator)) /\
  Sample.salted_hash 0 (Sample.dumps [0; 1; 2; 0; 2; 1]) `mod` 4 <> 0 /\
  SortDataset.attempt Sample.dumps (Sample.salted_hash 1) Sample.test_dataset
    Sample.generator
  = inr (SortDataset.Break [0; 1; 2; 0; 2; 1],
         snd (SortDataset.sample Sample.dumps (Sample.salted_hash 0) 1
                Sample.train_dataset Sample.generator)).
Proof.
  assert (Hstep : SortDataset.attempt Sample.dumps (Sample.salted_hash 0)
                    Sample.train_dataset Sample.generator
                  = inr (SortDataset.Break [0; 1; 2; 0; 2; 1],
                         snd (SortDataset.sample Sample.dumps (Sample.salted_hash 0) 1
                                Sample.train_dataset Sample.generator)))
    by (vm_compute; reflexivity).
  split; [exact Hstep |].
  apply (proj2 (proj2 (proj2
           (split_label_follows_the_hash_of_the_process Sample.dumps
              Sample.salted_hash)))
           0 1 Sample.train_dataset Sample.test_dataset Sample.generator _
           [0; 1; 2; 0; 2; 1] Hstep); reflexivity.
Defined.

(** The same by evaluation of [__getitem__]: the train dataset of a
    process with salt 0 and the test dataset of a process with salt 1
    return the same example. *)
Example same_example_served_for_both_splits :
  fst (SortDataset.__getitem__ Sample.dumps (Sample.salted_hash 0) 1
         Sample.train_dataset 0 Sample.generator)
  = Done ([0; 1; 2; 0; 2; 1; 0; 0; 1; 1; 2], [-1; -1; -1; -1; -1; 0; 0; 1; 1; 2; 2]) /\
  fst (SortDataset.__getitem__ Sample.dumps (Sample.salted_hash 1) 1
         Sample.test_dataset 0 Sample.generator)
  = Done ([0; 1; 2; 0; 2; 1; 0; 0; 1; 1; 2], [-1; -1; -1; -1; -1; 0; 0; 1; 1; 2; 2]).
Proof. vm_compute. split; reflexivity. Qed.

(** C7. For every pair [(x, y)] that [__getitem__] returns for a dataset
    of sequence length [L >= 1]: [x] and [y] both have length [2L - 1];
    the first [L - 1] positions of [y] hold the ignore value -1 and no
    other position of [y] does; the remaining [L] positions of [y] are in
    non-decreasing order and are a permutation of the first [L] positions
    of [x], the input sequence. *)
Theorem getitem_example_shape
    (pickle_dumps : list Z -> list Byte.byte) (hash : list Byte.byte -> Z)
    (fuel : nat) (self : SortDataset.t) (idx : Z) (g g' : Torch.Generator)
    (x y : list Z) :
  1 <= SortDataset.length self ->
  SortDataset.__getitem__ pickle_dumps hash fuel self idx g = (Done (x, y), g') ->
  let L := Z.to_nat (SortDataset.length self) in
  Z.of_nat (length x) = 2 * SortDataset.length self - 1 /\
  length y = length x /\
  take (L - 1) y = replicate (L - 1) (-1) /\
  (forall i, y !! i = Some (-1) -> (i < L - 1)%nat) /\
  Sorted Z.le (drop (L - 1) y) /\
  drop (L - 1) y ≡ₚ take L x.
Proof.
  intros HL Hget L.
  apply getitem_done in Hget as (inp & Hsample & Hxy).
  apply sample_done in Hsample as [g0 Hstep].
  apply attempt_break in Hstep as (_ & _ & Hlen & Hrange).
  rewrite example_of_shape in Hxy by assumption.
  injection Hxy as -> ->.
  assert (Hsol : length (Torch.sort inp) = length inp).
  { unfold Torch.sort. apply Permutation_length, merge_sort_Permutation. }
  assert (HLn : L = length inp) by (unfold L; lia).
  rewrite HLn.
  assert (Htail : drop (length inp - 1) (replicate (length inp - 1) (-1) ++ Torch.sort inp)
                  = Torch.sort inp).
  { apply drop_app_length'. rewrite length_replicate. reflexivity. }
  repeat split.
  - rewrite length_app, length_take. lia.
  - rewrite !length_app, length_replicate, length_take. lia.
  - apply take_app_length'. rewrite length_replicate. reflexivity.
  - intros i Hi.
    destruct (Nat.lt_ge_cases i (length inp - 1)) as [| Hge]; [assumption | exfalso].
    rewrite lookup_app_r in Hi by (rewrite length_replicate; lia).
    apply list_elem_of_lookup_2 in Hi.
    unfold Torch.sort in Hi. rewrite merge_sort_Permutation in Hi.
    rewrite Forall_forall in Hrange. apply Hrange in Hi. lia.
  - rewrite Htail. unfold Torch.sort. apply Sorted_merge_sort. apply _.
  - rewrite Htail, take_app_length. unfold Torch.sort. apply merge_sort_Permutation.
Qed.

Lemma getitem_example_shape_witness :
  let x := [0; 1; 2; 0; 2; 1; 0; 0; 1; 1; 2] in
  let y := [-1; -1; -1; -1; -1; 0; 0; 1; 1; 2; 2] in
  fst (SortDataset.__getitem__ Sample.dumps Sample.hash 3 Sample.train_dataset 0
         Sample.generator) = Done (x, y) /\
  Z.of_nat (length x) = 2 * 6 - 1 /\
  length y = length x /\
  take 5 y = replicate 5 (-1) /\
  (forall i, y !! i = Some (-1) -> (i < 5)%nat) /\
  Sorted Z.le (drop 5 y) /\
  drop 5 y ≡ₚ take 6 x.
Proof.
  intros x y. split; [vm_compute; reflexivity |].
  apply (getitem_example_shape Sample.dumps Sample.hash 3 Sample.train_dataset 0
           Sample.generator
           (snd (SortDataset.__getitem__ Sample.dumps Sample.hash 3
                   Sample.train_dataset 0 Sample.generator)) x y).
  - vm_compute. discriminate.
  - vm_compute. reflexivity.
Defined.

Section RejectionLoop.

Variable pickle_dumps : list Z -> list Byte.byte.
Variable hash : list Byte.byte -> Z.

Lemma sample_rejects (n : nat) (self : SortDataset.t) (g : Torch.Generator) :
  SortDataset.rejects pickle_dumps hash n self g ->
  fst (SortDataset.sample pickle_dumps hash n self g) = Timeout.
Proof.
  revert g. induction n as [| n IH]; intros g; simpl; [reflexivity |].
  intros (g1 & -> & Hrest). apply IH, Hrest.
Qed.

Lemma sample_accepts_after (n : nat) (self : SortDataset.t)
    (g g_end : Torch.Generator) (inp : list Z) :
  SortDataset.accepts_after pickle_dumps hash n self g inp g_end ->
  forall fuel,
    SortDataset.sample pickle_dumps hash fuel self g =
      if decide (n < fuel)%nat then (Done inp, g_end)
      else (Timeout, snd (SortDataset.sample pickle_dumps hash fuel self g)).
Proof.
  revert g. induction n as [| n IH]; intros g Hacc fuel; simpl in Hacc.
  - destruct fuel as [| fuel]; simpl; [reflexivity |].
    rewrite Hacc. reflexivity.
  - destruct Hacc as (g1 & Hstep & Hrest).
    destruct fuel as [| fuel]; simpl; [reflexivity |].
    rewrite Hstep, (IH _ Hrest fuel).
    destruct (decide (n < fuel)%nat), (decide (S n < S fuel)%nat);
      (reflexivity || lia).
Qed.

End RejectionLoop.

(** C8. [__getitem__] samples by rejection without a bound on the number
    of tries: a pair is returned only for an input whose split label is
    the dataset's split; for every [n], a stream that is rejected [n]
    times and then accepted makes the call return that accepted input,
    and no sooner than after [n + 1] passes; and on a stream that is
    rejected at every pass the call neither returns nor raises, however
    many passes it is given. *)
Theorem getitem_rejection_sampling_unbounded
    (pickle_dumps : list Z -> list Byte.byte) (hash : list Byte.byte -> Z)
    (self : SortDataset.t) (idx : Z) (g : Torch.Generator) :
  (forall fuel xy g',
     SortDataset.__getitem__ pickle_dumps hash fuel self idx g = (Done xy, g') ->
     exists inp,
       xy = SortDataset.example_of self inp /\
       SortDataset.inp_split pickle_dumps hash inp = SortDataset.split self) /\
  (forall n inp g',
     SortDataset.accepts_after pickle_dumps hash n self g inp g' ->
     forall fuel,
       ((n < fuel)%nat ->
        SortDataset.__getitem__ pickle_dumps hash fuel self idx g
        = (Done (SortDataset.example_of self inp), g')) /\
       ((fuel <= n)%nat ->
        fst (SortDataset.__getitem__ pickle_dumps hash fuel self idx g) = Timeout)) /\
  ((forall n, SortDataset.rejects pickle_dumps hash n self g) ->
   forall fuel,
     fst (SortDataset.__getitem__ pickle_dumps hash fuel self idx g) = Timeout).
Proof.
  split; [| split].
  - intros fuel xy g' Hget.
    apply getitem_done in Hget as (inp & Hsample & ->).
    apply sample_done in Hsample as [g0 Hstep].
    apply attempt_break in Hstep as [Hlabel _]. eauto.
  - intros n inp g' Hacc fuel. unfold SortDataset.__getitem__.
    rewrite (sample_accepts_after _ _ _ _ _ _ _ Hacc fuel).
    split; intros Hfuel; destruct (decide (n < fuel)%nat); (reflexivity || lia).
  - intros Hnever fuel. unfold SortDataset.__getitem__.
    pose proof (sample_rejects pickle_dumps hash fuel self g (Hnever fuel)) as Hout.
    destruct (SortDataset.sample pickle_dumps hash fuel self g) as [[inp | e |] g1];
      simpl in *; (reflexivity || discriminate).
Qed.

Lemma odd_hash_rejects_test (n : nat) (g : Torch.Generator) :
  SortDataset.rejects Sample.dumps Sample.odd_hash n Sample.test_dataset g.
Proof.
  revert g. induction n as [| n IH]; intros g; simpl; [exact I |].
  unfold SortDataset.attempt. simpl.
  destruct (_ && _); eauto.
Qed.

Lemma getitem_rejection_sampling_unbounded_witness :
  (exists inp,
     ([0; 0; 0; 0; 1; 2; 0; 0; 0; 0; 1], [-1; -1; -1; -1; -1; 0; 0; 0; 0; 1; 2])
     = SortDataset.example_of Sample.test_dataset inp /\
     SortDataset.inp_split Sample.dumps Sample.hash inp = "test") /\
  (SortDataset.__getitem__ Sample.dumps Sample.hash 2 Sample.test_dataset 0
     Sample.generator
   = (Done (SortDataset.example_of Sample.test_dataset [0; 0; 0; 0; 1; 2]),
      Torch.skip 7 (Torch.skip 7 Sample.generator)) /\
   fst (SortDataset.__getitem__ Sample.dumps Sample.hash 1 Sample.test_dataset 0
          Sample.generator) = Timeout) /\
  fst (SortDataset.__getitem__ Sample.dumps Sample.odd_hash 1000 Sample.test_dataset 0
         Sample.generator) = Timeout.
Proof.
  split; [| split].
  - apply (proj1 (getitem_rejection_sampling_unbounded Sample.dumps Sample.hash
                    Sample.test_dataset 0 Sample.generator)
             2%nat _ (Torch.skip 7 (Torch.skip 7 Sample.generator))).
    vm_compute. reflexivity.
  - assert (Hacc : SortDataset.accepts_after Sample.dumps Sample.hash 1
                     Sample.test_dataset Sample.generator [0; 0; 0; 0; 1; 2]
                     (Torch.skip 7 (Torch.skip 7 Sample.generator))).
    { simpl. exists (Torch.skip 7 Sample.generator).
      split; vm_compute; reflexivity. }
    split.
    + apply (proj1 (proj2 (getitem_rejection_sampling_unbounded Sample.dumps
                             Sample.hash Sample.test_dataset 0 Sample.generator))
               1%nat _ _ Hacc 2%nat). lia.
    + apply (proj1 (proj2 (getitem_rejection_sampling_unbounded Sample.dumps
                             Sample.hash Sample.test_dataset 0 Sample.generator))
               1%nat _ _ Hacc 1%nat). lia.
  - apply (proj2 (proj2 (getitem_rejection_sampling_unbounded Sample.dumps
                           Sample.odd_hash Sample.test_dataset 0 Sample.generator))).
    intros n. apply odd_hash_rejects_test.
Defined.

(** ** The training loop *)

Lemma count_app (p : Trainer.event -> bool) (l1 l2 : list Trainer.event) :
  Trainer.count p (l1 ++ l2) = (Trainer.count p l1 + Trainer.count p l2)%nat.
Proof. unfold Trainer.count. rewrite List.filter_app, length_app. reflexivity. Qed.

Lemma count_calls (p : Trainer.event -> bool) (cs : list Trainer.cbid) :
  (forall c, p (Trainer.ECall c) = false) ->
  Trainer.count p (map Trainer.ECall cs) = 0%nat.
Proof.
  intros Hp. induction cs as [| c cs IH]; [reflexivity |].
  unfold Trainer.count in *. cbn. rewrite Hp. exact IH.
Qed.

Lemma micro_batch_ok (self : Trainer.t) (fr : Trainer.Frame) :
  Trainer.data_iter fr <> 0%N ->
  Trainer.micro_batch (self, fr) =
    (Done tt,
     (Trainer.after_micro (Trainer.served fr) self,
      Trainer.frame_after (CfgNode.grad_norm_clip (Trainer.config self)) 1 fr)).
Proof.
  intros Hdata. destruct fr as [d sv c l], self as [cfg [] ? ? ? ? ? ? ? ? ? ? ?].
  simpl in Hdata. unfold_eff. cbn.
  destruct (N.eqb_spec d 0) as [| _]; [contradiction |].
  unfold Trainer.frame_after. unfold_setters. cbn.
  rewrite N.add_0_r, <- !app_assoc. cbn.
  do 3 f_equal; lia.
Qed.

Lemma micro_batch_exhausted (self : Trainer.t) (fr : Trainer.Frame) :
  Trainer.data_iter fr = 0%N ->
  Trainer.micro_batch (self, fr) = (Raised (NameError "train_loader"), (self, fr)).
Proof.
  intros Hdata. destruct fr as [d sv c l]. simpl in Hdata. subst d.
  reflexivity.
Qed.

Lemma bind_ok {S A B} (m : Eff.M S A) (k : A -> Eff.M S B) (s s' : S) (a : A) :
  m s = (Done a, s') -> Eff.bind m k s = k a s'.
Proof. intros H. unfold Eff.bind. rewrite H. reflexivity. Qed.

Lemma bind_raise {S A B} (m : Eff.M S A) (k : A -> Eff.M S B) (s s' : S) (e : exn) :
  m s = (Raised e, s') -> Eff.bind m k s = (Raised e, s').
Proof. intros H. unfold Eff.bind. rewrite H. reflexivity. Qed.

Lemma append_log_app (a b : list Trainer.event) (f : Trainer.Frame) :
  Trainer.append_log b (Trainer.append_log a f) = Trainer.append_log (a ++ b) f.
Proof. unfold Trainer.append_log. simpl. rewrite app_assoc. reflexivity. Qed.

Lemma batches_S (first : N) (n : nat) :
  Trainer.batches first (S n) = first :: Trainer.batches (first + 1) n.
Proof.
  unfold Trainer.batches. simpl. rewrite N.add_0_r. f_equal.
  rewrite <- seq_shift, map_map. apply map_ext. intros i. lia.
Qed.

Lemma after_micro_twice (b b' : Trainer.batch) (self : Trainer.t) :
  Trainer.after_micro b (Trainer.after_micro b' self) = Trainer.after_micro b self.
Proof. destruct self as [cfg [] ? ? ? ? ? ? ? ? ? ? ?]. reflexivity. Qed.

Lemma after_micros_config (first : N) (n : nat) (self : Trainer.t) :
  Trainer.config (Trainer.after_micros first n self) = Trainer.config self /\
  Trainer.optimizer (Trainer.after_micros first n self) = Trainer.optimizer self /\
  Trainer.callbacks (Trainer.after_micros first n self) = Trainer.callbacks self /\
  Trainer.iter_num (Trainer.after_micros first n self) = Trainer.iter_num self.
Proof. destruct n; simpl; auto. Qed.

Lemma after_micros_grad (first : N) (n : nat) (self : Trainer.t) :
  Trainer.grad (Trainer.model (Trainer.after_micros first (S n) self))
  = Some [(first + N.of_nat n)%N].
Proof. reflexivity. Qed.

Lemma frame_after_S (clip : Q) (n : nat) (fr : Trainer.Frame) :
  Trainer.frame_after clip n (Trainer.frame_after clip 1 fr)
  = Trainer.frame_after clip (S n) fr.
Proof.
  unfold Trainer.frame_after. cbn [Trainer.data_iter Trainer.served Trainer.clock Trainer.log].
  rewrite (batches_S (Trainer.served fr) n).
  change (Trainer.batches (Trainer.served fr) 1) with [(Trainer.served fr + 0)%N].
  rewrite N.add_0_r. cbn [map concat]. rewrite app_nil_r, <- app_assoc.
  f_equal; lia.
Qed.

Lemma repeat_micro_ok (n : nat) (self : Trainer.t) (fr : Trainer.Frame) :
  (N.of_nat n <= Trainer.data_iter fr)%N ->
  Eff.repeat_ n Trainer.micro_batch (self, fr) =
    (Done tt,
     (Trainer.after_micros (Trainer.served fr) n self,
      Trainer.frame_after (CfgNode.grad_norm_clip (Trainer.config self)) n fr)).
Proof.
  revert self fr. induction n as [| n IH]; intros self fr Hdata.
  - unfold Trainer.frame_after. destruct fr. cbn.
    rewrite N.sub_0_r, N.add_0_r, app_nil_r. reflexivity.
  - cbn [Eff.repeat_]. erewrite bind_ok by (apply micro_batch_ok; lia).
    rewrite IH by (cbn; lia).
    assert (Hcfg : Trainer.config (Trainer.after_micro (Trainer.served fr) self)
                   = Trainer.config self) by reflexivity.
    rewrite Hcfg, frame_after_S. do 2 f_equal.
    destruct n as [| n]; cbn [Trainer.after_micros].
    + rewrite N.add_0_r. reflexivity.
    + rewrite after_micro_twice. f_equal. cbn. lia.
Qed.

Lemma repeat_micro_exhausted (n : nat) (self : Trainer.t) (fr : Trainer.Frame) :
  (Trainer.data_iter fr < N.of_nat n)%N ->
  exists s', Eff.repeat_ n Trainer.micro_batch (self, fr)
             = (Raised (NameError "train_loader"), s').
Proof.
  revert self fr. induction n as [| n IH]; intros self fr Hdata; [lia |].
  cbn [Eff.repeat_].
  destruct (N.eq_dec (Trainer.data_iter fr) 0) as [Hz | Hnz].
  - erewrite bind_raise by (apply micro_batch_exhausted; assumption). eauto.
  - erewrite bind_ok by (apply micro_batch_ok; assumption).
    apply IH. cbn. lia.
Qed.

Lemma after_micros_lists (first : N) (n : nat) (self : Trainer.t) :
  Trainer.lists (Trainer.after_micros first n self) = Trainer.lists self /\
  Trainer.iter_time (Trainer.after_micros first n self) = Trainer.iter_time self.
Proof. destruct n; simpl; auto. Qed.

Lemma append_log_nil (f : Trainer.Frame) : Trainer.append_log [] f = f.
Proof. destruct f. unfold Trainer.append_log. cbn. rewrite app_nil_r. reflexivity. Qed.

Section Callbacks.

Variable call : Trainer.cbid -> Trainer.t -> exn + Trainer.t.

Lemma invoke_eq (c : Trainer.cbid) (self : Trainer.t) (fr : Trainer.Frame) :
  Trainer.invoke call c (self, fr) =
    match call c self with
    | inl e => (Raised e, (self, Trainer.append_log [Trainer.ECall c] fr))
    | inr self' => (Done tt, (self', Trainer.append_log [Trainer.ECall c] fr))
    end.
Proof. reflexivity. Qed.

Lemma trigger_eq (fuel : nat) (onevent : string) (self : Trainer.t)
    (fr : Trainer.Frame) :
  Trainer.trigger_callbacks call fuel onevent (self, fr) =
    match Trainer.callbacks self !! onevent with
    | Some l =>
        Eff.for_each_live fuel (fun s => Trainer.items l (fst s)) 0
          (Trainer.invoke call)
          (self, Trainer.append_log [Trainer.ETrigger onevent] fr)
    | None => (Done tt, (self, Trainer.append_log [Trainer.ETrigger onevent] fr))
    end.
Proof.
  unfold Trainer.trigger_callbacks, Eff.bind, Trainer.emit, Eff.modify,
    Trainer.self_. cbn [fst snd].
  destruct (Trainer.callbacks self !! onevent); reflexivity.
Qed.

(** One round of the loop over a live list. *)
Lemma for_each_live_step (fuel : nat) (l : nat) (i : nat)
    (self : Trainer.t) (fr : Trainer.Frame) :
  Eff.for_each_live fuel (fun s => Trainer.items l (fst s)) i (Trainer.invoke call)
    (self, fr) =
    match Trainer.items l self !! i with
    | None => (Done tt, (self, fr))
    | Some c =>
        match fuel with
        | O => (Timeout, (self, fr))
        | S fuel' =>
            match call c self with
            | inl e => (Raised e, (self, Trainer.append_log [Trainer.ECall c] fr))
            | inr self' =>
                Eff.for_each_live fuel' (fun s => Trainer.items l (fst s)) (S i)
                  (Trainer.invoke call)
                  (self', Trainer.append_log [Trainer.ECall c] fr)
            end
        end
    end.
Proof.
  destruct fuel as [| fuel']; cbn [Eff.for_each_live fst];
    destruct (Trainer.items l self !! i) as [c |]; try reflexivity.
  unfold Eff.bind. rewrite invoke_eq. destruct (call c self); reflexivity.
Qed.

(** Whatever the callbacks do, a dispatch adds to the record the calls
    it makes, and nothing else. *)
Lemma for_each_live_log (fuel : nat) (l : nat) :
  forall (i : nat) (self : Trainer.t) (fr : Trainer.Frame),
  exists called self' r,
    Eff.for_each_live fuel (fun s => Trainer.items l (fst s)) i (Trainer.invoke call)
      (self, fr)
    = (r, (self', Trainer.append_log (map Trainer.ECall called) fr)).
Proof.
  induction fuel as [| fuel IH]; intros i self fr; rewrite for_each_live_step;
    destruct (Trainer.items l self !! i) as [c |];
    try (exists [], self; eexists; rewrite append_log_nil; reflexivity).
  destruct (call c self) as [e | self1].
  - exists [c], self, (Raised e). reflexivity.
  - destruct (IH (S i) self1 (Trainer.append_log [Trainer.ECall c] fr))
      as (called & self' & r & ->).
    exists (c :: called), self', r. rewrite append_log_app. reflexivity.
Qed.

Lemma trigger_log (fuel : nat) (onevent : string) (self : Trainer.t)
    (fr : Trainer.Frame) :
  exists called self' r,
    Trainer.trigger_callbacks call fuel onevent (self, fr)
    = (r, (self', Trainer.append_log
                    (Trainer.ETrigger onevent :: map Trainer.ECall called) fr)).
Proof.
  rewrite trigger_eq. destruct (Trainer.callbacks self !! onevent) as [l |].
  - destruct (for_each_live_log fuel l 0 self
                (Trainer.append_log [Trainer.ETrigger onevent] fr))
      as (called & self' & r & ->).
    exists called, self', r. rewrite append_log_app. reflexivity.
  - exists [], self, (Done tt). reflexivity.
Qed.

(** While the callbacks leave the list that is gone through as it is,
    the loop over the live list is the dispatch in order: [P] is a
    property of the trainer that the callbacks keep. *)
Lemma for_each_live_in_order (P : Trainer.t -> Prop) (l : nat) :
  (forall c s s',
     P s -> call c s = inr s' -> P s' /\ Trainer.items l s' = Trainer.items l s) ->
  forall (fuel i : nat) (self : Trainer.t) (fr : Trainer.Frame),
    P self ->
    (length (drop i (Trainer.items l self)) <= fuel)%nat ->
    Eff.for_each_live fuel (fun s => Trainer.items l (fst s)) i (Trainer.invoke call)
      (self, fr)
    = let '(called, r, self') :=
        Trainer.in_order call (drop i (Trainer.items l self)) self in
      (r, (self', Trainer.append_log (map Trainer.ECall called) fr)).
Proof.
  intros Hkeep. induction fuel as [| fuel IH]; intros i self fr HP Hlen;
    rewrite for_each_live_step;
    destruct (Trainer.items l self !! i) as [c |] eqn:Hi.
  - rewrite (drop_S _ c _ Hi) in Hlen. cbn in Hlen. lia.
  - rewrite drop_ge by (apply lookup_ge_None; exact Hi).
    cbn. rewrite append_log_nil. reflexivity.
  - rewrite (drop_S _ c _ Hi) in Hlen |- *. cbn [length] in Hlen.
    cbn [Trainer.in_order].
    destruct (call c self) as [e | self1] eqn:Hcall; [reflexivity |].
    destruct (Hkeep c self self1 HP Hcall) as [HP1 Hitems].
    rewrite (IH (S i) self1 _ HP1) by (rewrite Hitems; lia).
    rewrite Hitems.
    destruct (Trainer.in_order call (drop (S i) (Trainer.items l self)) self1)
      as [[called r] self'].
    rewrite append_log_app. reflexivity.
  - rewrite drop_ge by (apply lookup_ge_None; exact Hi).
    cbn. rewrite append_log_nil. reflexivity.
Qed.

(** The same for a whole dispatch. *)
Lemma trigger_in_order (P : Trainer.t -> Prop) (fuel : nat) (onevent : string)
    (self : Trainer.t) (fr : Trainer.Frame) :
  (forall l c s s',
     Trainer.callbacks self !! onevent = Some l ->
     P s -> call c s = inr s' -> P s' /\ Trainer.items l s' = Trainer.items l s) ->
  P self ->
  (length (Trainer.registered onevent self) <= fuel)%nat ->
  Trainer.trigger_callbacks call fuel onevent (self, fr)
  = let '(called, r, self') :=
      Trainer.in_order call (Trainer.registered onevent self) self in
    (r, (self', Trainer.append_log
                  (Trainer.ETrigger onevent :: map Trainer.ECall called) fr)).
Proof.
  intros Hkeep HP Hlen. rewrite trigger_eq. unfold Trainer.registered in *.
  destruct (Trainer.callbacks self !! onevent) as [l |] eqn:Hl.
  - rewrite (for_each_live_in_order P l (fun c s s' => Hkeep l c s s' eq_refl))
      by (rewrite ?drop_0; assumption).
    rewrite drop_0.
    destruct (Trainer.in_order call (Trainer.items l self) self) as [[called r] self'].
    rewrite append_log_app. reflexivity.
  - reflexivity.
Qed.

(** Callbacks that behave are all called, and return. *)
Lemma in_order_quiet (cs : list Trainer.cbid) (self : Trainer.t) :
  Trainer.well_behaved call ->
  exists self',
    Trainer.in_order call cs self = (cs, Done tt, self') /\
    Trainer.config self' = Trainer.config self /\
    Trainer.optimizer self' = Trainer.optimizer self /\
    Trainer.iter_num self' = Trainer.iter_num self /\
    Trainer.callbacks self' = Trainer.callbacks self /\
    Trainer.lists self' = Trainer.lists self.
Proof.
  intros Hquiet. revert self. induction cs as [| c cs IH]; intros self.
  - exists self. cbn. auto 10.
  - cbn [Trainer.in_order].
    destruct (Hquiet c self) as (self1 & -> & Hc & Ho & Hi & Hcb & Hl).
    destruct (IH self1) as (self' & -> & Hc' & Ho' & Hi' & Hcb' & Hl').
    exists self'. repeat split; congruence.
Qed.

Lemma trigger_quiet (fuel : nat) (onevent : string) (self : Trainer.t)
    (fr : Trainer.Frame) :
  Trainer.well_behaved call ->
  (length (Trainer.registered onevent self) <= fuel)%nat ->
  exists self',
    Trainer.trigger_callbacks call fuel onevent (self, fr)
    = (Done tt,
       (self', Trainer.append_log
                 (Trainer.ETrigger onevent ::
                  map Trainer.ECall (Trainer.registered onevent self)) fr)) /\
    Trainer.config self' = Trainer.config self /\
    Trainer.optimizer self' = Trainer.optimizer self /\
    Trainer.iter_num self' = Trainer.iter_num self /\
    Trainer.callbacks self' = Trainer.callbacks self /\
    Trainer.lists self' = Trainer.lists self.
Proof.
  intros Hquiet Hlen.
  rewrite (trigger_in_order (fun _ => True)); [| | exact I | exact Hlen].
  - destruct (in_order_quiet (Trainer.registered onevent self) self Hquiet)
      as (self' & -> & Hrest).
    exists self'. split; [reflexivity | exact Hrest].
  - intros l c s s' _ _ Hcall. split; [exact I |].
    destruct (Hquiet c s) as (s1 & Hs1 & _ & _ & _ & _ & Hl).
    unfold Trainer.items. congruence.
Qed.

End Callbacks.


Lemma count_concat_micro (p : Trainer.event -> bool) (clip : Q)
    (bs : list Trainer.batch) (c : nat) :
  (forall b, Trainer.count p (Trainer.micro_events clip b) = c) ->
  Trainer.count p (concat (map (Trainer.micro_events clip) bs)) = (length bs * c)%nat.
Proof.
  intros Hone. induction bs as [| b bs IH]; [reflexivity |].
  cbn [map concat]. rewrite count_app, Hone, IH. reflexivity.
Qed.

Lemma count_cycle (p : Trainer.event -> bool) (clip : Q)
    (bs : list Trainer.batch) (consumed : option (list Trainer.batch))
    (called : list Trainer.cbid) (c1 c2 : nat) :
  (forall b, Trainer.count p (Trainer.micro_events clip b) = c1) ->
  Trainer.count p [Trainer.EStep consumed; Trainer.ETrigger "on_batch_end"] = c2 ->
  (forall c, p (Trainer.ECall c) = false) ->
  Trainer.count p
    (concat (map (Trainer.micro_events clip) bs) ++
     Trainer.EStep consumed :: Trainer.ETrigger "on_batch_end" ::
     map Trainer.ECall called)
  = (length bs * c1 + c2)%nat.
Proof.
  intros Hmicro Htail Hcall.
  change (Trainer.EStep consumed :: Trainer.ETrigger "on_batch_end" ::
          map Trainer.ECall called)
    with ([Trainer.EStep consumed; Trainer.ETrigger "on_batch_end"] ++
          map Trainer.ECall called).
  rewrite !count_app, (count_concat_micro p clip bs c1 Hmicro), Htail.
  rewrite (count_calls p called Hcall). lia.
Qed.

Lemma length_batches (first : N) (n : nat) : length (Trainer.batches first n) = n.
Proof. unfold Trainer.batches. rewrite length_map, length_seq. reflexivity. Qed.

Lemma optimizer_step_ok (self : Trainer.t) (fr : Trainer.Frame) :
  Trainer.optimizer self <> None ->
  Trainer.optimizer_step (self, fr) =
    (Done tt,
     (self, Trainer.append_log [Trainer.EStep (Trainer.grad (Trainer.model self))] fr)).
Proof.
  intros Hopt. unfold Trainer.optimizer_step, Eff.bind, Trainer.self_. cbn.
  destruct (Trainer.optimizer self); [reflexivity | contradiction].
Qed.

Section Iteration.

Variable env : Trainer.Env.
Variable call : Trainer.cbid -> Trainer.t -> exn + Trainer.t.

Lemma bookkeeping_eq (self : Trainer.t) (fr : Trainer.Frame) :
  exists self',
    Trainer.bookkeeping env (self, fr) = (Done tt, (self', Trainer.tick fr)) /\
    Trainer.config self' = Trainer.config self /\
    Trainer.optimizer self' = Trainer.optimizer self /\
    Trainer.callbacks self' = Trainer.callbacks self /\
    Trainer.lists self' = Trainer.lists self /\
    Trainer.iter_num self' = Trainer.iter_num self + 1.
Proof. eexists. split; [reflexivity |]. cbn. auto 10. Qed.

Lemma finished_eq (self : Trainer.t) (fr : Trainer.Frame) :
  Trainer.finished (self, fr) =
    (Done (match CfgNode.max_iters (Trainer.config self) with
           | Some m => Trainer.iter_num self >=? m
           | None => false
           end), (self, fr)).
Proof. reflexivity. Qed.

(** The body of the outer loop up to the dispatch, with enough batches
    at hand. *)
Lemma iteration_eq (fuel : nat) (steps : Z) (self : Trainer.t) (fr : Trainer.Frame) :
  (N.of_nat (Py.range_len steps) <= Trainer.data_iter fr)%N ->
  Trainer.optimizer self <> None ->
  let self1 := Trainer.after_micros (Trainer.served fr) (Py.range_len steps) self in
  let fr1 :=
    Trainer.frame_after (CfgNode.grad_norm_clip (Trainer.config self))
      (Py.range_len steps) fr in
  Trainer.iteration env call fuel steps (self, fr) =
    Eff.bind (Trainer.trigger_callbacks call fuel "on_batch_end")
      (fun _ => Eff.bind (Trainer.bookkeeping env) (fun _ => Trainer.finished))
      (self1,
       Trainer.append_log [Trainer.EStep (Trainer.grad (Trainer.model self1))] fr1).
Proof.
  intros Hdata Hopt self1 fr1. unfold Trainer.iteration.
  erewrite bind_ok by (apply repeat_micro_ok; assumption).
  destruct (after_micros_config (Trainer.served fr) (Py.range_len steps) self)
    as (_ & Ho & _).
  erewrite bind_ok by (apply optimizer_step_ok; congruence).
  reflexivity.
Qed.

(** The record of calls after one pass through the body of the outer
    loop that has enough batches at hand, whatever the callbacks do. *)
Lemma iteration_log (fuel : nat) (steps : Z) (self : Trainer.t) (fr : Trainer.Frame) :
  (N.of_nat (Py.range_len steps) <= Trainer.data_iter fr)%N ->
  Trainer.optimizer self <> None ->
  exists called,
    Trainer.log (snd (snd (Trainer.iteration env call fuel steps (self, fr)))) =
      Trainer.log fr ++
      concat (map (Trainer.micro_events (CfgNode.grad_norm_clip (Trainer.config self)))
                (Trainer.batches (Trainer.served fr) (Py.range_len steps))) ++
      Trainer.EStep (Trainer.grad (Trainer.model
                       (Trainer.after_micros (Trainer.served fr)
                          (Py.range_len steps) self))) ::
      Trainer.ETrigger "on_batch_end" :: map Trainer.ECall called.
Proof.
  intros Hdata Hopt. rewrite iteration_eq by assumption.
  set (self1 := Trainer.after_micros _ _ self).
  set (fr1 := Trainer.frame_after _ _ fr).
  destruct (trigger_log call fuel "on_batch_end" self1
              (Trainer.append_log
                 [Trainer.EStep (Trainer.grad (Trainer.model self1))] fr1))
    as (called & self2 & r & Htr).
  exists called. unfold Eff.bind at 1. rewrite Htr, append_log_app.
  assert (Hlog : Trainer.log
                   (Trainer.append_log
                      ([Trainer.EStep (Trainer.grad (Trainer.model self1))] ++
                       Trainer.ETrigger "on_batch_end" :: map Trainer.ECall called)
                      fr1)
                 = Trainer.log fr ++
                   concat (map (Trainer.micro_events
                                  (CfgNode.grad_norm_clip (Trainer.config self)))
                             (Trainer.batches (Trainer.served fr)
                                (Py.range_len steps))) ++
                   Trainer.EStep (Trainer.grad (Trainer.model self1)) ::
                   Trainer.ETrigger "on_batch_end" :: map Trainer.ECall called).
  { cbn. rewrite <- app_assoc. reflexivity. }
  destruct r as [[] | e |]; [| exact Hlog | exact Hlog].
  match goal with
  | |- context [Eff.bind (Trainer.bookkeeping env) _ (self2, ?f)] =>
      destruct (bookkeeping_eq self2 f) as (self3 & Hbk & _)
  end.
  erewrite bind_ok by exact Hbk. rewrite finished_eq. exact Hlog.
Qed.

(** One pass through the body of the outer loop with callbacks that
    behave. *)
Lemma iteration_quiet (fuel : nat) (steps : Z) (self : Trainer.t)
    (fr : Trainer.Frame) :
  Trainer.well_behaved call ->
  (length (Trainer.registered "on_batch_end" self) <= fuel)%nat ->
  (N.of_nat (Py.range_len steps) <= Trainer.data_iter fr)%N ->
  Trainer.optimizer self <> None ->
  exists self' fr',
    Trainer.iteration env call fuel steps (self, fr) =
      (Done (match CfgNode.max_iters (Trainer.config self) with
             | Some m => Trainer.iter_num self + 1 >=? m
             | None => false
             end), (self', fr')) /\
    Trainer.data_iter fr' = (Trainer.data_iter fr - N.of_nat (Py.range_len steps))%N /\
    Trainer.config self' = Trainer.config self /\
    Trainer.optimizer self' = Trainer.optimizer self /\
    Trainer.iter_num self' = Trainer.iter_num self + 1 /\
    Trainer.registered "on_batch_end" self' = Trainer.registered "on_batch_end" self /\
    exists consumed,
      Trainer.log fr' =
        Trainer.log fr ++
        concat (map (Trainer.micro_events
                       (CfgNode.grad_norm_clip (Trainer.config self)))
                  (Trainer.batches (Trainer.served fr) (Py.range_len steps))) ++
        Trainer.EStep consumed ::
        Trainer.ETrigger "on_batch_end" ::
        map Trainer.ECall (Trainer.registered "on_batch_end" self).
Proof.
  intros Hquiet Hlen Hdata Hopt. rewrite iteration_eq by assumption.
  set (self1 := Trainer.after_micros _ _ self).
  set (fr1 := Trainer.frame_after _ _ fr).
  destruct (after_micros_config (Trainer.served fr) (Py.range_len steps) self)
    as (Hc & Ho & Hcb & Hi). fold self1 in Hc, Ho, Hcb, Hi.
  destruct (after_micros_lists (Trainer.served fr) (Py.range_len steps) self)
    as (Hl & _). fold self1 in Hl.
  assert (Hreg1 : Trainer.registered "on_batch_end" self1
                  = Trainer.registered "on_batch_end" self)
    by (unfold Trainer.registered, Trainer.items; rewrite Hcb, Hl; reflexivity).
  destruct (trigger_quiet call fuel "on_batch_end" self1
              (Trainer.append_log
                 [Trainer.EStep (Trainer.grad (Trainer.model self1))] fr1)
              Hquiet ltac:(rewrite Hreg1; exact Hlen))
    as (self2 & Htr & Hc2 & Ho2 & Hi2 & Hcb2 & Hl2).
  erewrite bind_ok by exact Htr. rewrite append_log_app, Hreg1.
  match goal with
  | |- context [Eff.bind (Trainer.bookkeeping env) _ (self2, ?f)] =>
      destruct (bookkeeping_eq self2 f) as (self3 & Hbk & Hc3 & Ho3 & Hcb3 & Hl3 & Hi3);
      set (fr2 := f) in *
  end.
  erewrite bind_ok by exact Hbk. rewrite finished_eq.
  exists self3, (Trainer.tick fr2). rewrite Hc3, Hc2, Hc, Hi3, Hi2, Hi.
  split; [reflexivity |]. split; [reflexivity |].
  split; [reflexivity |]. split; [congruence |]. split; [reflexivity |].
  split.
  { unfold Trainer.registered, Trainer.items. rewrite Hcb3, Hcb2, Hcb, Hl3, Hl2, Hl.
    reflexivity. }
  eexists.
  unfold fr2, fr1, Trainer.tick, Trainer.append_log, Trainer.frame_after.
  cbn [Trainer.log]. rewrite <- !app_assoc. reflexivity.
Qed.

Lemma iteration_exhausted (fuel : nat) (steps : Z) (self : Trainer.t)
    (fr : Trainer.Frame) :
  (Trainer.data_iter fr < N.of_nat (Py.range_len steps))%N ->
  exists s',
    Trainer.iteration env call fuel steps (self, fr)
    = (Raised (NameError "train_loader"), s').
Proof.
  intros Hdata. unfold Trainer.iteration.
  destruct (repeat_micro_exhausted _ self fr Hdata) as [s' Hs'].
  erewrite bind_raise by exact Hs'. eauto.
Qed.

End Iteration.


(** C1. Over one accumulation cycle of [k >= 1] passes the code calls
    [zero_grad] once in every pass, [k] times in all, each time between
    that pass's forward and backward; the buffers that the cycle's single
    optimizer step reads therefore hold the gradient of the last
    micro-batch only, not the sum over the [k] micro-batches that zeroing
    once per cycle would leave there. *)
Theorem gradients_zeroed_in_every_micro_batch
    (env : Trainer.Env) (call : Trainer.cbid -> Trainer.t -> exn + Trainer.t)
    (fuel : nat) (steps : Z) (self : Trainer.t) (fr : Trainer.Frame) :
  (1 <= Py.range_len steps)%nat ->
  (N.of_nat (Py.range_len steps) <= Trainer.data_iter fr)%N ->
  Trainer.optimizer self <> None ->
  let k := Py.range_len steps in
  let clip := CfgNode.grad_norm_clip (Trainer.config self) in
  let last := (Trainer.served fr + N.of_nat (k - 1))%N in
  exists called,
    let cycle :=
      concat (map (fun b => [Trainer.ENext b; Trainer.EForward b; Trainer.EZeroGrad;
                             Trainer.EBackward b; Trainer.EClip clip])
                (Trainer.batches (Trainer.served fr) k)) ++
      Trainer.EStep (Some [last]) ::
      Trainer.ETrigger "on_batch_end" :: map Trainer.ECall called in
    Trainer.log (snd (snd (Trainer.iteration env call fuel steps (self, fr))))
    = Trainer.log fr ++ cycle /\
    Trainer.count Trainer.is_zero_grad cycle = k /\
    Trainer.count Trainer.is_step cycle = 1%nat.
Proof.
  intros Hk Hdata Hopt k clip last.
  destruct (iteration_log env call fuel steps self fr Hdata Hopt) as (called & Hlog).
  exists called. cbv zeta. fold k in Hlog, Hk. clearbody k.
  assert (Hgrad : Trainer.grad (Trainer.model
                    (Trainer.after_micros (Trainer.served fr) k self)) = Some [last]).
  { unfold last. destruct k as [| k']; [lia |].
    rewrite after_micros_grad.
    replace (S k' - 1)%nat with k' by lia. reflexivity. }
  rewrite Hgrad in Hlog. split; [exact Hlog |].
  split.
  - rewrite count_app.
    rewrite (count_concat_micro Trainer.is_zero_grad clip _ 1) by reflexivity.
    rewrite length_batches.
    change (Trainer.count Trainer.is_zero_grad
              (Trainer.EStep (Some [last]) :: Trainer.ETrigger "on_batch_end"
                 :: map Trainer.ECall called))
      with (Trainer.count Trainer.is_zero_grad (map Trainer.ECall called)).
    rewrite count_calls by reflexivity. lia.
  - rewrite count_app.
    rewrite (count_concat_micro Trainer.is_step clip _ 0) by reflexivity.
    change (Trainer.count Trainer.is_step
              (Trainer.EStep (Some [last]) :: Trainer.ETrigger "on_batch_end"
                 :: map Trainer.ECall called))
      with (S (Trainer.count Trainer.is_step (map Trainer.ECall called))).
    rewrite count_calls by reflexivity. lia.
Qed.

Lemma gradients_zeroed_in_every_micro_batch_witness :
  exists called,
    let cycle :=
      concat (map (fun b => [Trainer.ENext b; Trainer.EForward b; Trainer.EZeroGrad;
                             Trainer.EBackward b; Trainer.EClip (1 # 1)%Q])
                (Trainer.batches 0 2)) ++
      Trainer.EStep (Some [1%N]) ::
      Trainer.ETrigger "on_batch_end" :: map Trainer.ECall called in
    Trainer.log (snd (snd (Trainer.iteration Sample.env Sample.quiet 3 2
                             (Sample.ready Sample.two_passes, Sample.frame))))
    = [] ++ cycle /\
    Trainer.count Trainer.is_zero_grad cycle = 2%nat /\
    Trainer.count Trainer.is_step cycle = 1%nat.
Proof.
  apply (gradients_zeroed_in_every_micro_batch Sample.env Sample.quiet 3 2
           (Sample.ready Sample.two_passes) Sample.frame).
  - vm_compute. lia.
  - vm_compute. discriminate.
  - discriminate.
Defined.

(** The whole of [run] on the same input: two passes, two calls to
    [zero_grad], and a step that reads the gradient of batch 1 alone. *)
Example run_two_passes_log :
  let r := Trainer.run Sample.env Sample.quiet 3 (Sample.trainer Sample.two_passes) in
  fst r = Done tt /\
  Trainer.log (snd (snd r)) =
    [Trainer.ENext 0%N; Trainer.EForward 0%N; Trainer.EZeroGrad;
     Trainer.EBackward 0%N; Trainer.EClip (1 # 1)%Q;
     Trainer.ENext 1%N; Trainer.EForward 1%N; Trainer.EZeroGrad;
     Trainer.EBackward 1%N; Trainer.EClip (1 # 1)%Q;
     Trainer.EStep (Some [1%N]); Trainer.ETrigger "on_batch_end"].
Proof. vm_compute. split; reflexivity. Qed.

(** C3. One pass through the body of the outer loop, made with [steps]
    as read from [cross_batch_num], performs [k = range(steps)] forward
    and [k] backward passes, then exactly one optimizer step and exactly
    one dispatch of "on_batch_end"; the inner loop itself contains
    neither an optimizer step nor a dispatch. *)
Theorem one_step_and_one_dispatch_per_cycle
    (env : Trainer.Env) (call : Trainer.cbid -> Trainer.t -> exn + Trainer.t)
    (fuel : nat) (steps : Z) (self : Trainer.t) (fr : Trainer.Frame) :
  (N.of_nat (Py.range_len steps) <= Trainer.data_iter fr)%N ->
  Trainer.optimizer self <> None ->
  let k := Py.range_len steps in
  exists inner tail,
    Trainer.log (snd (snd (Eff.repeat_ k Trainer.micro_batch (self, fr))))
    = Trainer.log fr ++ inner /\
    Trainer.log (snd (snd (Trainer.iteration env call fuel steps (self, fr))))
    = Trainer.log fr ++ inner ++ tail /\
    Trainer.count Trainer.is_forward inner = k /\
    Trainer.count Trainer.is_backward inner = k /\
    Trainer.count Trainer.is_step inner = 0%nat /\
    Trainer.count (Trainer.is_trigger "on_batch_end") inner = 0%nat /\
    Trainer.count Trainer.is_step tail = 1%nat /\
    Trainer.count (Trainer.is_trigger "on_batch_end") tail = 1%nat.
Proof.
  intros Hdata Hopt k.
  destruct (iteration_log env call fuel steps self fr Hdata Hopt) as (called & Hlog).
  fold k in Hlog, Hdata.
  set (clip := CfgNode.grad_norm_clip (Trainer.config self)) in *.
  exists (concat (map (Trainer.micro_events clip) (Trainer.batches (Trainer.served fr) k))).
  eexists. split; [| split; [exact Hlog |]].
  - rewrite repeat_micro_ok by assumption. reflexivity.
  - rewrite (count_concat_micro Trainer.is_forward clip _ 1) by reflexivity.
    rewrite (count_concat_micro Trainer.is_backward clip _ 1) by reflexivity.
    rewrite (count_concat_micro Trainer.is_step clip _ 0) by reflexivity.
    rewrite (count_concat_micro (Trainer.is_trigger "on_batch_end") clip _ 0)
      by reflexivity.
    rewrite length_batches.
    repeat split; try lia.
    + change (S (Trainer.count Trainer.is_step (map Trainer.ECall called)) = 1%nat).
      rewrite count_calls by reflexivity. reflexivity.
    + change (S (Trainer.count (Trainer.is_trigger "on_batch_end")
                   (map Trainer.ECall called)) = 1%nat).
      rewrite count_calls by reflexivity. reflexivity.
Qed.

Lemma one_step_and_one_dispatch_per_cycle_witness :
  exists inner tail,
    Trainer.log (snd (snd (Eff.repeat_ 2 Trainer.micro_batch
                             (Sample.ready Sample.two_passes, Sample.frame))))
    = [] ++ inner /\
    Trainer.log (snd (snd (Trainer.iteration Sample.env Sample.quiet 3 2
                             (Sample.ready Sample.two_passes, Sample.frame))))
    = [] ++ inner ++ tail /\
    Trainer.count Trainer.is_forward inner = 2%nat /\
    Trainer.count Trainer.is_backward inner = 2%nat /\
    Trainer.count Trainer.is_step inner = 0%nat /\
    Trainer.count (Trainer.is_trigger "on_batch_end") inner = 0%nat /\
    Trainer.count Trainer.is_step tail = 1%nat /\
    Trainer.count (Trainer.is_trigger "on_batch_end") tail = 1%nat.
Proof.
  apply (one_step_and_one_dispatch_per_cycle Sample.env Sample.quiet 3 2
           (Sample.ready Sample.two_passes) Sample.frame).
  - vm_compute. discriminate.
  - discriminate.
Defined.

(** C4. In one pass through the body of the outer loop every micro-batch
    contributes, in this order, its fetch, forward, [zero_grad], backward
    and a clipping to [config.grad_norm_clip]: the clipping comes
    directly after that micro-batch's backward pass, there are [k] of
    them before the optimizer step, and none after it. *)
Theorem clipping_follows_each_backward
    (env : Trainer.Env) (call : Trainer.cbid -> Trainer.t -> exn + Trainer.t)
    (fuel : nat) (steps : Z) (self : Trainer.t) (fr : Trainer.Frame) :
  (N.of_nat (Py.range_len steps) <= Trainer.data_iter fr)%N ->
  Trainer.optimizer self <> None ->
  let k := Py.range_len steps in
  let clip := CfgNode.grad_norm_clip (Trainer.config self) in
  let passes :=
    concat (map (fun b => [Trainer.ENext b; Trainer.EForward b; Trainer.EZeroGrad;
                           Trainer.EBackward b; Trainer.EClip clip])
              (Trainer.batches (Trainer.served fr) k)) in
  exists consumed rest,
    Trainer.log (snd (snd (Trainer.iteration env call fuel steps (self, fr))))
    = Trainer.log fr ++ passes ++ Trainer.EStep consumed :: rest /\
    Trainer.count Trainer.is_clip passes = k /\
    Trainer.count Trainer.is_backward passes = k /\
    Trainer.count Trainer.is_clip rest = 0%nat.
Proof.
  intros Hdata Hopt k clip passes.
  destruct (iteration_log env call fuel steps self fr Hdata Hopt) as (called & Hlog).
  do 2 eexists. split; [exact Hlog |].
  unfold passes.
  change (fun b => [Trainer.ENext b; Trainer.EForward b; Trainer.EZeroGrad;
                    Trainer.EBackward b; Trainer.EClip clip])
    with (Trainer.micro_events clip).
  rewrite (count_concat_micro Trainer.is_clip clip _ 1) by reflexivity.
  rewrite (count_concat_micro Trainer.is_backward clip _ 1) by reflexivity.
  rewrite length_batches. repeat split; try lia.
  change (Trainer.count Trainer.is_clip (map Trainer.ECall called) = 0%nat).
  apply count_calls. reflexivity.
Qed.

Lemma clipping_follows_each_backward_witness :
  let passes :=
    concat (map (fun b => [Trainer.ENext b; Trainer.EForward b; Trainer.EZeroGrad;
                           Trainer.EBackward b; Trainer.EClip (1 # 1)%Q])
              (Trainer.batches 0 2)) in
  exists consumed rest,
    Trainer.log (snd (snd (Trainer.iteration Sample.env Sample.quiet 3 2
                             (Sample.ready Sample.two_passes, Sample.frame))))
    = [] ++ passes ++ Trainer.EStep consumed :: rest /\
    Trainer.count Trainer.is_clip passes = 2%nat /\
    Trainer.count Trainer.is_backward passes = 2%nat /\
    Trainer.count Trainer.is_clip rest = 0%nat.
Proof.
  apply (clipping_follows_each_backward Sample.env Sample.quiet 3 2
           (Sample.ready Sample.two_passes) Sample.frame).
  - vm_compute. discriminate.
  - discriminate.
Defined.


(** ** The registry of callbacks *)

Lemma well_formed_lookup (onevent : string) (l : nat) (self : Trainer.t) :
  Trainer.well_formed self ->
  Trainer.callbacks self !! onevent = Some l ->
  (l < length (Trainer.lists self))%nat.
Proof. intros Hwf Hl. exact (map_Forall_lookup_1 _ _ _ _ Hwf Hl). Qed.

Lemma items_new (lists : list (list Trainer.cbid)) (cs : list Trainer.cbid)
    (self : Trainer.t) :
  Trainer.lists self = lists ++ [cs] ->
  Trainer.items (length lists) self = cs.
Proof.
  intros Hl. unfold Trainer.items. rewrite Hl.
  rewrite lookup_app_r by lia. rewrite Nat.sub_diag. reflexivity.
Qed.

Lemma bind_new_list_spec (onevent : string) (cs : list Trainer.cbid)
    (self : Trainer.t) :
  Trainer.callbacks (Trainer.bind_new_list onevent cs self) !! onevent
  = Some (length (Trainer.lists self)) /\
  Trainer.lists (Trainer.bind_new_list onevent cs self) = Trainer.lists self ++ [cs] /\
  Trainer.registered onevent (Trainer.bind_new_list onevent cs self) = cs /\
  (forall other,
     other <> onevent ->
     Trainer.callbacks (Trainer.bind_new_list onevent cs self) !! other
     = Trainer.callbacks self !! other) /\
  (forall l,
     (l < length (Trainer.lists self))%nat ->
     Trainer.items l (Trainer.bind_new_list onevent cs self) = Trainer.items l self).
Proof.
  assert (Hcb : Trainer.callbacks (Trainer.bind_new_list onevent cs self) !! onevent
                = Some (length (Trainer.lists self)))
    by (unfold Trainer.bind_new_list; cbn; apply lookup_insert_eq).
  split; [exact Hcb |]. split; [reflexivity |]. split; [| split].
  - unfold Trainer.registered. rewrite Hcb. apply items_new. reflexivity.
  - intros other Hne. unfold Trainer.bind_new_list. cbn.
    apply lookup_insert_ne. auto.
  - intros l Hl. unfold Trainer.items, Trainer.bind_new_list. cbn.
    rewrite lookup_app_l by exact Hl. reflexivity.
Qed.

Lemma bind_new_list_well_formed (onevent : string) (cs : list Trainer.cbid)
    (self : Trainer.t) :
  Trainer.well_formed self ->
  Trainer.well_formed (Trainer.bind_new_list onevent cs self).
Proof.
  intros Hwf. unfold Trainer.well_formed, Trainer.bind_new_list. cbn.
  apply map_Forall_insert_2.
  - rewrite length_app. cbn. lia.
  - eapply map_Forall_impl; [exact Hwf |]. cbn. intros _ l Hl.
    rewrite length_app. cbn. lia.
Qed.

(** [add_callback] appends to the list of the event, in place. *)
Lemma add_callback_spec (onevent : string) (c : Trainer.cbid) (self : Trainer.t) :
  Trainer.well_formed self ->
  Trainer.well_formed (Trainer.add_callback onevent c self) /\
  Trainer.registered onevent (Trainer.add_callback onevent c self)
  = Trainer.registered onevent self ++ [c] /\
  (forall l,
     Trainer.callbacks self !! onevent = Some l ->
     Trainer.callbacks (Trainer.add_callback onevent c self) !! onevent = Some l) /\
  (forall other,
     other <> onevent ->
     Trainer.callbacks (Trainer.add_callback onevent c self) !! other
     = Trainer.callbacks self !! other) /\
  (forall l,
     (l < length (Trainer.lists self))%nat ->
     Trainer.callbacks self !! onevent <> Some l ->
     Trainer.items l (Trainer.add_callback onevent c self) = Trainer.items l self) /\
  Trainer.optimizer (Trainer.add_callback onevent c self) = Trainer.optimizer self /\
  Trainer.config (Trainer.add_callback onevent c self) = Trainer.config self.
Proof.
  intros Hwf. unfold Trainer.add_callback, Trainer.registered.
  destruct (Trainer.callbacks self !! onevent) as [l |] eqn:Hl.
  - pose proof (well_formed_lookup onevent l self Hwf Hl) as Hvalid.
    destruct (lookup_lt_is_Some_2 (Trainer.lists self) l Hvalid) as [cs Hcs].
    split; [| split; [| split; [| split; [| split; [| split]]]]]; cbn.
    + unfold Trainer.well_formed. cbn. rewrite length_alter. exact Hwf.
    + rewrite Hl. unfold Trainer.items. cbn.
      rewrite list_lookup_alter_eq, Hcs. reflexivity.
    + intros l' [= <-]. exact Hl.
    + reflexivity.
    + intros l' _ Hne. unfold Trainer.items. cbn.
      rewrite list_lookup_alter_ne by congruence. reflexivity.
    + reflexivity.
    + reflexivity.
  - destruct (bind_new_list_spec onevent [c] self) as (Hcb & _ & Hreg & Hother & Hold).
    split; [apply bind_new_list_well_formed, Hwf |].
    split; [unfold Trainer.registered in Hreg; exact Hreg |].
    split; [discriminate |]. split; [exact Hother |].
    split; [intros l Hvalid _; apply Hold, Hvalid |]. split; reflexivity.
Qed.

Lemma registered_after_adds (onevent : string) (cs : list Trainer.cbid)
    (self : Trainer.t) :
  Trainer.well_formed self ->
  let self' := foldl (fun s c => Trainer.add_callback onevent c s) self cs in
  Trainer.well_formed self' /\
  Trainer.registered onevent self' = Trainer.registered onevent self ++ cs /\
  (forall other,
     other <> onevent ->
     Trainer.callbacks self' !! other = Trainer.callbacks self !! other) /\
  (forall l,
     Trainer.callbacks self !! onevent = Some l ->
     Trainer.callbacks self' !! onevent = Some l) /\
  (forall l,
     (l < length (Trainer.lists self))%nat ->
     Trainer.callbacks self !! onevent <> Some l ->
     Trainer.items l self' = Trainer.items l self) /\
  Trainer.optimizer self' = Trainer.optimizer self /\
  Trainer.config self' = Trainer.config self.
Proof.
  revert self. induction cs as [| c cs IH]; intros self Hwf; cbn [foldl]; cbv zeta.
  - rewrite app_nil_r. auto 10.
  - destruct (add_callback_spec onevent c self Hwf)
      as (Hwf1 & Hreg1 & Hsame1 & Hother1 & Hold1 & Ho1 & Hc1).
    destruct (IH (Trainer.add_callback onevent c self) Hwf1)
      as (Hwf' & Hreg' & Hother' & Hsame' & Hold' & Ho' & Hc').
    split; [exact Hwf' |].
    split; [rewrite Hreg', Hreg1, <- app_assoc; reflexivity |].
    split; [intros other Hne; rewrite Hother', Hother1 by exact Hne; reflexivity |].
    split; [intros l Hl; apply Hsame', Hsame1, Hl |].
    split; [| split; congruence].
    intros l Hvalid Hne.
    destruct (Trainer.callbacks self !! onevent) as [l0 |] eqn:Hl0.
    + rewrite Hold', Hold1; try assumption; try congruence.
      * unfold Trainer.add_callback. rewrite Hl0. cbn. rewrite length_alter.
        exact Hvalid.
      * rewrite (Hsame1 l0 eq_refl). exact Hne.
    + rewrite Hold', Hold1; try assumption; try congruence.
      * unfold Trainer.add_callback. rewrite Hl0. cbn. rewrite length_app. lia.
      * unfold Trainer.add_callback. rewrite Hl0.
        destruct (bind_new_list_spec onevent [c] self) as (Hcb & _).
        rewrite Hcb. intros [= <-]. lia.
Qed.



Lemma sample_trainer_well_formed (c : CfgNode.t) :
  Trainer.well_formed (Sample.trainer c) /\ Trainer.well_formed (Sample.ready c).
Proof. split; apply map_Forall_empty. Qed.


(** The loop with a callback that raises: one pass of the body, the
    calls up to the callback that raises, and no second pass. *)
Example loop_ends_with_the_callbacks_exception :
  let self' :=
    foldl (fun s c => Trainer.add_callback "on_batch_end" c s)
      (Sample.ready Sample.two_passes) [5; 7; 8]%nat in
  let r := Eff.while_true 4 (Trainer.iteration Sample.env Sample.faulty 3 2)
             (self', Sample.frame) in
  fst r = Raised (CallbackError 7) /\
  Trainer.log (snd (snd r)) =
    [Trainer.ENext 0%N; Trainer.EForward 0%N; Trainer.EZeroGrad;
     Trainer.EBackward 0%N; Trainer.EClip (1 # 1)%Q;
     Trainer.ENext 1%N; Trainer.EForward 1%N; Trainer.EZeroGrad;
     Trainer.EBackward 1%N; Trainer.EClip (1 # 1)%Q;
     Trainer.EStep (Some [1%N]); Trainer.ETrigger "on_batch_end";
     Trainer.ECall 5%nat; Trainer.ECall 7%nat] /\
  Trainer.iter_num (fst (snd r)) = 0.
Proof. vm_compute. repeat split. Qed.

(** ** Whole runs *)

Section WholeRun.

Variable env : Trainer.Env.
Variable call : Trainer.cbid -> Trainer.t -> exn + Trainer.t.

Lemma setup_ok (self : Trainer.t) :
  0 < CfgNode.batch_size (Trainer.config self) ->
  exists self0 fr0,
    Trainer.setup env (self, Trainer.frame0)
    = (Done (CfgNode.cross_batch_num (Trainer.config self)), (self0, fr0)) /\
    Trainer.config self0 = Trainer.config self /\
    Trainer.optimizer self0 <> None /\
    Trainer.iter_num self0 = 0 /\
    Trainer.data_iter fr0
    = Z.to_N (Trainer.cdiv (Trainer.sampler_len env self)
                (CfgNode.batch_size (Trainer.config self))) /\
    Trainer.log fr0 = [] /\
    Trainer.callbacks self0 = Trainer.callbacks self /\
    Trainer.lists self0 = Trainer.lists self /\
    Trainer.iter_time self0 = Trainer.time_time env 0 /\
    Trainer.clock fr0 = 1%nat.
Proof.
  intros Hbs. unfold Trainer.setup, Trainer.DataLoader, Eff.bind, Eff.lift,
    Trainer.self_, Trainer.update, Eff.modify, Trainer.now, Eff.ret.
  cbn. destruct (Z.leb_spec (CfgNode.batch_size (Trainer.config self)) 0); [lia |].
  cbn. do 2 eexists. split; [reflexivity |]. cbn. repeat split. discriminate.
Qed.

Lemma registered_eq (onevent : string) (s s' : Trainer.t) :
  Trainer.callbacks s' = Trainer.callbacks s ->
  Trainer.lists s' = Trainer.lists s ->
  Trainer.registered onevent s' = Trainer.registered onevent s.
Proof.
  intros Hcb Hl. unfold Trainer.registered, Trainer.items. rewrite Hcb, Hl.
  reflexivity.
Qed.

Hypothesis Hquiet : Trainer.well_behaved call.

(** With no iteration limit the loop goes on until the iterator has
    fewer batches than a cycle needs, and then leaves through the
    handler of [StopIteration]: a pass for every batch at hand and one
    more are enough. *)
Lemma while_exhausts (fuel : nat) (steps : Z) (m : nat) :
  (1 <= Py.range_len steps)%nat ->
  forall self fr n,
    (N.to_nat (Trainer.data_iter fr) <= m)%nat ->
    (m < n)%nat ->
    CfgNode.max_iters (Trainer.config self) = None ->
    Trainer.optimizer self <> None ->
    (length (Trainer.registered "on_batch_end" self) <= fuel)%nat ->
    exists s',
      Eff.while_true n (Trainer.iteration env call fuel steps) (self, fr)
      = (Raised (NameError "train_loader"), s').
Proof.
  intros Hsteps. induction m as [| m IH]; intros self fr n Hm Hn Hmax Hopt Hlen;
    (destruct n as [| n]; [lia |]); cbn [Eff.while_true].
  - destruct (iteration_exhausted env call fuel steps self fr ltac:(lia)) as [s' Hs'].
    exists s'. erewrite bind_raise by exact Hs'. reflexivity.
  - destruct (N.lt_ge_cases (Trainer.data_iter fr) (N.of_nat (Py.range_len steps)))
      as [Hlt | Hge].
    + destruct (iteration_exhausted env call fuel steps self fr Hlt) as [s' Hs'].
      exists s'. erewrite bind_raise by exact Hs'. reflexivity.
    + destruct (iteration_quiet env call fuel steps self fr Hquiet Hlen Hge Hopt)
        as (self' & fr' & Hit & Hdata & Hcfg & Ho & _ & Hreg & _).
      rewrite Hmax in Hit. erewrite bind_ok by exact Hit.
      apply IH; [lia | lia | congruence | congruence | rewrite Hreg; exact Hlen].
Qed.

(** [run] with [max_iters = None] and at least one pass per cycle ends
    by itself, with the NameError of line 154. *)
Lemma run_exhausts (self : Trainer.t) :
  CfgNode.max_iters (Trainer.config self) = None ->
  1 <= CfgNode.cross_batch_num (Trainer.config self) ->
  0 < CfgNode.batch_size (Trainer.config self) ->
  exists fuel s',
    Trainer.run env call fuel self = (Raised (NameError "train_loader"), s').
Proof.
  intros Hmax Hsteps Hbs. unfold Trainer.run.
  destruct (setup_ok self Hbs)
    as (self0 & fr0 & Hsetup & Hcfg & Hopt & _ & _ & _ & Hcb & Hl & _).
  set (fuel := Nat.max (length (Trainer.registered "on_batch_end" self))
                 (S (N.to_nat (Trainer.data_iter fr0)))).
  destruct (while_exhausts fuel (CfgNode.cross_batch_num (Trainer.config self))
              (N.to_nat (Trainer.data_iter fr0))
              ltac:(unfold Py.range_len; lia) self0 fr0 fuel)
    as (s' & Hloop); [lia | lia | congruence | assumption | |].
  { rewrite (registered_eq _ _ _ Hcb Hl). lia. }
  exists fuel, s'. erewrite bind_ok by exact Hsetup.
  erewrite bind_raise by exact Hloop. reflexivity.
Qed.

End WholeRun.

Section Counting.

Variable env : Trainer.Env.
Variable call : Trainer.cbid -> Trainer.t -> exn + Trainer.t.

(** A way of counting calls that gives [c1] for every pass of the
    inner loop and [c2] for the step and dispatch that follow it, and
    that leaves out the callbacks' own calls and the teardown. *)
Variable p : Trainer.event -> bool.
Variables c1 c2 : nat.
Hypothesis Hmicro : forall clip b, Trainer.count p (Trainer.micro_events clip b) = c1.
Hypothesis Htail :
  forall consumed,
    Trainer.count p [Trainer.EStep consumed; Trainer.ETrigger "on_batch_end"] = c2.
Hypothesis Hcall : forall c, p (Trainer.ECall c) = false.
Hypothesis Hdestroy : p Trainer.EDestroy = false.

Hypothesis Hquiet : Trainer.well_behaved call.

Lemma teardown_ok (self : Trainer.t) (fr : Trainer.Frame) :
  exists fr',
    Trainer.teardown (self, fr) = (Done tt, (self, fr')) /\
    Trainer.clock fr' = Trainer.clock fr /\
    Trainer.count p (Trainer.log fr') = Trainer.count p (Trainer.log fr).
Proof.
  unfold Trainer.teardown, Eff.bind, Trainer.self_. cbn.
  destruct (Trainer.use_fsdp self).
  - exists (Trainer.append_log [Trainer.EDestroy] fr). split; [reflexivity |].
    split; [reflexivity |].
    unfold Trainer.append_log. cbn [Trainer.log]. rewrite count_app.
    assert (Hnone : Trainer.count p [Trainer.EDestroy] = 0%nat)
      by (unfold Trainer.count; cbn; rewrite Hdestroy; reflexivity).
    rewrite Hnone. lia.
  - exists fr. repeat split.
Qed.

(** With an iteration limit [M] the loop makes the [j + 1] iterations
    still due and leaves through [break]. *)
Lemma while_reaches_max (fuel : nat) (steps M : Z) (j : nat) :
  forall self fr n,
    CfgNode.max_iters (Trainer.config self) = Some M ->
    M = Trainer.iter_num self + Z.of_nat (S j) ->
    (N.of_nat (S j * Py.range_len steps) <= Trainer.data_iter fr)%N ->
    Trainer.optimizer self <> None ->
    (length (Trainer.registered "on_batch_end" self) <= fuel)%nat ->
    (S j <= n)%nat ->
    exists self' fr',
      Eff.while_true n (Trainer.iteration env call fuel steps) (self, fr)
      = (Done tt, (self', fr')) /\
      Trainer.iter_num self' = M /\
      Trainer.count p (Trainer.log fr')
      = (Trainer.count p (Trainer.log fr)
         + S j * (Py.range_len steps * c1 + c2))%nat.
Proof.
  induction j as [| j IH]; intros self fr n Hmax HM Hdata Hopt Hlen Hn;
    (destruct n as [| n]; [lia |]);
    destruct (iteration_quiet env call fuel steps self fr Hquiet Hlen ltac:(lia) Hopt)
      as (self' & fr' & Hit & Hdata' & Hcfg & Ho & Hi & Hreg & consumed & Hlog);
    rewrite Hmax in Hit; cbn [Eff.while_true]; erewrite bind_ok by exact Hit;
    assert (Hcount : Trainer.count p (Trainer.log fr')
                     = (Trainer.count p (Trainer.log fr)
                        + (Py.range_len steps * c1 + c2))%nat)
      by (rewrite Hlog, count_app,
            (count_cycle p _ _ consumed _ c1 c2 (Hmicro _) (Htail _) Hcall),
            length_batches; reflexivity).
  - destruct (Z.geb_spec (Trainer.iter_num self + 1) M); [| lia].
    exists self', fr'. repeat split; [lia | lia].
  - destruct (Z.geb_spec (Trainer.iter_num self + 1) M); [lia |].
    destruct (IH self' fr' n) as (self'' & fr'' & Hloop & Hi' & Hcount');
      [congruence | lia | lia | congruence | rewrite Hreg; exact Hlen | lia |].
    exists self'', fr''. repeat split; [assumption | assumption | lia].
Qed.

(** [run] with [max_iters = M >= 1] and enough batches in the loader:
    [M] iterations, [iter_num = M], and a normal return. *)
Lemma run_performs_max_iters (self : Trainer.t) (M : Z) (fuel : nat) :
  CfgNode.max_iters (Trainer.config self) = Some M ->
  1 <= M ->
  0 < CfgNode.batch_size (Trainer.config self) ->
  (N.of_nat (Z.to_nat M *
             Py.range_len (CfgNode.cross_batch_num (Trainer.config self)))
   <= Z.to_N (Trainer.cdiv (Trainer.sampler_len env self)
                (CfgNode.batch_size (Trainer.config self))))%N ->
  (Z.to_nat M <= fuel)%nat ->
  (length (Trainer.registered "on_batch_end" self) <= fuel)%nat ->
  exists s',
    Trainer.run env call fuel self = (Done tt, s') /\
    Trainer.iter_num (fst s') = M /\
    Trainer.count p (Trainer.log (snd s'))
    = (Z.to_nat M *
       (Py.range_len (CfgNode.cross_batch_num (Trainer.config self)) * c1 + c2))%nat.
Proof.
  intros Hmax HM Hbs Hdata Hfuel Hlen. unfold Trainer.run.
  destruct (setup_ok env self Hbs)
    as (self0 & fr0 & Hsetup & Hcfg & Hopt & Hi & Hd & Hlog & Hcb & Hl & _).
  erewrite bind_ok by exact Hsetup.
  destruct (while_reaches_max fuel (CfgNode.cross_batch_num (Trainer.config self)) M
              (Z.to_nat M - 1) self0 fr0 fuel)
    as (self' & fr' & Hloop & Hi' & Hcount);
    [congruence | lia | | assumption | | lia |].
  { rewrite Hd. replace (S (Z.to_nat M - 1)) with (Z.to_nat M) by lia. exact Hdata. }
  { rewrite (registered_eq _ _ _ Hcb Hl). exact Hlen. }
  erewrite bind_ok by exact Hloop.
  destruct (teardown_ok self' fr') as (fr'' & -> & _ & Hcount').
  eexists. split; [reflexivity |]. cbn [fst snd]. split; [assumption |].
  rewrite Hcount', Hcount, Hlog.
  replace (S (Z.to_nat M - 1)) with (Z.to_nat M) by lia. reflexivity.
Qed.

End Counting.

(** [run] with [max_iters = M >= 1], callbacks that behave and enough
    batches in the loader returns after [M] iterations of [k] passes
    each: [M * k] forward passes, backward passes, calls to [zero_grad]
    and clippings, [M] optimizer steps and [M] dispatches. *)
Lemma run_call_counts (env : Trainer.Env)
    (call : Trainer.cbid -> Trainer.t -> exn + Trainer.t)
    (self : Trainer.t) (M : Z) (fuel : nat) :
  Trainer.well_behaved call ->
  CfgNode.max_iters (Trainer.config self) = Some M ->
  1 <= M ->
  0 < CfgNode.batch_size (Trainer.config self) ->
  (N.of_nat (Z.to_nat M *
             Py.range_len (CfgNode.cross_batch_num (Trainer.config self)))
   <= Z.to_N (Trainer.cdiv (Trainer.sampler_len env self)
                (CfgNode.batch_size (Trainer.config self))))%N ->
  (Z.to_nat M <= fuel)%nat ->
  (length (Trainer.registered "on_batch_end" self) <= fuel)%nat ->
  let k := Py.range_len (CfgNode.cross_batch_num (Trainer.config self)) in
  exists s',
    Trainer.run env call fuel self = (Done tt, s') /\
    Trainer.iter_num (fst s') = M /\
    Trainer.count Trainer.is_forward (Trainer.log (snd s')) = (Z.to_nat M * k)%nat /\
    Trainer.count Trainer.is_backward (Trainer.log (snd s')) = (Z.to_nat M * k)%nat /\
    Trainer.count Trainer.is_zero_grad (Trainer.log (snd s')) = (Z.to_nat M * k)%nat /\
    Trainer.count Trainer.is_clip (Trainer.log (snd s')) = (Z.to_nat M * k)%nat /\
    Trainer.count Trainer.is_step (Trainer.log (snd s')) = Z.to_nat M /\
    Trainer.count (Trainer.is_trigger "on_batch_end") (Trainer.log (snd s'))
    = Z.to_nat M.
Proof.
  intros Hquiet Hmax HM Hbs Hdata Hfuel Hlen k.
  pose proof (fun p c1 c2 H1 H2 H3 H4 =>
                run_performs_max_iters env call p c1 c2 H1 H2 H3 H4 Hquiet
                  self M fuel Hmax HM Hbs Hdata Hfuel Hlen) as Hrun.
  destruct (Hrun Trainer.is_forward 1%nat 0%nat) as (s' & Heq & Hiter & Hfwd);
    try reflexivity.
  exists s'. split; [exact Heq |]. split; [exact Hiter |].
  assert (Hsame : forall p n,
            (exists s'', Trainer.run env call fuel self = (Done tt, s'') /\
                         Trainer.iter_num (fst s'') = M /\
                         Trainer.count p (Trainer.log (snd s'')) = n) ->
            Trainer.count p (Trainer.log (snd s')) = n).
  { intros p n (s'' & Heq' & _ & Hn). congruence. }
  fold k in Hfwd, Hrun.
  split; [lia |].
  split; [rewrite (Hsame _ _ (Hrun Trainer.is_backward 1%nat 0%nat
             ltac:(reflexivity) ltac:(reflexivity) ltac:(reflexivity)
             ltac:(reflexivity))); lia |].
  split; [rewrite (Hsame _ _ (Hrun Trainer.is_zero_grad 1%nat 0%nat
             ltac:(reflexivity) ltac:(reflexivity) ltac:(reflexivity)
             ltac:(reflexivity))); lia |].
  split; [rewrite (Hsame _ _ (Hrun Trainer.is_clip 1%nat 0%nat
             ltac:(reflexivity) ltac:(reflexivity) ltac:(reflexivity)
             ltac:(reflexivity))); lia |].
  split; [rewrite (Hsame _ _ (Hrun Trainer.is_step 0%nat 1%nat
             ltac:(reflexivity) ltac:(reflexivity) ltac:(reflexivity)
             ltac:(reflexivity))); lia |].
  rewrite (Hsame _ _ (Hrun (Trainer.is_trigger "on_batch_end") 0%nat 1%nat
             ltac:(reflexivity) ltac:(reflexivity) ltac:(reflexivity)
             ltac:(reflexivity))); lia.
Qed.


(** C5. With distributed training off and callbacks that return and
    leave the configuration, the optimizer, the iteration counter and the
    registered callbacks alone: when [max_iters] is 5 and the loader
    holds the batches that five cycles need, [run] makes exactly 5
    optimizer steps, leaves [iter_num] at 5 and returns. When [max_iters]
    is [None] the loop does not go on for ever: once the iterator is used
    up, the handler of line 154 names [train_loader], which is not
    defined, and [run] ends with that NameError after finitely many
    iterations. *)
Theorem run_stops_at_max_iters_or_when_data_runs_out
    (env : Trainer.Env) (call : Trainer.cbid -> Trainer.t -> exn + Trainer.t)
    (self : Trainer.t) :
  Trainer.well_behaved call ->
  Trainer.use_fsdp self = false ->
  0 < CfgNode.batch_size (Trainer.config self) ->
  (N.of_nat (5 * Py.range_len (CfgNode.cross_batch_num (Trainer.config self)))
   <= Z.to_N (Trainer.cdiv (10 ^ 10) (CfgNode.batch_size (Trainer.config self))))%N ->
  (forall fuel,
     (5 <= fuel)%nat ->
     (length (Trainer.registered "on_batch_end" self) <= fuel)%nat ->
     exists s',
       Trainer.run env call fuel (Trainer.with_max_iters (Some 5) self) = (Done tt, s') /\
       Trainer.iter_num (fst s') = 5 /\
       Trainer.count Trainer.is_step (Trainer.log (snd s')) = 5%nat) /\
  (1 <= CfgNode.cross_batch_num (Trainer.config self) ->
   exists fuel s',
     Trainer.run env call fuel (Trainer.with_max_iters None self)
     = (Raised (NameError "train_loader"), s')).
Proof.
  intros Hquiet Hfsdp Hbs Hdata. split.
  - intros fuel Hfuel Hlen.
    destruct (run_performs_max_iters env call Trainer.is_step 0 1
                ltac:(reflexivity) ltac:(reflexivity) ltac:(reflexivity)
                ltac:(reflexivity) Hquiet
                (Trainer.with_max_iters (Some 5) self) 5 fuel)
      as (s' & Hrun & Hiter & Hcount);
      try (reflexivity || assumption || lia);
      [| exists s'; repeat split; [assumption | assumption | rewrite Hcount; lia]].
    unfold Trainer.sampler_len. cbn [Trainer.with_max_iters Trainer.set_config
      Trainer.use_fsdp Trainer.config CfgNode.set_max_iters CfgNode.batch_size
      CfgNode.cross_batch_num].
    rewrite Hfsdp. exact Hdata.
  - intros Hsteps.
    apply (run_exhausts env call Hquiet (Trainer.with_max_iters None self));
      (reflexivity || assumption).
Qed.

Lemma quiet_is_well_behaved : Trainer.well_behaved Sample.quiet.
Proof. intros c s. exists s. repeat split. Qed.

Lemma run_stops_at_max_iters_or_when_data_runs_out_witness :
  (forall fuel,
     (5 <= fuel)%nat ->
     (length (Trainer.registered "on_batch_end"
                (Sample.trainer Trainer.get_default_config)) <= fuel)%nat ->
     exists s',
       Trainer.run Sample.env Sample.quiet fuel
         (Trainer.with_max_iters (Some 5) (Sample.trainer Trainer.get_default_config))
       = (Done tt, s') /\
       Trainer.iter_num (fst s') = 5 /\
       Trainer.count Trainer.is_step (Trainer.log (snd s')) = 5%nat) /\
  (1 <= CfgNode.cross_batch_num
          (Trainer.config (Sample.trainer Trainer.get_default_config)) ->
   exists fuel s',
     Trainer.run Sample.env Sample.quiet fuel
       (Trainer.with_max_iters None (Sample.trainer Trainer.get_default_config))
     = (Raised (NameError "train_loader"), s')).
Proof.
  apply (run_stops_at_max_iters_or_when_data_runs_out Sample.env Sample.quiet
           (Sample.trainer Trainer.get_default_config)).
  - exact quiet_is_well_behaved.
  - reflexivity.
  - reflexivity.
  - vm_compute. discriminate.
Defined.

(** The same ending reached by evaluation: with sharded training on, one
    process, batches of 64 and no iteration limit, the 10000 examples
    give 157 batches; the loop makes 157 iterations and the 158th ends
    [run] with the NameError. *)
Example run_sharded_without_limit :
  let r := Trainer.run Sample.env Sample.quiet 200 (Sample.trainer Sample.sharded) in
  fst r = Raised (NameError "train_loader") /\
  Trainer.iter_num (fst (snd r)) = 157 /\
  Trainer.count Trainer.is_step (Trainer.log (snd (snd r))) = 157%nat.
Proof. vm_compute. repeat split. Qed.

(** With the default configuration and [max_iters = 5], by evaluation. *)
Example run_five_iterations :
  let r := Trainer.run Sample.env Sample.quiet 9
             (Sample.trainer (CfgNode.set_max_iters (Some 5) Trainer.get_default_config)) in
  fst r = Done tt /\
  Trainer.iter_num (fst (snd r)) = 5 /\
  Trainer.count Trainer.is_step (Trainer.log (snd (snd r))) = 5%nat.
Proof. vm_compute. repeat split. Qed.

(** ** Construction of a trainer *)

Lemma init_eq (env : Trainer.Env) (config : CfgNode.t) (model : Trainer.Model)
    (train_dataset : SortDataset.t) :
  Trainer.__init__ env config model train_dataset ∅ =
    (Raised (NameError "confit"),
     <["callbacks" := Trainer.VRegistry ∅]>
       (<["train_dataset" := Trainer.VDataset train_dataset]>
          (<["optimizer" := Trainer.VNone]>
             (<["model" := Trainer.VModel model]>
                (<["config" := Trainer.VConfig config]> ∅))))).
Proof. reflexivity. Qed.

(** C2 as written does not hold: when the NameError is raised the object
    already has attributes. *)
Lemma init_assigns_before_raising :
  ~ raises_before_any_assignment Sample.env Trainer.get_default_config
      Sample.model Sample.train_dataset.
Proof.
  intros [name Hinit]. rewrite init_eq in Hinit.
  apply (f_equal (fun r => snd r !! "callbacks")) in Hinit. cbn [snd] in Hinit.
  rewrite lookup_insert_eq, lookup_empty in Hinit. discriminate.
Qed.

(** C2, amended. For every configuration, model and dataset, [__init__]
    raises [NameError] for the name [confit] while evaluating the right
    side of the assignment to [self.use_fsdp]: at that point exactly
    [config], [model], [optimizer], [train_dataset] and [callbacks] have
    been assigned and no later attribute has, and the constructor call
    yields no instance. *)
Theorem init_raises_NameError_after_five_assignments
    (env : Trainer.Env) (config : CfgNode.t) (model : Trainer.Model)
    (train_dataset : SortDataset.t) :
  Trainer.__init__ env config model train_dataset ∅ =
    (Raised (NameError "confit"),
     <["callbacks" := Trainer.VRegistry ∅]>
       (<["train_dataset" := Trainer.VDataset train_dataset]>
          (<["optimizer" := Trainer.VNone]>
             (<["model" := Trainer.VModel model]>
                (<["config" := Trainer.VConfig config]> ∅))))) /\
  dom (snd (Trainer.__init__ env config model train_dataset ∅))
  = ({["config"; "model"; "optimizer"; "train_dataset"; "callbacks"]} : gset string) /\
  Trainer.construct env config model train_dataset = Raised (NameError "confit").
Proof.
  split; [apply init_eq |]. split.
  - rewrite init_eq. cbn [snd]. rewrite !dom_insert_L, dom_empty_L. set_solver.
  - unfold Trainer.construct. rewrite init_eq. reflexivity.
Qed.

(** C10. With sharded training requested and no [LOCAL_RANK] in the
    environment, [__init__] does not reach a local rank of 0: it raises
    the NameError of line 80 before the branch, leaving [local_rank] and
    [device] unset; and the branch itself, entered with [use_fsdp] true,
    raises as well (AttributeError for [os.env] once the process group is
    up) and leaves [local_rank] unset. *)
Theorem fsdp_init_never_defaults_local_rank
    (env : Trainer.Env) (config : CfgNode.t) (model : Trainer.Model)
    (train_dataset : SortDataset.t) :
  CfgNode.use_fsdp config = true ->
  Trainer.environ env !! "LOCAL_RANK" = None ->
  (fst (Trainer.__init__ env config model train_dataset ∅) = Raised (NameError "confit") /\
   snd (Trainer.__init__ env config model train_dataset ∅) !! "local_rank" = None /\
   snd (Trainer.__init__ env config model train_dataset ∅) !! "device" = None) /\
  (forall o : gmap string Trainer.value,
     o !! "use_fsdp" = Some (Trainer.VBool true) ->
     o !! "local_rank" = None ->
     exists e,
       fst (Trainer.init_device env config o) = Raised e /\
       snd (Trainer.init_device env config o) !! "local_rank" = None /\
       (Trainer.process_group_ok env = true -> e = AttributeError "os" "env")).
Proof.
  intros _ _. split.
  - rewrite init_eq. cbn [fst snd]. split; [reflexivity |].
    split; reflexivity.
  - intros o Hflag Hrank.
    unfold Trainer.init_device, Eff.bind, Trainer.self_attr. rewrite Hflag.
    cbn [Trainer.truthy]. unfold Eff.lift, Trainer.init_process_group.
    destruct (Trainer.process_group_ok env).
    + exists (AttributeError "os" "env"). cbn. auto.
    + eexists. cbn. split; [reflexivity |]. split; [assumption | discriminate].
Qed.

Lemma fsdp_init_never_defaults_local_rank_witness :
  (fst (Trainer.__init__ Sample.env Sample.sharded Sample.model Sample.train_dataset ∅)
   = Raised (NameError "confit") /\
   snd (Trainer.__init__ Sample.env Sample.sharded Sample.model Sample.train_dataset ∅)
     !! "local_rank" = None /\
   snd (Trainer.__init__ Sample.env Sample.sharded Sample.model Sample.train_dataset ∅)
     !! "device" = None) /\
  (forall o : gmap string Trainer.value,
     o !! "use_fsdp" = Some (Trainer.VBool true) ->
     o !! "local_rank" = None ->
     exists e,
       fst (Trainer.init_device Sample.env Sample.sharded o) = Raised e /\
       snd (Trainer.init_device Sample.env Sample.sharded o) !! "local_rank" = None /\
       (Trainer.process_group_ok Sample.env = true -> e = AttributeError "os" "env")).
Proof.
  apply (fsdp_init_never_defaults_local_rank Sample.env Sample.sharded Sample.model
           Sample.train_dataset).
  - reflexivity.
  - reflexivity.
Defined.

(** * Further properties *)

(** ** The sort dataset, continued *)

Lemma sort_length (inp : list Z) : length (Torch.sort inp) = length inp.
Proof. unfold Torch.sort. apply Permutation_length, merge_sort_Permutation. Qed.

Lemma sort_elem_of (inp : list Z) (v : Z) : v ∈ Torch.sort inp <-> v ∈ inp.
Proof. unfold Torch.sort. rewrite merge_sort_Permutation. reflexivity. Qed.

(** What a returned pair looks like, in terms of the accepted input. *)
Lemma getitem_inv (pickle_dumps : list Z -> list Byte.byte)
    (hash : list Byte.byte -> Z) (fuel : nat) (self : SortDataset.t) (idx : Z)
    (g g' : Torch.Generator) (x y : list Z) :
  1 <= SortDataset.length self ->
  SortDataset.__getitem__ pickle_dumps hash fuel self idx g = (Done (x, y), g') ->
  exists inp,
    length inp = Z.to_nat (SortDataset.length self) /\
    Forall (fun v => 0 <= v < SortDataset.num_digits self) inp /\
    SortDataset.inp_split pickle_dumps hash inp = SortDataset.split self /\
    x = inp ++ take (length inp - 1) (Torch.sort inp) /\
    y = replicate (length inp - 1) (-1) ++ Torch.sort inp.
Proof.
  intros HL Hget.
  apply getitem_done in Hget as (inp & Hsample & Hxy).
  apply sample_done in Hsample as [g0 Hstep].
  apply attempt_break in Hstep as (Hlabel & _ & Hlen & Hrange).
  rewrite example_of_shape in Hxy by assumption.
  injection Hxy as -> ->. exists inp. auto.
Qed.

(** In a sorted list an element is at most every later element. *)
Lemma sorted_lookup_le (l : list Z) (i j : nat) (a b : Z) :
  Sorted Z.le l -> l !! i = Some a -> l !! j = Some b -> (i <= j)%nat -> a <= b.
Proof.
  intros Hsorted. apply Sorted_StronglySorted in Hsorted; [| apply _].
  revert i j. induction Hsorted as [| v l Hl IH Hv]; intros i j Hi Hj Hij.
  - discriminate.
  - destruct i as [| i], j as [| j]; simpl in *; try lia.
    + injection Hi as <-. injection Hj as <-. lia.
    + injection Hi as <-. rewrite Forall_forall in Hv.
      apply Hv. apply list_elem_of_lookup. eauto.
    + apply (IH i j); (assumption || lia).
Qed.

(** X1. A returned pair fits the model that the script configures from
    the dataset: [x] and [y] have [get_block_size()] entries, every entry
    of [x] is a token below [get_vocab_size()], and every entry of [y] is
    the ignore value -1 or such a token. *)
Theorem examples_fit_block_and_vocabulary
    (pickle_dumps : list Z -> list Byte.byte) (hash : list Byte.byte -> Z)
    (fuel : nat) (self : SortDataset.t) (idx : Z) (g g' : Torch.Generator)
    (x y : list Z) :
  1 <= SortDataset.length self ->
  SortDataset.__getitem__ pickle_dumps hash fuel self idx g = (Done (x, y), g') ->
  Z.of_nat (length x) = SortDataset.get_block_size self /\
  Z.of_nat (length y) = SortDataset.get_block_size self /\
  Forall (fun v => 0 <= v < SortDataset.get_vocab_size self) x /\
  Forall (fun v => v = -1 \/ 0 <= v < SortDataset.get_vocab_size self) y.
Proof.
  intros HL Hget.
  destruct (getitem_inv _ _ _ _ _ _ _ _ _ HL Hget)
    as (inp & Hlen & Hrange & _ & -> & ->).
  unfold SortDataset.get_block_size, SortDataset.get_vocab_size.
  assert (Hsorted : Forall (fun v => 0 <= v < SortDataset.num_digits self)
                      (Torch.sort inp)).
  { rewrite Forall_forall in Hrange |- *. intros v Hv.
    apply Hrange, sort_elem_of, Hv. }
  repeat split.
  - rewrite length_app, length_take, sort_length. lia.
  - rewrite length_app, length_replicate, sort_length. lia.
  - apply Forall_app. split; [assumption | apply Forall_take, Hsorted].
  - apply Forall_app. split.
    + apply Forall_replicate. left. reflexivity.
    + eapply Forall_impl; [exact Hsorted |]. intros v Hv. right. exact Hv.
Qed.

Lemma examples_fit_block_and_vocabulary_witness :
  let x := [0; 1; 2; 0; 2; 1; 0; 0; 1; 1; 2] in
  let y := [-1; -1; -1; -1; -1; 0; 0; 1; 1; 2; 2] in
  Z.of_nat (length x) = SortDataset.get_block_size Sample.train_dataset /\
  Z.of_nat (length y) = SortDataset.get_block_size Sample.train_dataset /\
  Forall (fun v => 0 <= v < SortDataset.get_vocab_size Sample.train_dataset) x /\
  Forall (fun v => v = -1 \/ 0 <= v < SortDataset.get_vocab_size Sample.train_dataset) y.
Proof.
  intros x y.
  apply (examples_fit_block_and_vocabulary Sample.dumps Sample.hash 3
           Sample.train_dataset 0 Sample.generator
           (snd (SortDataset.__getitem__ Sample.dumps Sample.hash 3
                   Sample.train_dataset 0 Sample.generator)) x y).
  - vm_compute. discriminate.
  - vm_compute. reflexivity.
Defined.

(** X2. Within one interpreter process, that is under one hash salt,
    the train and the test set share no example: two datasets of the
    same sequence length whose splits differ never return the same [x]
    there, whatever the generator states and the indices asked for.
    Across processes with different salts they can. *)
Theorem train_and_test_of_one_process_share_no_example
    (pickle_dumps : list Z -> list Byte.byte) (hash : Z -> list Byte.byte -> Z)
    (salt : Z) (fuel1 fuel2 : nat) (ds1 ds2 : SortDataset.t) (idx1 idx2 : Z)
    (g1 g2 g1' g2' : Torch.Generator) (x1 y1 x2 y2 : list Z) :
  SortDataset.split ds1 <> SortDataset.split ds2 ->
  SortDataset.length ds1 = SortDataset.length ds2 ->
  1 <= SortDataset.length ds1 ->
  SortDataset.__getitem__ pickle_dumps (hash salt) fuel1 ds1 idx1 g1
  = (Done (x1, y1), g1') ->
  SortDataset.__getitem__ pickle_dumps (hash salt) fuel2 ds2 idx2 g2
  = (Done (x2, y2), g2') ->
  x1 <> x2.
Proof.
  intros Hsplit HL HL1 Hget1 Hget2 Heq.
  destruct (getitem_inv _ _ _ _ _ _ _ _ _ HL1 Hget1)
    as (inp1 & Hlen1 & _ & Hlabel1 & Hx1 & _).
  assert (HL2 : 1 <= SortDataset.length ds2) by lia.
  destruct (getitem_inv _ _ _ _ _ _ _ _ _ HL2 Hget2)
    as (inp2 & Hlen2 & _ & Hlabel2 & Hx2 & _).
  assert (Hinp : inp1 = inp2).
  { apply (f_equal (take (length inp1))) in Heq.
    rewrite Hx1 in Heq at 1. rewrite Hx2 in Heq.
    rewrite take_app_length in Heq.
    replace (length inp1) with (length inp2) in Heq by lia.
    rewrite take_app_length in Heq. exact Heq. }
  apply Hsplit. rewrite <- Hlabel1, <- Hlabel2, Hinp. reflexivity.
Qed.

Lemma train_and_test_of_one_process_share_no_example_witness :
  fst (SortDataset.example_of Sample.train_dataset [0; 1; 2; 0; 2; 1])
  <> fst (SortDataset.example_of Sample.test_dataset [0; 0; 0; 0; 1; 2]).
Proof.
  apply (train_and_test_of_one_process_share_no_example Sample.dumps
           Sample.salted_hash 0 1 2
           Sample.train_dataset Sample.test_dataset 0 5
           Sample.generator Sample.generator
           (snd (SortDataset.__getitem__ Sample.dumps (Sample.salted_hash 0) 1
                   Sample.train_dataset 0 Sample.generator))
           (snd (SortDataset.__getitem__ Sample.dumps (Sample.salted_hash 0) 2
                   Sample.test_dataset 5 Sample.generator))
           _ (snd (SortDataset.example_of Sample.train_dataset [0; 1; 2; 0; 2; 1]))
           _ (snd (SortDataset.example_of Sample.test_dataset [0; 0; 0; 0; 1; 2]))).
  - vm_compute. discriminate.
  - reflexivity.
  - vm_compute. discriminate.
  - vm_compute. reflexivity.
  - vm_compute. reflexivity.
Defined.

(** X3. The targets are the inputs shifted by one place: from position
    [L - 1] on, the target at a position is the input token at the next
    position, and the last target, which has no next input, is the
    largest value of the input sequence. *)
Theorem targets_are_the_next_tokens
    (pickle_dumps : list Z -> list Byte.byte) (hash : list Byte.byte -> Z)
    (fuel : nat) (self : SortDataset.t) (idx : Z) (g g' : Torch.Generator)
    (x y : list Z) :
  1 <= SortDataset.length self ->
  SortDataset.__getitem__ pickle_dumps hash fuel self idx g = (Done (x, y), g') ->
  let L := Z.to_nat (SortDataset.length self) in
  (forall i, (L - 1 <= i)%nat -> (i < 2 * L - 2)%nat ->
     y !! i = x !! S i /\ is_Some (y !! i)) /\
  exists m,
    y !! (2 * L - 2)%nat = Some m /\
    m ∈ take L x /\
    Forall (fun v => v <= m) (take L x).
Proof.
  intros HL Hget L.
  destruct (getitem_inv _ _ _ _ _ _ _ _ _ HL Hget)
    as (inp & Hlen & _ & _ & -> & ->).
  assert (HLn : L = length inp) by (unfold L; lia). rewrite HLn.
  pose proof (sort_length inp) as Hsol.
  split.
  - intros i Hlo Hhi.
    rewrite lookup_app_r by (rewrite length_replicate; lia).
    rewrite lookup_app_r by lia.
    rewrite length_replicate, lookup_take_lt by lia.
    replace (S i - length inp)%nat with (i - (length inp - 1))%nat by lia.
    split; [reflexivity |]. apply lookup_lt_is_Some. lia.
  - rewrite take_app_length.
    destruct (lookup_lt_is_Some_2 (Torch.sort inp) (length inp - 1) ltac:(lia))
      as [m Hm].
    exists m. split; [| split].
    + rewrite lookup_app_r by (rewrite length_replicate; lia).
      rewrite length_replicate.
      replace (2 * length inp - 2 - (length inp - 1))%nat
        with (length inp - 1)%nat by lia.
      exact Hm.
    + apply sort_elem_of. apply list_elem_of_lookup. eauto.
    + apply Forall_forall. intros v Hv. apply sort_elem_of in Hv.
      apply list_elem_of_lookup in Hv as [j Hj].
      apply (sorted_lookup_le (Torch.sort inp) j (length inp - 1) v m);
        [unfold Torch.sort; apply Sorted_merge_sort; apply _ | assumption
        | assumption |].
      apply lookup_lt_Some in Hj. lia.
Qed.

Lemma targets_are_the_next_tokens_witness :
  let x := [0; 1; 2; 0; 2; 1; 0; 0; 1; 1; 2] in
  let y := [-1; -1; -1; -1; -1; 0; 0; 1; 1; 2; 2] in
  (forall i, (6 - 1 <= i)%nat -> (i < 2 * 6 - 2)%nat ->
     y !! i = x !! S i /\ is_Some (y !! i)) /\
  exists m,
    y !! (2 * 6 - 2)%nat = Some m /\
    m ∈ take 6 x /\
    Forall (fun v => v <= m) (take 6 x).
Proof.
  intros x y.
  apply (targets_are_the_next_tokens Sample.dumps Sample.hash 3
           Sample.train_dataset 0 Sample.generator
           (snd (SortDataset.__getitem__ Sample.dumps Sample.hash 3
                   Sample.train_dataset 0 Sample.generator)) x y).
  - vm_compute. discriminate.
  - vm_compute. reflexivity.
Defined.

Lemma randint_one (n : Z) (g : Torch.Generator) :
  0 <= n ->
  Torch.randint 1 n g = inr (replicate (Z.to_nat n) 0, Torch.skip (Z.to_nat n) g).
Proof.
  intros Hn. unfold Torch.randint.
  destruct (Z.leb_spec 1 0); [lia |]. destruct (Z.ltb_spec n 0); [lia |].
  assert (Hzeros : forall l : list nat,
            map (fun i => Torch.draws g (Torch.pos g + i)%nat `mod` 1) l
            = replicate (length l) 0).
  { induction l as [| i l IH]; [reflexivity |].
    cbn [map length replicate]. rewrite Z.mod_1_r, IH. reflexivity. }
  rewrite Hzeros, length_seq. reflexivity.
Qed.

Lemma remove_dups_replicate (n : nat) (v : Z) :
  remove_dups (replicate (S n) v) = [v].
Proof.
  induction n as [| n IH]; [reflexivity |].
  change (replicate (S (S n)) v) with (v :: replicate (S n) v).
  cbn [remove_dups].
  destruct (decide_rel elem_of v (replicate (S n) v)) as [_ | Hnot]; [exact IH |].
  exfalso. apply Hnot. left.
Qed.

Section SingleDigit.

Variable pickle_dumps : list Z -> list Byte.byte.
Variable hash : list Byte.byte -> Z.

(** With one digit and at least two positions, a pass through the loop
    body draws the all-zero sequence and decides on its label alone. *)
Lemma attempt_single_digit (self : SortDataset.t) (g : Torch.Generator) :
  SortDataset.num_digits self = 1 ->
  2 <= SortDataset.length self ->
  exists g',
    SortDataset.attempt pickle_dumps hash self g =
      inr (if String.eqb
                (SortDataset.inp_split pickle_dumps hash
                   (replicate (Z.to_nat (SortDataset.length self)) 0))
                (SortDataset.split self)
           then SortDataset.Break (replicate (Z.to_nat (SortDataset.length self)) 0)
           else SortDataset.Continue, g').
Proof.
  intros Hdigits HL. unfold SortDataset.attempt.
  rewrite Hdigits, randint_one by lia.
  destruct (Torch.rand_lt_half _) as [coin g2]. exists g2.
  assert (Hunique : Torch.unique_nelement
                      (replicate (Z.to_nat (SortDataset.length self)) 0) = 1).
  { unfold Torch.unique_nelement.
    destruct (Z.to_nat (SortDataset.length self)) as [| n] eqn:Hn; [lia |].
    rewrite remove_dups_replicate. reflexivity. }
  rewrite Hunique.
  assert (Hhalf : (SortDataset.length self `div` 2 <? 1) = false).
  { apply Z.ltb_ge. apply Z.div_le_lower_bound; lia. }
  rewrite Hhalf, andb_false_r.
  destruct (String.eqb _ _); reflexivity.
Qed.

Lemma rejects_single_digit (self : SortDataset.t) (n : nat) (g : Torch.Generator) :
  SortDataset.num_digits self = 1 ->
  2 <= SortDataset.length self ->
  SortDataset.inp_split pickle_dumps hash
    (replicate (Z.to_nat (SortDataset.length self)) 0) <> SortDataset.split self ->
  SortDataset.rejects pickle_dumps hash n self g.
Proof.
  intros Hdigits HL Hlabel. revert g. induction n as [| n IH]; intros g; [exact I |].
  destruct (attempt_single_digit self g Hdigits HL) as [g' Hstep].
  apply String.eqb_neq in Hlabel. rewrite Hlabel in Hstep.
  cbn [SortDataset.rejects]. eauto.
Qed.

End SingleDigit.

(** X4. With [num_digits = 1] and a sequence length of at least 2 there
    is a single possible input, the all-zero sequence, and its label
    decides everything: the dataset of that split returns it at the first
    pass, and the dataset of the other split never returns, whatever the
    random stream. *)
Theorem single_digit_dataset_serves_one_split_only
    (pickle_dumps : list Z -> list Byte.byte) (hash : list Byte.byte -> Z)
    (self : SortDataset.t) (idx : Z) (g : Torch.Generator) :
  SortDataset.num_digits self = 1 ->
  2 <= SortDataset.length self ->
  let zeros := replicate (Z.to_nat (SortDataset.length self)) 0 in
  (SortDataset.inp_split pickle_dumps hash zeros = SortDataset.split self ->
   forall fuel, (1 <= fuel)%nat ->
     fst (SortDataset.__getitem__ pickle_dumps hash fuel self idx g)
     = Done (SortDataset.example_of self zeros)) /\
  (SortDataset.inp_split pickle_dumps hash zeros <> SortDataset.split self ->
   forall fuel,
     fst (SortDataset.__getitem__ pickle_dumps hash fuel self idx g) = Timeout).
Proof.
  intros Hdigits HL zeros. split.
  - intros Hlabel fuel Hfuel. destruct fuel as [| fuel]; [lia |].
    unfold SortDataset.__getitem__. cbn [SortDataset.sample].
    destruct (attempt_single_digit pickle_dumps hash self g Hdigits HL) as [g' ->].
    fold zeros. apply String.eqb_eq in Hlabel. rewrite Hlabel. reflexivity.
  - intros Hlabel fuel. unfold SortDataset.__getitem__.
    pose proof (sample_rejects pickle_dumps hash fuel self g
                  (rejects_single_digit pickle_dumps hash self fuel g
                     Hdigits HL Hlabel)) as Hout.
    destruct (SortDataset.sample pickle_dumps hash fuel self g) as [[inp | e |] g1];
      simpl in *; (reflexivity || discriminate).
Qed.

Lemma single_digit_dataset_serves_one_split_only_witness :
  let train := {| SortDataset.split := "train"; SortDataset.length := 6;
                  SortDataset.num_digits := 1 |} in
  let test := {| SortDataset.split := "test"; SortDataset.length := 6;
                 SortDataset.num_digits := 1 |} in
  fst (SortDataset.__getitem__ Sample.dumps Sample.hash 1 train 0 Sample.generator)
  = Done (SortDataset.example_of train (replicate (Z.to_nat 6) 0)) /\
  fst (SortDataset.__getitem__ Sample.dumps Sample.hash 1000 test 0 Sample.generator)
  = Timeout.
Proof.
  intros train test. split.
  - apply (proj1 (single_digit_dataset_serves_one_split_only Sample.dumps Sample.hash
                    train 0 Sample.generator eq_refl ltac:(vm_compute; discriminate)));
      [vm_compute; reflexivity | lia].
  - apply (proj2 (single_digit_dataset_serves_one_split_only Sample.dumps Sample.hash
                    test 0 Sample.generator eq_refl ltac:(vm_compute; discriminate))).
    vm_compute. discriminate.
Defined.

(** ** eval_split *)

Lemma slice_to_app_length {A} (a b : list A) :
  Py.slice_to (a ++ b) (Z.of_nat (length a)) = a.
Proof.
  unfold Py.slice_to. rewrite bound_nonneg by (rewrite length_app; lia).
  rewrite Nat2Z.id. apply take_app_length.
Qed.

Lemma slice_from_app_length {A} (a b : list A) :
  Py.slice_from (a ++ b) (Z.of_nat (length a)) = b.
Proof.
  unfold Py.slice_from. rewrite bound_nonneg by (rewrite length_app; lia).
  rewrite Nat2Z.id. apply drop_app_length.
Qed.

Lemma bound_negative (len : nat) (i : Z) :
  0 < i <= Z.of_nat len -> Py.bound len (- i) = (len - Z.to_nat i)%nat.
Proof.
  intros Hi. unfold Py.bound. cbv zeta.
  destruct (Z.ltb_spec (- i) 0); [| lia].
  repeat (match goal with
          | |- context [?a <? ?b] => destruct (Z.ltb_spec a b)
          end; try lia).
Qed.

(** The two slices that [eval_split] takes of an example of the dataset:
    the input, and its sorted copy. *)
Lemma isolate_example (self : SortDataset.t) (inp : list Z) :
  1 <= SortDataset.length self ->
  length inp = Z.to_nat (SortDataset.length self) ->
  Py.slice_to (fst (SortDataset.example_of self inp)) (SortDataset.length self) = inp /\
  Py.slice_from (snd (SortDataset.example_of self inp)) (- SortDataset.length self)
  = Torch.sort inp.
Proof.
  intros HL Hlen. rewrite example_of_shape by assumption. cbn [fst snd].
  pose proof (sort_length inp) as Hsol.
  replace (SortDataset.length self) with (Z.of_nat (length inp)) by lia.
  split; [apply slice_to_app_length |].
  unfold Py.slice_from.
  rewrite bound_negative by (rewrite length_app, length_replicate; lia).
  rewrite length_app, length_replicate, Nat2Z.id, Hsol.
  apply drop_app_length'. rewrite length_replicate. lia.
Qed.

(** X5. The slices that [eval_split] takes to isolate the problem and
    its ground truth do so on every example of the dataset: the first [n]
    entries of [x] are the input sequence, and the last [n] entries of
    [y] are that sequence sorted. *)
Theorem eval_slices_isolate_input_and_solution
    (pickle_dumps : list Z -> list Byte.byte) (hash : list Byte.byte -> Z)
    (fuel : nat) (self : SortDataset.t) (idx : Z) (g g' : Torch.Generator)
    (x y : list Z) :
  1 <= SortDataset.length self ->
  SortDataset.__getitem__ pickle_dumps hash fuel self idx g = (Done (x, y), g') ->
  let n := SortDataset.length self in
  length (Py.slice_to x n) = Z.to_nat n /\
  Py.slice_from y (- n) = Torch.sort (Py.slice_to x n) /\
  Sorted Z.le (Py.slice_from y (- n)) /\
  Py.slice_from y (- n) ≡ₚ Py.slice_to x n.
Proof.
  intros HL Hget n.
  apply getitem_done in Hget as (inp & Hsample & Hxy).
  apply sample_done in Hsample as [g0 Hstep].
  apply attempt_break in Hstep as (_ & _ & Hlen & _).
  destruct (isolate_example self inp HL Hlen) as [Hx Hy].
  rewrite <- Hxy in Hx, Hy. cbn [fst snd] in Hx, Hy. fold n in Hx, Hy.
  rewrite Hx, Hy. repeat split.
  - exact Hlen.
  - unfold Torch.sort. apply Sorted_merge_sort. apply _.
  - unfold Torch.sort. apply merge_sort_Permutation.
Qed.

Lemma eval_slices_isolate_input_and_solution_witness :
  let x := [0; 1; 2; 0; 2; 1; 0; 0; 1; 1; 2] in
  let y := [-1; -1; -1; -1; -1; 0; 0; 1; 1; 2; 2] in
  length (Py.slice_to x 6) = Z.to_nat 6 /\
  Py.slice_from y (- 6) = Torch.sort (Py.slice_to x 6) /\
  Sorted Z.le (Py.slice_from y (- 6)) /\
  Py.slice_from y (- 6) ≡ₚ Py.slice_to x 6.
Proof.
  intros x y.
  apply (eval_slices_isolate_input_and_solution Sample.dumps Sample.hash 3
           Sample.train_dataset 0 Sample.generator
           (snd (SortDataset.__getitem__ Sample.dumps Sample.hash 3
                   Sample.train_dataset 0 Sample.generator)) x y).
  - vm_compute. discriminate.
  - vm_compute. reflexivity.
Defined.

(** What the loop of [eval_split] keeps true: every result is 0 or 1,
    the counter of printed mistakes is the number of printed lines, and
    that number is the number of wrong rows so far, capped at 3. *)
Lemma record_row_inv (inp cand sol : list (list Z)) (correct : list bool)
    (st st' : Script.progress) (i : nat) :
  Script.record_row inp cand sol correct st i = inr st' ->
  Script.mistakes_printed_already st = Z.of_nat (length (Script.printed st)) ->
  length (Script.printed st)
  = Nat.min 3 (length (List.filter (Z.eqb 0) (Script.results st))) ->
  (exists c : bool,
     correct !! i = Some c /\
     Script.results st' = Script.results st ++ [if c then 1 else 0]) /\
  Script.mistakes_printed_already st' = Z.of_nat (length (Script.printed st')) /\
  length (Script.printed st')
  = Nat.min 3 (length (List.filter (Z.eqb 0) (Script.results st'))).
Proof.
  unfold Script.record_row, Script.index. intros Hrow Hcount Hcap.
  destruct (correct !! i) as [c |]; [| discriminate].
  destruct c; cbn [negb andb] in Hrow.
  - injection Hrow as <-. cbn [Script.results Script.mistakes_printed_already
      Script.printed]. split; [eauto |]. split; [assumption |].
    rewrite List.filter_app, length_app.
    change (List.filter (Z.eqb 0) [1]) with (@nil Z).
    cbn [length]. rewrite Nat.add_0_r. assumption.
  - destruct (Z.ltb_spec (Script.mistakes_printed_already st) 3) as [Hlt | Hge].
    + destruct (inp !! i), (cand !! i), (sol !! i); try discriminate.
      injection Hrow as <-. cbn [Script.results Script.mistakes_printed_already
        Script.printed]. split; [eauto |].
      rewrite List.filter_app, !length_app.
      change (List.filter (Z.eqb 0) [0]) with [0]. cbn [length]. lia.
    + injection Hrow as <-. cbn [Script.results Script.mistakes_printed_already
        Script.printed]. split; [eauto |]. split; [assumption |].
      rewrite List.filter_app, length_app.
      change (List.filter (Z.eqb 0) [0]) with [0]. cbn [length]. lia.
Qed.

Lemma record_rows_inv (inp cand sol : list (list Z)) (correct : list bool)
    (rows : list nat) (st st' : Script.progress) :
  Script.record_rows inp cand sol correct rows st = inr st' ->
  Script.mistakes_printed_already st = Z.of_nat (length (Script.printed st)) ->
  length (Script.printed st)
  = Nat.min 3 (length (List.filter (Z.eqb 0) (Script.results st))) ->
  Forall (fun r => r = 0 \/ r = 1) (Script.results st) ->
  length (Script.results st') = (length (Script.results st) + length rows)%nat /\
  Script.mistakes_printed_already st' = Z.of_nat (length (Script.printed st')) /\
  length (Script.printed st')
  = Nat.min 3 (length (List.filter (Z.eqb 0) (Script.results st'))) /\
  Forall (fun r => r = 0 \/ r = 1) (Script.results st').
Proof.
  revert st. induction rows as [| i rows IH]; intros st Hrows Hcount Hcap Hbits.
  - injection Hrows as <-. rewrite Nat.add_0_r. auto.
  - cbn [Script.record_rows] in Hrows.
    destruct (Script.record_row inp cand sol correct st i) as [e | st1] eqn:Hrow;
      [discriminate |].
    destruct (record_row_inv _ _ _ _ _ _ _ Hrow Hcount Hcap)
      as ((c & _ & Hres) & Hcount1 & Hcap1).
    destruct (IH st1 Hrows Hcount1 Hcap1) as (Hlen & Hrest).
    { rewrite Hres. apply Forall_app. split; [assumption |].
      constructor; [destruct c; auto | constructor]. }
    split; [| exact Hrest].
    rewrite Hlen, Hres, length_app. cbn. lia.
Qed.

Section EvalLoop.

Variable generate : list (list Z) -> Z -> list (list Z).

Lemma eval_batch_inv (n : Z) (xy : Script.batch) (st st' : Script.progress) :
  Script.eval_batch generate n xy st = inr st' ->
  Script.mistakes_printed_already st = Z.of_nat (length (Script.printed st)) ->
  length (Script.printed st)
  = Nat.min 3 (length (List.filter (Z.eqb 0) (Script.results st))) ->
  Forall (fun r => r = 0 \/ r = 1) (Script.results st) ->
  length (Script.results st') = (length (Script.results st) + length xy)%nat /\
  Script.mistakes_printed_already st' = Z.of_nat (length (Script.printed st')) /\
  length (Script.printed st')
  = Nat.min 3 (length (List.filter (Z.eqb 0) (Script.results st'))) /\
  Forall (fun r => r = 0 \/ r = 1) (Script.results st').
Proof.
  unfold Script.eval_batch. cbv zeta.
  destruct (Script.eq_all1 _ _) as [e | correct]; [discriminate |].
  intros Hrows Hcount Hcap Hbits.
  destruct (record_rows_inv _ _ _ _ _ _ _ Hrows Hcount Hcap Hbits) as (Hlen & Hrest).
  split; [| exact Hrest].
  rewrite Hlen, length_seq, length_map. reflexivity.
Qed.

(** The batches that the loop gets to when [enumerate] stands at [b]:
    all of them without a limit, otherwise [max_batches - b] of them and
    never fewer than one. *)
Lemma batches_loop_inv (n : Z) (max_batches : option Z) (batches : list Script.batch) :
  forall (b : nat) (st st' : Script.progress),
    Script.batches_loop generate n max_batches b batches st = inr st' ->
    Script.mistakes_printed_already st = Z.of_nat (length (Script.printed st)) ->
    length (Script.printed st)
    = Nat.min 3 (length (List.filter (Z.eqb 0) (Script.results st))) ->
    Forall (fun r => r = 0 \/ r = 1) (Script.results st) ->
    length (Script.results st')
    = (length (Script.results st) +
       length (concat (match max_batches with
                       | Some m => take (Z.to_nat (Z.max 1 (m - Z.of_nat b))) batches
                       | None => batches
                       end)))%nat /\
    Script.mistakes_printed_already st' = Z.of_nat (length (Script.printed st')) /\
    length (Script.printed st')
    = Nat.min 3 (length (List.filter (Z.eqb 0) (Script.results st'))) /\
    Forall (fun r => r = 0 \/ r = 1) (Script.results st').
Proof.
  induction batches as [| xy rest IH]; intros b st st' Hloop Hcount Hcap Hbits.
  - injection Hloop as <-.
    destruct max_batches; rewrite ?take_nil; cbn; rewrite Nat.add_0_r; auto.
  - cbn [Script.batches_loop] in Hloop.
    destruct (Script.eval_batch generate n xy st) as [e | st1] eqn:Hbatch;
      [discriminate |].
    destruct (eval_batch_inv _ _ _ _ Hbatch Hcount Hcap Hbits)
      as (Hlen1 & Hcount1 & Hcap1 & Hbits1).
    destruct max_batches as [m |].
    + destruct (Z.geb_spec (Z.of_nat b + 1) m) as [Hstop | Hgo].
      * injection Hloop as <-. split; [| auto].
        replace (Z.to_nat (Z.max 1 (m - Z.of_nat b))) with 1%nat by lia.
        cbn [take concat]. rewrite take_0. cbn [concat].
        rewrite app_nil_r. exact Hlen1.
      * destruct (IH (S b) st1 st' Hloop Hcount1 Hcap1 Hbits1) as (Hlen & Hrest).
        split; [| exact Hrest].
        replace (Z.to_nat (Z.max 1 (m - Z.of_nat b)))
          with (S (Z.to_nat (Z.max 1 (m - Z.of_nat (S b))))) by lia.
        cbn [take concat]. rewrite Hlen, Hlen1, length_app. lia.
    + destruct (IH (S b) st1 st' Hloop Hcount1 Hcap1 Hbits1) as (Hlen & Hrest).
      split; [| exact Hrest].
      cbn [concat]. rewrite Hlen, Hlen1, length_app. lia.
Qed.

End EvalLoop.

Lemma sum_of_bits (l : list Z) :
  Forall (fun r => r = 0 \/ r = 1) l ->
  foldr Z.add 0 l
  = Z.of_nat (length l) - Z.of_nat (length (List.filter (Z.eqb 0) l)).
Proof.
  induction 1 as [| r l [-> | ->] _ IH]; cbn; [reflexivity | |];
    rewrite ?IH; cbn [length]; lia.
Qed.

(** X6. [eval_split] evaluates the batches up to [max_batches], and at
    least one even when [max_batches] is 0 or negative (the test comes
    after the batch); without a limit it evaluates them all. One result
    is recorded per row, and the returned score is the number of rows
    marked correct. *)
Theorem eval_split_stops_after_max_batches
    (generate : list (list Z) -> Z -> list (list Z))
    (train_dataset test_dataset : SortDataset.t)
    (loader : SortDataset.t -> list Script.batch)
    (split : string) (max_batches : option Z) (score : Z) (st : Script.progress) :
  Script.eval_split generate train_dataset test_dataset loader split max_batches
  = inr (score, st) ->
  let dataset := if String.eqb split "train" then train_dataset else test_dataset in
  let evaluated :=
    match max_batches with
    | Some m => take (Z.to_nat (Z.max 1 m)) (loader dataset)
    | None => loader dataset
    end in
  length (Script.results st) = length (concat evaluated) /\
  Forall (fun r => r = 0 \/ r = 1) (Script.results st) /\
  score = Z.of_nat (length (List.filter (Z.eqb 1) (Script.results st))) /\
  0 <= score <= Z.of_nat (length (concat evaluated)).
Proof.
  intros Heval dataset evaluated. unfold Script.eval_split in Heval.
  assert (Hloop : exists d,
            d = dataset /\
            match Script.batches_loop generate (SortDataset.length train_dataset)
                    max_batches 0 (loader d) Script.progress0 with
            | inl e => inl e
            | inr st0 => inr (foldr Z.add 0 (Script.results st0), st0)
            end = inr (score, st)).
  { unfold dataset. destruct (String.eqb split "train"); [eauto |].
    destruct (String.eqb split "test"); [eauto | discriminate]. }
  destruct Hloop as (d & -> & Hloop).
  destruct (Script.batches_loop _ _ _ _ _ _) as [e | st0] eqn:Hrun; [discriminate |].
  injection Hloop as <- <-.
  destruct (batches_loop_inv generate _ _ _ _ _ _ Hrun eq_refl eq_refl
              ltac:(constructor)) as (Hlen & _ & _ & Hbits).
  assert (Hsame : length (Script.results st0) = length (concat evaluated)).
  { rewrite Hlen. unfold evaluated. destruct max_batches as [m |]; cbn; [| lia].
    rewrite Z.sub_0_r. reflexivity. }
  pose proof (sum_of_bits _ Hbits) as Hsum.
  assert (Hones : length (Script.results st0)
                  = (length (List.filter (Z.eqb 1) (Script.results st0)) +
                     length (List.filter (Z.eqb 0) (Script.results st0)))%nat).
  { clear -Hbits. induction Hbits as [| r l [-> | ->] _ IH]; cbn; lia. }
  repeat split; try assumption; lia.
Qed.

Lemma eval_split_stops_after_max_batches_witness :
  let r := Script.eval_split Demo.echo Sample.train_dataset Sample.test_dataset
             Demo.loader "test" (Some 0) in
  exists score st,
    r = inr (score, st) /\
    length (Script.results st)
    = length (concat (take (Z.to_nat (Z.max 1 0)) (Demo.loader Sample.test_dataset))) /\
    Forall (fun r => r = 0 \/ r = 1) (Script.results st) /\
    score = Z.of_nat (length (List.filter (Z.eqb 1) (Script.results st))) /\
    0 <= score
    <= Z.of_nat (length (concat (take (Z.to_nat (Z.max 1 0))
                                   (Demo.loader Sample.test_dataset)))).
Proof.
  intros r. eexists _, _. split; [vm_compute; reflexivity |].
  apply (eval_split_stops_after_max_batches Demo.echo Sample.train_dataset
           Sample.test_dataset Demo.loader "test" (Some 0)).
  vm_compute. reflexivity.
Defined.

(** X7. [eval_split] prints a mistake for each row marked wrong until
    three have been printed and none after that: the number of printed
    lines is the number of wrong rows capped at 3, and it is what
    [mistakes_printed_already] holds. *)
Theorem eval_split_prints_at_most_three_mistakes
    (generate : list (list Z) -> Z -> list (list Z))
    (train_dataset test_dataset : SortDataset.t)
    (loader : SortDataset.t -> list Script.batch)
    (split : string) (max_batches : option Z) (score : Z) (st : Script.progress) :
  Script.eval_split generate train_dataset test_dataset loader split max_batches
  = inr (score, st) ->
  length (Script.printed st)
  = Nat.min 3 (length (List.filter (Z.eqb 0) (Script.results st))) /\
  Script.mistakes_printed_already st = Z.of_nat (length (Script.printed st)) /\
  Z.of_nat (length (List.filter (Z.eqb 0) (Script.results st)))
  = Z.of_nat (length (Script.results st)) - score.
Proof.
  intros Heval. unfold Script.eval_split in Heval.
  assert (Hloop : exists d,
            match Script.batches_loop generate (SortDataset.length train_dataset)
                    max_batches 0 (loader d) Script.progress0 with
            | inl e => inl e
            | inr st0 => inr (foldr Z.add 0 (Script.results st0), st0)
            end = inr (score, st)).
  { destruct (String.eqb split "train"); [eauto |].
    destruct (String.eqb split "test"); [eauto | discriminate]. }
  destruct Hloop as (d & Hloop).
  destruct (Script.batches_loop _ _ _ _ _ _) as [e | st0] eqn:Hrun; [discriminate |].
  injection Hloop as <- <-.
  destruct (batches_loop_inv generate _ _ _ _ _ _ Hrun eq_refl eq_refl
              ltac:(constructor)) as (_ & Hcount & Hcap & Hbits).
  pose proof (sum_of_bits _ Hbits) as Hsum.
  repeat split; try assumption; lia.
Qed.

Lemma eval_split_prints_at_most_three_mistakes_witness :
  let r := Script.eval_split Demo.echo Sample.train_dataset Sample.test_dataset
             Demo.loader "test" None in
  exists score st,
    r = inr (score, st) /\
    length (Script.results st) = 6%nat /\
    length (Script.printed st)
    = Nat.min 3 (length (List.filter (Z.eqb 0) (Script.results st))) /\
    Script.mistakes_printed_already st = Z.of_nat (length (Script.printed st)) /\
    Z.of_nat (length (List.filter (Z.eqb 0) (Script.results st)))
    = Z.of_nat (length (Script.results st)) - score.
Proof.
  intros r. eexists _, _. split; [vm_compute; reflexivity |].
  split; [vm_compute; reflexivity |].
  apply (eval_split_prints_at_most_three_mistakes Demo.echo Sample.train_dataset
           Sample.test_dataset Demo.loader "test" None).
  vm_compute. reflexivity.
Defined.

Lemma forallb_rows_eq (f : nat -> bool) (r s : list Z) (n : nat) :
  length r = n -> length s = n ->
  (forall j, (j < n)%nat -> f j = (default 0 (r !! j) =? default 0 (s !! j))) ->
  forallb f (seq 0 n) = bool_decide (r = s).
Proof.
  intros Hr Hs Hf.
  destruct (forallb f (seq 0 n)) eqn:Hall; symmetry.
  - apply bool_decide_eq_true. apply list_eq. intros j.
    destruct (Nat.lt_ge_cases j n) as [Hlt | Hge].
    + rewrite forallb_forall in Hall.
      specialize (Hall j ltac:(apply in_seq; lia)). rewrite Hf in Hall by assumption.
      destruct (lookup_lt_is_Some_2 r j ltac:(lia)) as [a Ha].
      destruct (lookup_lt_is_Some_2 s j ltac:(lia)) as [b Hb].
      rewrite Ha, Hb in Hall |- *. cbn in Hall. apply Z.eqb_eq in Hall.
      congruence.
    + rewrite !lookup_ge_None_2 by lia. reflexivity.
  - apply bool_decide_eq_false. intros ->.
    assert (Htrue : forallb f (seq 0 n) = true); [| congruence].
    apply forallb_forall. intros j Hj. apply in_seq in Hj.
    rewrite Hf by lia. apply Z.eqb_refl.
Qed.

Lemma at2_lookup (a : list (list Z)) (i j : nat) (r : list Z) :
  a !! i = Some r -> (j < Script.width a)%nat ->
  Script.at2 a i j = default 0 (r !! j).
Proof.
  intros Hi Hj. unfold Script.at2. cbv zeta.
  assert (Hrow : a !! (if (length a =? 1)%nat then 0%nat else i) = Some r).
  { destruct (Nat.eqb_spec (length a) 1) as [Hone | _]; [| assumption].
    apply lookup_lt_Some in Hi as Hlt.
    replace i with 0%nat in Hi by lia. assumption. }
  rewrite Hrow. cbn [default].
  destruct (Nat.eqb_spec (Script.width a) 1) as [Hone | _]; [| reflexivity].
  replace j with 0%nat by lia. reflexivity.
Qed.

Lemma width_uniform (a : list (list Z)) (n : nat) :
  a <> [] -> Forall (fun r => length r = n) a -> Script.width a = n.
Proof. destruct a as [| r a]; [congruence |]. intros _ Hall. inversion Hall; auto. Qed.

(** On two tensors of one shape, [(a == b).all(1)] compares row with row. *)
Lemma eq_all1_uniform (a b : list (list Z)) (n : nat) :
  length a = length b ->
  Forall (fun r => length r = n) a ->
  Forall (fun r => length r = n) b ->
  Script.eq_all1 a b = inr (zip_with (fun r s => bool_decide (r = s)) a b).
Proof.
  intros Hlen Ha Hb.
  destruct a as [| r0 a'] eqn:Hshape.
  { destruct b; [reflexivity | discriminate]. }
  rewrite <- Hshape in *. assert (Hne : a <> []) by (subst; discriminate).
  assert (Hneb : b <> []) by (destruct b; [subst; discriminate | discriminate]).
  unfold Script.eq_all1.
  rewrite (width_uniform a n Hne Ha), (width_uniform b n Hneb Hb), <- Hlen.
  assert (Hself : forall m, Script.broadcastable m m = true)
    by (intros m; unfold Script.broadcastable; rewrite Nat.eqb_refl; reflexivity).
  assert (Hdim : forall m, Script.broadcast_dim m m = m)
    by (intros m; unfold Script.broadcast_dim; destruct (m =? 1)%nat; reflexivity).
  rewrite !Hself, !Hdim. cbn [andb]. f_equal.
  apply list_eq. intros i. rewrite list_lookup_fmap, lookup_zip_with.
  destruct (Nat.lt_ge_cases i (length a)) as [Hlt | Hge].
  - rewrite lookup_seq_lt by assumption. cbn.
    destruct (lookup_lt_is_Some_2 a i Hlt) as [r Hr].
    destruct (lookup_lt_is_Some_2 b i ltac:(lia)) as [s Hs].
    rewrite Hr, Hs. cbn. f_equal.
    apply forallb_rows_eq.
    + rewrite Forall_forall in Ha. apply Ha. apply list_elem_of_lookup. eauto.
    + rewrite Forall_forall in Hb. apply Hb. apply list_elem_of_lookup. eauto.
    + intros j Hj.
      rewrite (at2_lookup a i j r Hr), (at2_lookup b i j s Hs);
        [reflexivity | |];
        [rewrite (width_uniform b n Hneb Hb) | rewrite (width_uniform a n Hne Ha)];
        assumption.
  - rewrite lookup_seq_ge by assumption.
    rewrite (lookup_ge_None_2 a) by assumption. reflexivity.
Qed.

(** When every tensor has as many rows as [correct], the loop over the
    rows records one result per entry of [correct]. *)
Lemma record_rows_closed (inp cand sol : list (list Z)) (correct : list bool)
    (m : nat) :
  length inp = length correct -> length cand = length correct ->
  length sol = length correct ->
  forall (k : nat) (st : Script.progress),
    (k + m = length correct)%nat ->
    exists st',
      Script.record_rows inp cand sol correct (seq k m) st = inr st' /\
      Script.results st'
      = Script.results st ++ map (fun c : bool => if c then 1 else 0) (drop k correct).
Proof.
  intros Hinp Hcand Hsol. induction m as [| m IH]; intros k st Hk.
  - exists st. rewrite drop_ge by lia. rewrite app_nil_r. split; reflexivity.
  - cbn [seq Script.record_rows]. unfold Script.record_row, Script.index.
    destruct (lookup_lt_is_Some_2 correct k ltac:(lia)) as [c Hc].
    destruct (lookup_lt_is_Some_2 inp k ltac:(lia)) as [a Ha].
    destruct (lookup_lt_is_Some_2 cand k ltac:(lia)) as [b Hb].
    destruct (lookup_lt_is_Some_2 sol k ltac:(lia)) as [d Hd].
    rewrite Hc, Ha, Hb, Hd.
    rewrite (drop_S correct c k Hc). cbn [map].
    destruct (negb c && _);
      match goal with
      | |- context [Script.record_rows _ _ _ _ _ ?s] =>
          destruct (IH (S k) s ltac:(lia)) as (st' & -> & Hres)
      end;
      exists st'; (split; [reflexivity |]);
      rewrite Hres; cbn [Script.results]; rewrite <- app_assoc; reflexivity.
Qed.

Lemma sum_of_marks {A} (right : A -> bool) (l : list A) :
  foldr Z.add 0 (map (fun row => if right row then 1 else 0) l)
  = Z.of_nat (length (List.filter right l)).
Proof.
  induction l as [| a l IH]; [reflexivity |].
  cbn [map foldr List.filter]. rewrite IH. destruct (right a); cbn [length]; lia.
Qed.

Section Metric.

Variable generate : list (list Z) -> Z -> list (list Z).
Variable complete : list Z -> list Z.
Variable dataset : SortDataset.t.

Local Abbreviation n := (SortDataset.length dataset).
Local Abbreviation right := (Script.sorts complete (SortDataset.length dataset)).
Local Abbreviation is_example := (Script.is_example dataset).

Hypothesis Hn : 1 <= n.
Hypothesis Hgenerate :
  forall inp, Forall (fun r => length r = Z.to_nat n) inp ->
    generate inp n = map (fun r => r ++ complete r) inp.
Hypothesis Hcomplete : forall r, length r = Z.to_nat n -> length (complete r) = Z.to_nat n.

Lemma eval_batch_closed (xy : Script.batch) (st : Script.progress) :
  Forall is_example xy ->
  exists st',
    Script.eval_batch generate n xy st = inr st' /\
    Script.results st'
    = Script.results st ++ map (fun row => if right row then 1 else 0) xy.
Proof.
  intros Hrows. unfold Script.eval_batch. cbv zeta.
  assert (Hinp : Forall (fun r => length r = Z.to_nat n)
                   (map (fun r => Py.slice_to r n) (map fst xy))).
  { apply Forall_fmap, Forall_fmap. eapply Forall_impl; [exact Hrows |].
    intros row (inp & Hlen & ->). unfold compose. cbv beta.
    rewrite (proj1 (isolate_example dataset inp Hn Hlen)). exact Hlen. }
  rewrite (Hgenerate _ Hinp).
  assert (Hsol : map (fun r => Py.slice_from r (- n)) (map snd xy)
                 = map (fun row => Torch.sort (Py.slice_to (fst row) n)) xy).
  { rewrite map_map. apply Forall_fmap_ext_1.
    eapply Forall_impl; [exact Hrows |]. intros row (inp & Hlen & ->).
    destruct (isolate_example dataset inp Hn Hlen) as [-> ->]. reflexivity. }
  assert (Hcand : map (fun r => Py.slice_from r n)
                    (map (fun r => r ++ complete r)
                       (map (fun r => Py.slice_to r n) (map fst xy)))
                  = map (fun row => complete (Py.slice_to (fst row) n)) xy).
  { rewrite !map_map. apply Forall_fmap_ext_1.
    eapply Forall_impl; [exact Hrows |]. intros row (inp & Hlen & ->).
    rewrite (proj1 (isolate_example dataset inp Hn Hlen)).
    replace n with (Z.of_nat (length inp)) at 1 by lia.
    apply slice_from_app_length. }
  rewrite Hsol, Hcand.
  rewrite (eq_all1_uniform _ _ (Z.to_nat n)).
  - replace (length (map fst xy)) with (length xy) by (rewrite length_map; reflexivity).
    destruct (record_rows_closed
                (map (fun r => Py.slice_to r n) (map fst xy))
                (map (fun row => complete (Py.slice_to (fst row) n)) xy)
                (map (fun row => Torch.sort (Py.slice_to (fst row) n)) xy)
                (zip_with (fun r s => bool_decide (r = s))
                   (map (fun row => Torch.sort (Py.slice_to (fst row) n)) xy)
                   (map (fun row => complete (Py.slice_to (fst row) n)) xy))
                (length xy)) with (k := 0%nat) (st := st)
      as (st' & Hrun & Hres);
      rewrite ?length_zip_with, ?length_map; try lia.
    exists st'. split; [exact Hrun |]. rewrite Hres, drop_0. f_equal.
    clear. induction xy as [| row xy IH]; [reflexivity |].
    cbn [map zip_with]. rewrite IH. f_equal. unfold Script.sorts.
    destruct (decide (complete (Py.slice_to (fst row) n)
                      = Torch.sort (Py.slice_to (fst row) n))) as [Heq | Hne].
    + rewrite !bool_decide_eq_true_2 by congruence. reflexivity.
    + rewrite !bool_decide_eq_false_2 by congruence. reflexivity.
  - rewrite !length_map. reflexivity.
  - apply Forall_fmap. eapply Forall_impl; [exact Hrows |].
    intros row (inp & Hlen & ->). unfold compose. cbv beta.
    rewrite (proj1 (isolate_example dataset inp Hn Hlen)), sort_length. exact Hlen.
  - apply Forall_fmap. eapply Forall_impl; [exact Hrows |].
    intros row (inp & Hlen & ->). unfold compose. cbv beta.
    rewrite (proj1 (isolate_example dataset inp Hn Hlen)). apply Hcomplete, Hlen.
Qed.

Lemma batches_loop_closed (max_batches : option Z) (batches : list Script.batch) :
  Forall (Forall is_example) batches ->
  forall (b : nat) (st : Script.progress),
    exists st',
      Script.batches_loop generate n max_batches b batches st = inr st' /\
      Script.results st'
      = Script.results st ++
        map (fun row => if right row then 1 else 0)
          (concat (match max_batches with
                   | Some m => take (Z.to_nat (Z.max 1 (m - Z.of_nat b))) batches
                   | None => batches
                   end)).
Proof.
  induction 1 as [| xy rest Hxy _ IH]; intros b st.
  - exists st. destruct max_batches; rewrite ?take_nil; cbn; rewrite app_nil_r; auto.
  - cbn [Script.batches_loop].
    destruct (eval_batch_closed xy st Hxy) as (st1 & -> & Hres1).
    destruct max_batches as [m |].
    + destruct (Z.geb_spec (Z.of_nat b + 1) m) as [Hstop | Hgo].
      * exists st1. split; [reflexivity |].
        replace (Z.to_nat (Z.max 1 (m - Z.of_nat b))) with 1%nat by lia.
        cbn [take concat]. rewrite take_0. cbn [concat]. rewrite app_nil_r.
        exact Hres1.
      * destruct (IH (S b) st1) as (st' & -> & Hres).
        exists st'. split; [reflexivity |].
        replace (Z.to_nat (Z.max 1 (m - Z.of_nat b)))
          with (S (Z.to_nat (Z.max 1 (m - Z.of_nat (S b))))) by lia.
        cbn [take concat]. rewrite Hres, Hres1, map_app, <- app_assoc. reflexivity.
    + destruct (IH (S b) st1) as (st' & -> & Hres).
      exists st'. split; [reflexivity |].
      cbn [concat]. rewrite Hres, Hres1, map_app, <- app_assoc. reflexivity.
Qed.

End Metric.

(** X8. The score of [eval_split] is the number of evaluated rows whose
    completion by the model equals the sorted input: for a model that
    continues each input row [r] of length [n] with [n] tokens
    [complete r], on batches of examples of the dataset, row [i] is
    marked 1 exactly when [complete] of its input is the input sorted,
    and the returned sum counts these rows. *)
Theorem eval_split_counts_sorted_completions
    (generate : list (list Z) -> Z -> list (list Z)) (complete : list Z -> list Z)
    (train_dataset test_dataset : SortDataset.t)
    (loader : SortDataset.t -> list Script.batch)
    (split : string) (max_batches : option Z) :
  split = "train" \/ split = "test" ->
  1 <= SortDataset.length train_dataset ->
  SortDataset.length test_dataset = SortDataset.length train_dataset ->
  (forall inp,
     Forall (fun r => length r = Z.to_nat (SortDataset.length train_dataset)) inp ->
     generate inp (SortDataset.length train_dataset)
     = map (fun r => r ++ complete r) inp) ->
  (forall r,
     length r = Z.to_nat (SortDataset.length train_dataset) ->
     length (complete r) = Z.to_nat (SortDataset.length train_dataset)) ->
  Forall (Forall (Script.is_example
                    (if String.eqb split "train" then train_dataset else test_dataset)))
    (loader (if String.eqb split "train" then train_dataset else test_dataset)) ->
  let evaluated :=
    concat (match max_batches with
            | Some m =>
                take (Z.to_nat (Z.max 1 m))
                  (loader (if String.eqb split "train" then train_dataset
                           else test_dataset))
            | None =>
                loader (if String.eqb split "train" then train_dataset
                        else test_dataset)
            end) in
  exists st,
    Script.eval_split generate train_dataset test_dataset loader split max_batches
    = inr (Z.of_nat (length (List.filter
                               (Script.sorts complete
                                  (SortDataset.length train_dataset)) evaluated)),
           st) /\
    Script.results st
    = map (fun row =>
             if Script.sorts complete (SortDataset.length train_dataset) row
             then 1 else 0) evaluated.
Proof.
  intros Hsplit Hn Htest Hgenerate Hcomplete Hrows evaluated.
  set (dataset := if String.eqb split "train" then train_dataset else test_dataset)
    in *.
  assert (Hlen : SortDataset.length dataset = SortDataset.length train_dataset)
    by (unfold dataset; destruct (String.eqb split "train"); auto).
  assert (Hchosen : Script.eval_split generate train_dataset test_dataset loader
                      split max_batches
                    = match Script.batches_loop generate
                              (SortDataset.length train_dataset) max_batches 0
                              (loader dataset) Script.progress0 with
                      | inl e => inl e
                      | inr st => inr (foldr Z.add 0 (Script.results st), st)
                      end).
  { unfold Script.eval_split, dataset.
    destruct Hsplit as [-> | ->]; reflexivity. }
  rewrite Hchosen. rewrite <- Hlen in Hn, Hgenerate, Hcomplete |- *.
  destruct (batches_loop_closed generate complete dataset Hn Hgenerate Hcomplete
              max_batches (loader dataset) Hrows 0 Script.progress0)
    as (st & -> & Hres).
  cbn [Script.results Script.progress0 app] in Hres.
  assert (Hsame : concat (match max_batches with
                          | Some m =>
                              take (Z.to_nat (Z.max 1 (m - Z.of_nat 0))) (loader dataset)
                          | None => loader dataset
                          end) = evaluated).
  { unfold evaluated. destruct max_batches; [rewrite Z.sub_0_r |]; reflexivity. }
  rewrite Hsame in Hres. exists st. split; [| exact Hres].
  rewrite Hres, sum_of_marks. reflexivity.
Qed.

Lemma demo_loader_examples (d : SortDataset.t) :
  SortDataset.length d = 6 ->
  Forall (Forall (Script.is_example d)) (Demo.loader d).
Proof.
  intros Hd. unfold Demo.loader.
  repeat (constructor; [repeat (constructor;
            [eexists; split; [| reflexivity]; rewrite Hd; reflexivity |]) |]);
    constructor.
Qed.

Lemma eval_split_counts_sorted_completions_witness :
  exists st,
    Script.eval_split Demo.echo Sample.train_dataset Sample.test_dataset Demo.loader
      "test" None
    = inr (Z.of_nat (length (List.filter (Script.sorts (fun r => r) 6)
                               (concat (Demo.loader Sample.test_dataset)))), st) /\
    Script.results st
    = map (fun row => if Script.sorts (fun r => r) 6 row then 1 else 0)
        (concat (Demo.loader Sample.test_dataset)).
Proof.
  apply (eval_split_counts_sorted_completions Demo.echo (fun r => r)
           Sample.train_dataset Sample.test_dataset Demo.loader "test" None).
  - right. reflexivity.
  - vm_compute. discriminate.
  - reflexivity.
  - intros inp _. reflexivity.
  - intros r Hr. exact Hr.
  - apply demo_loader_examples. reflexivity.
Defined.

(** ** plot_memory_usage *)

Lemma foldl_max_spec (l : list Z) (a : Z) :
  a <= foldl Z.max a l /\
  Forall (fun v => v <= foldl Z.max a l) l /\
  (foldl Z.max a l = a \/ foldl Z.max a l ∈ l).
Proof.
  revert a. induction l as [| v l IH]; intros a; cbn [foldl].
  - split; [lia |]. split; [constructor | left; reflexivity].
  - destruct (IH (Z.max a v)) as (Hge & Hall & Hin).
    split; [lia |]. split.
    + constructor; [lia | exact Hall].
    + destruct Hin as [Heq | Hin]; [| right; right; exact Hin].
      rewrite Heq. destruct (Z.max_spec a v) as [[_ ->] | [_ ->]];
        [right; left | left; reflexivity].
Qed.

(** X9. [plot_memory_usage] fails with ValueError on an empty list of
    samples. On a list that is not empty, the maximum it prints is one
    of the samples and bounds them all, while the value it prints as the
    minimum is the first sample, whatever the later samples are. *)
Theorem plot_memory_usage_prints_maximum_and_first_sample
    (first : Z) (rest : list Z) :
  Script.plot_memory_usage []
  = inl (ValueError "max() arg is an empty sequence") /\
  exists highest,
    Script.plot_memory_usage (first :: rest) = inr (highest, first) /\
    highest ∈ first :: rest /\
    Forall (fun v => v <= highest) (first :: rest).
Proof.
  split; [reflexivity |]. exists (foldl Z.max first rest).
  destruct (foldl_max_spec rest first) as (Hge & Hall & Hin).
  split; [reflexivity |]. split.
  - destruct Hin as [-> | Hin]; [left | right; exact Hin].
  - constructor; assumption.
Qed.

(** The first sample need not be the least one. *)
Example plot_memory_usage_minimum_is_not_least :
  Script.plot_memory_usage [5; 3; 9; 4] = inr (9, 5).
Proof. reflexivity. Qed.

(** ** The callback registry, continued *)

(** X10. [set_callback] binds the event to a new list that holds the
    callback alone: whatever was registered for the event is no longer
    registered, the callbacks added afterwards follow the new one, the
    lists of the other events are as before, and no list object that
    existed is changed. A dispatch right after [set_callback] calls the
    new callback first: what it raises ends the dispatch, and when it
    returns and has left its list as it is, it was the only call. *)
Theorem set_callback_replaces_earlier_callbacks
    (call : Trainer.cbid -> Trainer.t -> exn + Trainer.t)
    (onevent : string) (later : list Trainer.cbid) (c : Trainer.cbid)
    (self : Trainer.t) (fr : Trainer.Frame) (fuel : nat) :
  let add := fun s c' => Trainer.add_callback onevent c' s in
  let replaced := Trainer.set_callback onevent c self in
  Trainer.well_formed self ->
  Trainer.registered onevent (foldl add replaced later) = c :: later /\
  (forall other,
     other <> onevent ->
     Trainer.registered other (foldl add replaced later)
     = Trainer.registered other self) /\
  (forall l,
     (l < length (Trainer.lists self))%nat ->
     Trainer.items l (foldl add replaced later) = Trainer.items l self) /\
  (forall e,
     call c replaced = inl e ->
     Trainer.trigger_callbacks call (S fuel) onevent (replaced, fr) =
       (Raised e,
        (replaced,
         Trainer.append_log [Trainer.ETrigger onevent; Trainer.ECall c] fr))) /\
  (forall s,
     call c replaced = inr s ->
     Trainer.items (length (Trainer.lists self)) s = [c] ->
     Trainer.trigger_callbacks call (S fuel) onevent (replaced, fr) =
       (Done tt,
        (s, Trainer.append_log [Trainer.ETrigger onevent; Trainer.ECall c] fr))).
Proof.
  intros add replaced Hwf.
  destruct (bind_new_list_spec onevent [c] self) as (Hcb & Hlists & Hreg & Hother & Hold).
  fold (Trainer.set_callback onevent c self) in Hcb, Hlists, Hreg, Hother, Hold.
  fold replaced in Hcb, Hlists, Hreg, Hother, Hold.
  assert (Hwf1 : Trainer.well_formed replaced)
    by (apply bind_new_list_well_formed, Hwf).
  destruct (registered_after_adds onevent later replaced Hwf1)
    as (_ & Hreg' & Hother' & _ & Hold' & _).
  fold add in Hreg', Hother', Hold'.
  assert (Hkept : forall l,
            (l < length (Trainer.lists self))%nat ->
            Trainer.items l (foldl add replaced later) = Trainer.items l self).
  { intros l Hl. rewrite Hold'.
    - apply Hold, Hl.
    - rewrite Hlists, length_app. cbn. lia.
    - rewrite Hcb. intros [= <-]. lia. }
  split; [rewrite Hreg', Hreg; reflexivity |].
  split; [| split; [exact Hkept |]].
  - intros other Hne. unfold Trainer.registered.
    rewrite (Hother' other Hne), (Hother other Hne).
    destruct (Trainer.callbacks self !! other) as [l |] eqn:Hl; [| reflexivity].
    apply Hkept. exact (well_formed_lookup other l self Hwf Hl).
  - assert (Hfirst : Trainer.items (length (Trainer.lists self)) replaced !! 0%nat
                     = Some c)
      by (rewrite (items_new (Trainer.lists self) [c] replaced Hlists); reflexivity).
    split.
    + intros e Hcall. rewrite trigger_eq, Hcb, for_each_live_step.
      cbn [fst]. rewrite Hfirst, Hcall, append_log_app. reflexivity.
    + intros s Hcall Hitems. rewrite trigger_eq, Hcb, for_each_live_step.
      cbn [fst]. rewrite Hfirst, Hcall, for_each_live_step, Hitems.
      cbn [lookup list_lookup]. rewrite append_log_app. reflexivity.
Qed.

Lemma set_callback_replaces_earlier_callbacks_witness :
  let self := foldl (fun s c' => Trainer.add_callback "on_batch_end" c' s)
                (Trainer.add_callback "on_batch_start" 6%nat
                   (Sample.ready Sample.two_passes)) [1; 2]%nat in
  let replaced := Trainer.set_callback "on_batch_end" 3%nat self in
  Trainer.registered "on_batch_end" self = [1; 2]%nat /\
  Trainer.registered "on_batch_end"
    (foldl (fun s c' => Trainer.add_callback "on_batch_end" c' s) replaced [4]%nat)
  = [3; 4]%nat /\
  Trainer.registered "on_batch_start"
    (foldl (fun s c' => Trainer.add_callback "on_batch_end" c' s) replaced [4]%nat)
  = [6]%nat /\
  Trainer.trigger_callbacks Sample.quiet 1 "on_batch_end" (replaced, Sample.frame) =
    (Done tt,
     (replaced,
      Trainer.append_log [Trainer.ETrigger "on_batch_end"; Trainer.ECall 3%nat]
        Sample.frame)).
Proof.
  intros self replaced.
  assert (Hwf : Trainer.well_formed self).
  { apply (registered_after_adds "on_batch_end" [1; 2]%nat).
    apply add_callback_spec, sample_trainer_well_formed. }
  destruct (set_callback_replaces_earlier_callbacks Sample.quiet "on_batch_end"
              [4]%nat 3%nat self Sample.frame 0 Hwf)
    as (Hreg & Hother & _ & _ & Hcall).
  split; [reflexivity |]. split; [exact Hreg |].
  split; [unfold replaced; rewrite (Hother "on_batch_start") by discriminate;
          reflexivity |].
  apply Hcall; reflexivity.
Defined.

(** ** The training loop, continued *)

(** X11. [run] starts afresh: with a positive batch size, the iteration
    counter, the time stamp, the optimizer and the loader that an earlier
    [run] (or the caller) left on the trainer have no effect on what
    [run] does or on the trainer it leaves. *)
Theorem run_starts_afresh
    (env : Trainer.Env) (call : Trainer.cbid -> Trainer.t -> exn + Trainer.t)
    (fuel : nat) (self : Trainer.t) (old_iter_num : Z) (old_iter_time : Q)
    (old_optimizer : option Trainer.Optimizer) (old_loader : option N) :
  0 < CfgNode.batch_size (Trainer.config self) ->
  Trainer.run env call fuel
    (Trainer.set_iter_num old_iter_num
       (Trainer.set_iter_time old_iter_time
          (Trainer.set_optimizer old_optimizer
             (Trainer.set_train_loader old_loader self))))
  = Trainer.run env call fuel self.
Proof.
  intros Hbs. unfold Trainer.run.
  assert (Hsetup : Trainer.setup env
                     (Trainer.set_iter_num old_iter_num
                        (Trainer.set_iter_time old_iter_time
                           (Trainer.set_optimizer old_optimizer
                              (Trainer.set_train_loader old_loader self))),
                      Trainer.frame0)
                   = Trainer.setup env (self, Trainer.frame0)).
  { destruct self. unfold Trainer.setup, Trainer.DataLoader, Trainer.sampler_len,
      Eff.bind, Eff.lift, Trainer.self_, Trainer.update, Eff.modify, Trainer.now,
      Eff.ret. cbn in Hbs |- *.
    destruct (Z.leb_spec (CfgNode.batch_size config) 0); [lia | reflexivity]. }
  unfold Eff.bind at 1 3. rewrite Hsetup. reflexivity.
Qed.

Lemma run_starts_afresh_witness :
  Trainer.run Sample.env Sample.quiet 3
    (Trainer.set_iter_num 7
       (Trainer.set_iter_time 5
          (Trainer.set_optimizer None
             (Trainer.set_train_loader (Some 2%N)
                (Sample.trainer Trainer.get_default_config)))))
  = Trainer.run Sample.env Sample.quiet 3 (Sample.trainer Trainer.get_default_config).
Proof.
  apply (run_starts_afresh Sample.env Sample.quiet 3
           (Sample.trainer Trainer.get_default_config) 7 5 None (Some 2%N)).
  reflexivity.
Defined.

(** X12. The test on [max_iters] comes at the end of the loop body, so
    [run] always makes one iteration: with [max_iters] at most 1, zero
    and negative values included, and callbacks that return and leave
    the configuration, the optimizer, the counter and the registered
    callbacks alone, it makes exactly one optimizer step, leaves
    [iter_num] at 1 and returns. *)
Theorem run_makes_one_iteration_when_max_iters_is_at_most_one
    (env : Trainer.Env) (call : Trainer.cbid -> Trainer.t -> exn + Trainer.t)
    (self : Trainer.t) (M : Z) (fuel : nat) :
  Trainer.well_behaved call ->
  CfgNode.max_iters (Trainer.config self) = Some M ->
  M <= 1 ->
  0 < CfgNode.batch_size (Trainer.config self) ->
  (N.of_nat (Py.range_len (CfgNode.cross_batch_num (Trainer.config self)))
   <= Z.to_N (Trainer.cdiv (Trainer.sampler_len env self)
                (CfgNode.batch_size (Trainer.config self))))%N ->
  (1 <= fuel)%nat ->
  (length (Trainer.registered "on_batch_end" self) <= fuel)%nat ->
  exists s',
    Trainer.run env call fuel self = (Done tt, s') /\
    Trainer.iter_num (fst s') = 1 /\
    Trainer.count Trainer.is_step (Trainer.log (snd s')) = 1%nat.
Proof.
  intros Hquiet Hmax HM Hbs Hdata Hfuel Hlen. unfold Trainer.run.
  destruct (setup_ok env self Hbs)
    as (self0 & fr0 & Hsetup & Hcfg & Hopt & Hi & Hd & Hlog & Hcb & Hl & _).
  erewrite bind_ok by exact Hsetup.
  destruct fuel as [| n]; [lia |]. cbn [Eff.while_true].
  destruct (iteration_quiet env call (S n)
              (CfgNode.cross_batch_num (Trainer.config self)) self0 fr0 Hquiet
              ltac:(rewrite (registered_eq _ _ _ Hcb Hl); exact Hlen)
              ltac:(rewrite Hd; exact Hdata) Hopt)
    as (self' & fr' & Hit & _ & _ & _ & Hi' & _ & consumed & Hlog').
  rewrite Hcfg, Hmax, Hi in Hit.
  destruct (Z.geb_spec (0 + 1) M); [| lia].
  unfold Eff.bind at 1. erewrite bind_ok by exact Hit. cbn [Eff.ret].
  destruct (teardown_ok Trainer.is_step eq_refl self' fr') as (fr'' & -> & _ & Hcount).
  eexists. split; [reflexivity |]. cbn [fst snd]. split; [lia |].
  rewrite Hcount, Hlog', Hlog, app_nil_l.
  rewrite (count_cycle Trainer.is_step _ _ consumed _ 0 1);
    [lia | reflexivity | reflexivity | reflexivity].
Qed.

Lemma run_makes_one_iteration_when_max_iters_is_at_most_one_witness :
  exists s',
    Trainer.run Sample.env Sample.quiet 4
      (Trainer.with_max_iters (Some (-2)) (Sample.trainer Trainer.get_default_config))
    = (Done tt, s') /\
    Trainer.iter_num (fst s') = 1 /\
    Trainer.count Trainer.is_step (Trainer.log (snd s')) = 1%nat.
Proof.
  apply (run_makes_one_iteration_when_max_iters_is_at_most_one Sample.env Sample.quiet
           (Trainer.with_max_iters (Some (-2))
              (Sample.trainer Trainer.get_default_config)) (-2) 4).
  - exact quiet_is_well_behaved.
  - reflexivity.
  - lia.
  - reflexivity.
  - vm_compute. discriminate.
  - lia.
  - vm_compute. lia.
Defined.

(** X13. With [cross_batch_num] zero or negative the inner loop is
    empty: an iteration fetches no batch and makes no forward or backward
    pass, yet it still steps the optimizer, on whatever the gradient
    buffers held before, and dispatches "on_batch_end"; besides that
    step and the dispatch, the record holds only the calls of
    callbacks. *)
Theorem iteration_without_passes_still_steps
    (env : Trainer.Env) (call : Trainer.cbid -> Trainer.t -> exn + Trainer.t)
    (fuel : nat) (steps : Z) (self : Trainer.t) (fr : Trainer.Frame) :
  steps <= 0 ->
  Trainer.optimizer self <> None ->
  exists called,
    Trainer.log (snd (snd (Trainer.iteration env call fuel steps (self, fr)))) =
      Trainer.log fr ++
      Trainer.EStep (Trainer.grad (Trainer.model self)) ::
      Trainer.ETrigger "on_batch_end" :: map Trainer.ECall called /\
    Trainer.data_iter (snd (snd (Trainer.iteration env call fuel steps (self, fr))))
    = Trainer.data_iter fr /\
    Trainer.served (snd (snd (Trainer.iteration env call fuel steps (self, fr))))
    = Trainer.served fr.
Proof.
  intros Hsteps Hopt.
  assert (Hk : Py.range_len steps = 0%nat) by (unfold Py.range_len; lia).
  rewrite iteration_eq by (rewrite ?Hk; (lia || assumption)).
  rewrite Hk. cbn [Trainer.after_micros].
  set (fr1 := Trainer.append_log _ (Trainer.frame_after _ 0 fr)).
  destruct (trigger_log call fuel "on_batch_end" self fr1)
    as (called & self2 & r & Htr).
  exists called. unfold Eff.bind at 1 3 5. rewrite Htr.
  assert (Hfr : Trainer.log
                  (Trainer.append_log
                     (Trainer.ETrigger "on_batch_end" :: map Trainer.ECall called) fr1)
                = Trainer.log fr ++
                  Trainer.EStep (Trainer.grad (Trainer.model self)) ::
                  Trainer.ETrigger "on_batch_end" :: map Trainer.ECall called /\
                Trainer.data_iter
                  (Trainer.append_log
                     (Trainer.ETrigger "on_batch_end" :: map Trainer.ECall called) fr1)
                = Trainer.data_iter fr /\
                Trainer.served
                  (Trainer.append_log
                     (Trainer.ETrigger "on_batch_end" :: map Trainer.ECall called) fr1)
                = Trainer.served fr).
  { unfold fr1, Trainer.append_log, Trainer.frame_after. cbn.
    rewrite app_nil_r, <- app_assoc. split; [reflexivity |]. split; lia. }
  destruct r as [[] | e |]; [| exact Hfr | exact Hfr].
  match goal with
  | |- context [Eff.bind (Trainer.bookkeeping env) _ (self2, ?f)] =>
      destruct (bookkeeping_eq env self2 f) as (self3 & Hbk & _)
  end.
  unfold Eff.bind at 1 2 3. rewrite Hbk, finished_eq. exact Hfr.
Qed.

Lemma iteration_without_passes_still_steps_witness :
  exists called,
    Trainer.log (snd (snd (Trainer.iteration Sample.env Sample.quiet 3 0
                             (Sample.ready Sample.two_passes, Sample.frame)))) =
      [] ++
      Trainer.EStep (Trainer.grad (Trainer.model (Sample.ready Sample.two_passes))) ::
      Trainer.ETrigger "on_batch_end" :: map Trainer.ECall called /\
    Trainer.data_iter (snd (snd (Trainer.iteration Sample.env Sample.quiet 3 0
                                   (Sample.ready Sample.two_passes, Sample.frame))))
    = 10%N /\
    Trainer.served (snd (snd (Trainer.iteration Sample.env Sample.quiet 3 0
                                (Sample.ready Sample.two_passes, Sample.frame))))
    = 0%N.
Proof.
  apply (iteration_without_passes_still_steps Sample.env Sample.quiet 3 0
           (Sample.ready Sample.two_passes) Sample.frame).
  - lia.
  - discriminate.
Defined.

(** X14. A whole [run] with [max_iters = M >= 1], callbacks that return
    and leave the configuration, the optimizer, the counter and the
    registered callbacks alone, and enough batches in the loader returns
    after [M] iterations of [k = range(cross_batch_num)] passes each: its
    record holds [M * k] forward passes, backward passes, calls to
    [zero_grad] and clippings, and [M] optimizer steps and dispatches of
    "on_batch_end". *)
Theorem run_makes_max_iters_cycles
    (env : Trainer.Env) (call : Trainer.cbid -> Trainer.t -> exn + Trainer.t)
    (self : Trainer.t) (M : Z) (fuel : nat) :
  Trainer.well_behaved call ->
  CfgNode.max_iters (Trainer.config self) = Some M ->
  1 <= M ->
  0 < CfgNode.batch_size (Trainer.config self) ->
  (N.of_nat (Z.to_nat M *
             Py.range_len (CfgNode.cross_batch_num (Trainer.config self)))
   <= Z.to_N (Trainer.cdiv (Trainer.sampler_len env self)
                (CfgNode.batch_size (Trainer.config self))))%N ->
  (Z.to_nat M <= fuel)%nat ->
  (length (Trainer.registered "on_batch_end" self) <= fuel)%nat ->
  let k := Py.range_len (CfgNode.cross_batch_num (Trainer.config self)) in
  exists s',
    Trainer.run env call fuel self = (Done tt, s') /\
    Trainer.iter_num (fst s') = M /\
    Trainer.count Trainer.is_forward (Trainer.log (snd s')) = (Z.to_nat M * k)%nat /\
    Trainer.count Trainer.is_backward (Trainer.log (snd s')) = (Z.to_nat M * k)%nat /\
    Trainer.count Trainer.is_zero_grad (Trainer.log (snd s')) = (Z.to_nat M * k)%nat /\
    Trainer.count Trainer.is_clip (Trainer.log (snd s')) = (Z.to_nat M * k)%nat /\
    Trainer.count Trainer.is_step (Trainer.log (snd s')) = Z.to_nat M /\
    Trainer.count (Trainer.is_trigger "on_batch_end") (Trainer.log (snd s'))
    = Z.to_nat M.
Proof. exact (run_call_counts env call self M fuel). Qed.

Lemma run_makes_max_iters_cycles_witness :
  let self := Sample.trainer
                (CfgNode.set_max_iters (Some 3)
                   (CfgNode.set_cross_batch_num 2 Trainer.get_default_config)) in
  exists s',
    Trainer.run Sample.env Sample.quiet 3 self = (Done tt, s') /\
    Trainer.iter_num (fst s') = 3 /\
    Trainer.count Trainer.is_forward (Trainer.log (snd s')) = (Z.to_nat 3 * 2)%nat /\
    Trainer.count Trainer.is_backward (Trainer.log (snd s')) = (Z.to_nat 3 * 2)%nat /\
    Trainer.count Trainer.is_zero_grad (Trainer.log (snd s')) = (Z.to_nat 3 * 2)%nat /\
    Trainer.count Trainer.is_clip (Trainer.log (snd s')) = (Z.to_nat 3 * 2)%nat /\
    Trainer.count Trainer.is_step (Trainer.log (snd s')) = Z.to_nat 3 /\
    Trainer.count (Trainer.is_trigger "on_batch_end") (Trainer.log (snd s'))
    = Z.to_nat 3.
Proof.
  intros self.
  apply (run_makes_max_iters_cycles Sample.env Sample.quiet self 3 3).
  - exact quiet_is_well_behaved.
  - reflexivity.
  - lia.
  - reflexivity.
  - vm_compute. discriminate.
  - lia.
  - vm_compute. lia.
Defined.

(** ** A callback that raises in the middle of a run *)

Lemma count_map_calls (p : Trainer.event -> bool) (c3 : nat) (cs : list Trainer.cbid) :
  (forall c, Trainer.count p [Trainer.ECall c] = c3) ->
  Trainer.count p (map Trainer.ECall cs) = (length cs * c3)%nat.
Proof.
  intros Hp. induction cs as [| c cs IH]; [reflexivity |].
  change (map Trainer.ECall (c :: cs))
    with ([Trainer.ECall c] ++ map Trainer.ECall cs).
  rewrite count_app, Hp, IH. cbn [length]. lia.
Qed.

Section EarlyStop.

Variable env : Trainer.Env.
Variable call : Trainer.cbid -> Trainer.t -> exn + Trainer.t.
Variable v : Z.
Variable e : exn.
Variable c0 : Trainer.cbid.
Variable rest : list Trainer.cbid.

Hypothesis Hbelow :
  forall c s,
    Trainer.iter_num s < v ->
    exists s',
      call c s = inr s' /\ Trainer.config s' = Trainer.config s /\
      Trainer.optimizer s' = Trainer.optimizer s /\
      Trainer.iter_num s' = Trainer.iter_num s /\
      Trainer.callbacks s' = Trainer.callbacks s /\
      Trainer.lists s' = Trainer.lists s.
Hypothesis Hat : forall s, Trainer.iter_num s = v -> call c0 s = inl e.

Variable p : Trainer.event -> bool.
Variables c1 c2 c3 : nat.
Hypothesis Hmicro : forall clip b, Trainer.count p (Trainer.micro_events clip b) = c1.
Hypothesis Htail :
  forall consumed,
    Trainer.count p [Trainer.EStep consumed; Trainer.ETrigger "on_batch_end"] = c2.
Hypothesis Hcall : forall c, Trainer.count p [Trainer.ECall c] = c3.

Lemma in_order_below (cs : list Trainer.cbid) (self : Trainer.t) :
  Trainer.iter_num self < v ->
  exists self',
    Trainer.in_order call cs self = (cs, Done tt, self') /\
    Trainer.config self' = Trainer.config self /\
    Trainer.optimizer self' = Trainer.optimizer self /\
    Trainer.iter_num self' = Trainer.iter_num self /\
    Trainer.callbacks self' = Trainer.callbacks self /\
    Trainer.lists self' = Trainer.lists self.
Proof.
  revert self. induction cs as [| c cs IH]; intros self Hlt.
  - exists self. cbn. auto 10.
  - cbn [Trainer.in_order].
    destruct (Hbelow c self Hlt) as (self1 & -> & Hc & Ho & Hi & Hcb & Hl).
    destruct (IH self1 ltac:(lia)) as (self' & -> & Hc' & Ho' & Hi' & Hcb' & Hl').
    exists self'. repeat split; congruence.
Qed.

Lemma trigger_below (fuel : nat) (self : Trainer.t) (fr : Trainer.Frame) :
  Trainer.iter_num self < v ->
  (length (Trainer.registered "on_batch_end" self) <= fuel)%nat ->
  exists self',
    Trainer.trigger_callbacks call fuel "on_batch_end" (self, fr)
    = (Done tt,
       (self', Trainer.append_log
                 (Trainer.ETrigger "on_batch_end" ::
                  map Trainer.ECall (Trainer.registered "on_batch_end" self)) fr)) /\
    Trainer.config self' = Trainer.config self /\
    Trainer.optimizer self' = Trainer.optimizer self /\
    Trainer.iter_num self' = Trainer.iter_num self /\
    Trainer.callbacks self' = Trainer.callbacks self /\
    Trainer.lists self' = Trainer.lists self.
Proof.
  intros Hlt Hlen.
  rewrite (trigger_in_order call (fun s => Trainer.iter_num s < v));
    [| | exact Hlt | exact Hlen].
  - destruct (in_order_below (Trainer.registered "on_batch_end" self) self Hlt)
      as (self' & -> & Hrest).
    exists self'. split; [reflexivity | exact Hrest].
  - intros l c s s' _ Hs Hcs.
    destruct (Hbelow c s Hs) as (s1 & Hs1 & _ & _ & Hi & _ & Hl).
    assert (s1 = s') by congruence. subst s1.
    split; [lia |]. unfold Trainer.items. rewrite Hl. reflexivity.
Qed.

Lemma count_full_cycle (clip : Q) (bs : list Trainer.batch)
    (consumed : option (list Trainer.batch)) (called : list Trainer.cbid) :
  Trainer.count p
    (concat (map (Trainer.micro_events clip) bs) ++
     Trainer.EStep consumed :: Trainer.ETrigger "on_batch_end" ::
     map Trainer.ECall called)
  = (length bs * c1 + c2 + length called * c3)%nat.
Proof.
  change (Trainer.EStep consumed :: Trainer.ETrigger "on_batch_end" ::
          map Trainer.ECall called)
    with ([Trainer.EStep consumed; Trainer.ETrigger "on_batch_end"] ++
          map Trainer.ECall called).
  rewrite !count_app, (count_concat_micro p clip bs c1 (Hmicro clip)), Htail.
  rewrite (count_map_calls p c3 called Hcall). lia.
Qed.

(** An iteration entered with [iter_num] below [v]: every registered
    callback is called, and the loop goes on. *)
Lemma iteration_below (fuel : nat) (steps : Z) (self : Trainer.t)
    (fr : Trainer.Frame) :
  Trainer.iter_num self < v ->
  (N.of_nat (Py.range_len steps) <= Trainer.data_iter fr)%N ->
  Trainer.optimizer self <> None ->
  Trainer.registered "on_batch_end" self = c0 :: rest ->
  (forall m, CfgNode.max_iters (Trainer.config self) = Some m -> v < m) ->
  (S (length rest) <= fuel)%nat ->
  exists self' fr',
    Trainer.iteration env call fuel steps (self, fr) = (Done false, (self', fr')) /\
    Trainer.data_iter fr' = (Trainer.data_iter fr - N.of_nat (Py.range_len steps))%N /\
    Trainer.config self' = Trainer.config self /\
    Trainer.optimizer self' = Trainer.optimizer self /\
    Trainer.registered "on_batch_end" self' = c0 :: rest /\
    Trainer.iter_num self' = Trainer.iter_num self + 1 /\
    Trainer.count p (Trainer.log fr')
    = (Trainer.count p (Trainer.log fr)
       + (Py.range_len steps * c1 + c2 + S (length rest) * c3))%nat.
Proof.
  intros Hlt Hdata Hopt Hreg Hmax Hfuel. rewrite iteration_eq by assumption.
  set (self1 := Trainer.after_micros _ _ self).
  set (fr1 := Trainer.frame_after _ _ fr).
  destruct (after_micros_config (Trainer.served fr) (Py.range_len steps) self)
    as (Hc & Ho & Hcb & Hi). fold self1 in Hc, Ho, Hcb, Hi.
  destruct (after_micros_lists (Trainer.served fr) (Py.range_len steps) self)
    as (Hl & _). fold self1 in Hl.
  assert (Hreg1 : Trainer.registered "on_batch_end" self1 = c0 :: rest)
    by (rewrite (registered_eq _ _ _ Hcb Hl); exact Hreg).
  destruct (trigger_below fuel self1
              (Trainer.append_log
                 [Trainer.EStep (Trainer.grad (Trainer.model self1))] fr1)
              ltac:(lia) ltac:(rewrite Hreg1; exact Hfuel))
    as (self2 & Htr & Hc2 & Ho2 & Hi2 & Hcb2 & Hl2).
  erewrite bind_ok by exact Htr. rewrite append_log_app, Hreg1.
  match goal with
  | |- context [Eff.bind (Trainer.bookkeeping env) _ (self2, ?f)] =>
      destruct (bookkeeping_eq env self2 f)
        as (self3 & Hbk & Hc3 & Ho3 & Hcb3 & Hl3 & Hi3);
      set (fr2 := f) in *
  end.
  erewrite bind_ok by exact Hbk. rewrite finished_eq.
  exists self3, (Trainer.tick fr2).
  assert (Hgo : match CfgNode.max_iters (Trainer.config self3) with
                | Some m => Trainer.iter_num self3 >=? m
                | None => false
                end = false).
  { rewrite Hc3, Hc2, Hc.
    destruct (CfgNode.max_iters (Trainer.config self)) as [m |] eqn:Hm; [| reflexivity].
    specialize (Hmax m eq_refl). destruct (Z.geb_spec (Trainer.iter_num self3) m); lia. }
  rewrite Hgo. split; [reflexivity |]. split; [reflexivity |].
  split; [congruence |]. split; [congruence |].
  split.
  { rewrite <- Hreg1. apply registered_eq; congruence. }
  split; [lia |].
  unfold fr2, fr1, Trainer.tick, Trainer.append_log, Trainer.frame_after.
  cbn [Trainer.log]. rewrite <- !app_assoc, count_app.
  change ([Trainer.EStep (Trainer.grad (Trainer.model self1))] ++
          Trainer.ETrigger "on_batch_end" :: map Trainer.ECall (c0 :: rest))
    with (Trainer.EStep (Trainer.grad (Trainer.model self1)) ::
          Trainer.ETrigger "on_batch_end" :: map Trainer.ECall (c0 :: rest)).
  rewrite count_full_cycle, length_batches. reflexivity.
Qed.

(** The iteration entered with [iter_num = v]: the passes and the
    optimizer step are made, the first callback raises, and nothing
    after it in the body is executed. *)
Lemma iteration_at (fuel : nat) (steps : Z) (self : Trainer.t) (fr : Trainer.Frame) :
  Trainer.iter_num self = v ->
  (N.of_nat (Py.range_len steps) <= Trainer.data_iter fr)%N ->
  Trainer.optimizer self <> None ->
  Trainer.registered "on_batch_end" self = c0 :: rest ->
  (1 <= fuel)%nat ->
  exists self' fr',
    Trainer.iteration env call fuel steps (self, fr) = (Raised e, (self', fr')) /\
    Trainer.iter_num self' = v /\
    Trainer.count p (Trainer.log fr')
    = (Trainer.count p (Trainer.log fr) + (Py.range_len steps * c1 + c2 + c3))%nat.
Proof.
  intros Hv Hdata Hopt Hreg Hfuel. rewrite iteration_eq by assumption.
  set (self1 := Trainer.after_micros _ _ self).
  set (fr1 := Trainer.frame_after _ _ fr).
  destruct (after_micros_config (Trainer.served fr) (Py.range_len steps) self)
    as (Hc & Ho & Hcb & Hi). fold self1 in Hc, Ho, Hcb, Hi.
  destruct (after_micros_lists (Trainer.served fr) (Py.range_len steps) self)
    as (Hl & _). fold self1 in Hl.
  assert (Hreg1 : Trainer.registered "on_batch_end" self1 = c0 :: rest)
    by (rewrite (registered_eq _ _ _ Hcb Hl); exact Hreg).
  unfold Eff.bind at 1. rewrite trigger_eq, append_log_app.
  unfold Trainer.registered in Hreg1.
  destruct (Trainer.callbacks self1 !! "on_batch_end") as [l |]; [| discriminate].
  rewrite for_each_live_step. cbn [fst]. rewrite Hreg1. cbn [lookup list_lookup].
  destruct fuel as [| fuel']; [lia |].
  rewrite (Hat self1) by congruence. rewrite append_log_app.
  eexists _, _. split; [reflexivity |]. split; [congruence |].
  unfold fr1, Trainer.append_log, Trainer.frame_after.
  cbn [Trainer.log]. rewrite <- !app_assoc, count_app.
  change ([Trainer.EStep (Trainer.grad (Trainer.model self1))] ++
          [Trainer.ETrigger "on_batch_end"] ++ [Trainer.ECall c0])
    with (Trainer.EStep (Trainer.grad (Trainer.model self1)) ::
          Trainer.ETrigger "on_batch_end" :: map Trainer.ECall [c0]).
  rewrite count_full_cycle, length_batches. cbn [length]. lia.
Qed.

Lemma while_raises_at (fuel : nat) (steps : Z) (j : nat) :
  forall self fr n,
    v = Trainer.iter_num self + Z.of_nat j ->
    (N.of_nat (S j * Py.range_len steps) <= Trainer.data_iter fr)%N ->
    Trainer.optimizer self <> None ->
    Trainer.registered "on_batch_end" self = c0 :: rest ->
    (forall m, CfgNode.max_iters (Trainer.config self) = Some m -> v < m) ->
    (S (length rest) <= fuel)%nat ->
    (S j <= n)%nat ->
    exists self' fr',
      Eff.while_true n (Trainer.iteration env call fuel steps) (self, fr)
      = (Raised e, (self', fr')) /\
      Trainer.iter_num self' = v /\
      Trainer.count p (Trainer.log fr')
      = (Trainer.count p (Trainer.log fr)
         + S j * (Py.range_len steps * c1 + c2)
         + (j * S (length rest) + 1) * c3)%nat.
Proof.
  induction j as [| j IH]; intros self fr n Hv Hdata Hopt Hreg Hmax Hfuel Hn;
    (destruct n as [| n]; [lia |]); cbn [Eff.while_true].
  - destruct (iteration_at fuel steps self fr ltac:(lia) ltac:(lia) Hopt Hreg
                ltac:(lia))
      as (self' & fr' & Hit & Hi & Hcount).
    erewrite bind_raise by exact Hit.
    exists self', fr'. split; [reflexivity |]. split; [assumption | lia].
  - destruct (iteration_below fuel steps self fr ltac:(lia) ltac:(lia) Hopt Hreg
                Hmax Hfuel)
      as (self' & fr' & Hit & Hdata' & Hcfg & Ho & Hreg' & Hi & Hcount).
    erewrite bind_ok by exact Hit.
    destruct (IH self' fr' n) as (self'' & fr'' & Hloop & Hi' & Hcount');
      [lia | lia | congruence | assumption | | assumption | lia |].
    { intros m Hm. apply Hmax. congruence. }
    exists self'', fr''. split; [assumption |]. split; [assumption | nia].
Qed.

Lemma run_raises_at (self : Trainer.t) (fuel : nat) :
  0 <= v ->
  Trainer.registered "on_batch_end" self = c0 :: rest ->
  (forall m, CfgNode.max_iters (Trainer.config self) = Some m -> v < m) ->
  0 < CfgNode.batch_size (Trainer.config self) ->
  (N.of_nat (S (Z.to_nat v) *
             Py.range_len (CfgNode.cross_batch_num (Trainer.config self)))
   <= Z.to_N (Trainer.cdiv (Trainer.sampler_len env self)
                (CfgNode.batch_size (Trainer.config self))))%N ->
  (S (Z.to_nat v) <= fuel)%nat ->
  (S (length rest) <= fuel)%nat ->
  exists s',
    Trainer.run env call fuel self = (Raised e, s') /\
    Trainer.iter_num (fst s') = v /\
    Trainer.count p (Trainer.log (snd s'))
    = (S (Z.to_nat v) *
       (Py.range_len (CfgNode.cross_batch_num (Trainer.config self)) * c1 + c2)
       + (Z.to_nat v * S (length rest) + 1) * c3)%nat.
Proof.
  intros Hv Hreg Hmax Hbs Hdata Hfuel Hlen. unfold Trainer.run.
  destruct (setup_ok env self Hbs)
    as (self0 & fr0 & Hsetup & Hcfg & Hopt & Hi & Hd & Hlog & Hcb & Hl & _).
  erewrite bind_ok by exact Hsetup.
  destruct (while_raises_at fuel (CfgNode.cross_batch_num (Trainer.config self))
              (Z.to_nat v) self0 fr0 fuel)
    as (self' & fr' & Hloop & Hi' & Hcount);
    [lia | rewrite Hd; exact Hdata | assumption | | | assumption | assumption |].
  { rewrite (registered_eq _ _ _ Hcb Hl). exact Hreg. }
  { intros m Hm. apply Hmax. congruence. }
  erewrite bind_raise by exact Hloop.
  eexists. split; [reflexivity |]. cbn [fst snd]. split; [assumption |].
  rewrite Hcount, Hlog. reflexivity.
Qed.

End EarlyStop.

(** X15. "on_batch_end" is dispatched before [iter_num] is increased
    and nothing in [run] catches what a callback raises: when the first
    callback registered for the event raises once it sees [iter_num = v],
    and the callbacks only look before that (they return and leave the
    configuration, the optimizer, the counter and the registered
    callbacks alone), [run] ends with that exception during iteration
    [v + 1], after [v + 1] optimizer steps and [v * n + 1] calls of
    callbacks ([n] callbacks registered), with [iter_num] still [v] and
    without reaching [destroy_process_group]. *)
Theorem run_ends_when_a_callback_raises
    (env : Trainer.Env) (call : Trainer.cbid -> Trainer.t -> exn + Trainer.t)
    (v : Z) (e : exn) (c0 : Trainer.cbid) (rest : list Trainer.cbid)
    (self : Trainer.t) (fuel : nat) :
  (forall c s,
     Trainer.iter_num s < v ->
     exists s',
       call c s = inr s' /\ Trainer.config s' = Trainer.config s /\
       Trainer.optimizer s' = Trainer.optimizer s /\
       Trainer.iter_num s' = Trainer.iter_num s /\
       Trainer.callbacks s' = Trainer.callbacks s /\
       Trainer.lists s' = Trainer.lists s) ->
  (forall s, Trainer.iter_num s = v -> call c0 s = inl e) ->
  0 <= v ->
  Trainer.registered "on_batch_end" self = c0 :: rest ->
  (forall m, CfgNode.max_iters (Trainer.config self) = Some m -> v < m) ->
  0 < CfgNode.batch_size (Trainer.config self) ->
  (N.of_nat (S (Z.to_nat v) *
             Py.range_len (CfgNode.cross_batch_num (Trainer.config self)))
   <= Z.to_N (Trainer.cdiv (Trainer.sampler_len env self)
                (CfgNode.batch_size (Trainer.config self))))%N ->
  (S (Z.to_nat v) <= fuel)%nat ->
  (S (length rest) <= fuel)%nat ->
  exists s',
    Trainer.run env call fuel self = (Raised e, s') /\
    Trainer.iter_num (fst s') = v /\
    Trainer.count Trainer.is_step (Trainer.log (snd s')) = S (Z.to_nat v) /\
    Trainer.count Trainer.is_call (Trainer.log (snd s'))
    = (Z.to_nat v * S (length rest) + 1)%nat /\
    Trainer.count is_destroy (Trainer.log (snd s')) = 0%nat.
Proof.
  intros Hbelow Hat Hv Hreg Hmax Hbs Hdata Hfuel Hlen.
  destruct (run_raises_at env call v e c0 rest Hbelow Hat Trainer.is_step 0 1 0
              ltac:(reflexivity) ltac:(reflexivity) ltac:(reflexivity)
              self fuel Hv Hreg Hmax Hbs Hdata Hfuel Hlen)
    as (s1 & Hrun1 & Hi1 & Hsteps).
  destruct (run_raises_at env call v e c0 rest Hbelow Hat Trainer.is_call 0 0 1
              ltac:(reflexivity) ltac:(reflexivity) ltac:(reflexivity)
              self fuel Hv Hreg Hmax Hbs Hdata Hfuel Hlen)
    as (s2 & Hrun2 & _ & Hcalls).
  destruct (run_raises_at env call v e c0 rest Hbelow Hat is_destroy 0 0 0
              ltac:(reflexivity) ltac:(reflexivity) ltac:(reflexivity)
              self fuel Hv Hreg Hmax Hbs Hdata Hfuel Hlen)
    as (s3 & Hrun3 & _ & Hdestroy).
  assert (s2 = s1) by congruence. assert (s3 = s1) by congruence. subst s2 s3.
  exists s1. split; [assumption |]. split; [assumption |].
  split; [rewrite Hsteps; lia |]. split; [rewrite Hcalls; lia | rewrite Hdestroy; lia].
Qed.

Lemma run_ends_when_a_callback_raises_witness :
  let self := Trainer.add_callback "on_batch_end" 2%nat
                (Trainer.add_callback "on_batch_end" 1%nat
                   (Sample.trainer Trainer.get_default_config)) in
  exists s',
    Trainer.run Sample.env Demo.stop_at_three 4 self = (Raised (CallbackError 3), s') /\
    Trainer.iter_num (fst s') = 3 /\
    Trainer.count Trainer.is_step (Trainer.log (snd s')) = S (Z.to_nat 3) /\
    Trainer.count Trainer.is_call (Trainer.log (snd s'))
    = (Z.to_nat 3 * S (length [2%nat]) + 1)%nat /\
    Trainer.count is_destroy (Trainer.log (snd s')) = 0%nat.
Proof.
  intros self.
  apply (run_ends_when_a_callback_raises Sample.env Demo.stop_at_three 3
           (CallbackError 3) 1%nat [2%nat] self 4).
  - intros c s Hlt. exists s. unfold Demo.stop_at_three.
    destruct (Z.eqb_spec (Trainer.iter_num s) 3); [lia | auto 10].
  - intros s Hs. unfold Demo.stop_at_three. rewrite Hs. reflexivity.
  - lia.
  - reflexivity.
  - intros m Hm. discriminate Hm.
  - reflexivity.
  - vm_compute. discriminate.
  - lia.
  - cbn. lia.
Defined.

(** ** The time stamps of a run *)

Section Timing.

Variable env : Trainer.Env.
Variable call : Trainer.cbid -> Trainer.t -> exn + Trainer.t.

Hypothesis Hobserve :
  forall c s, exists s',
    call c s = inr s' /\ Trainer.config s' = Trainer.config s /\
    Trainer.optimizer s' = Trainer.optimizer s /\
    Trainer.iter_num s' = Trainer.iter_num s /\
    Trainer.iter_time s' = Trainer.iter_time s /\
    Trainer.callbacks s' = Trainer.callbacks s /\
    Trainer.lists s' = Trainer.lists s.

Lemma in_order_time (cs : list Trainer.cbid) (self : Trainer.t) :
  exists self',
    Trainer.in_order call cs self = (cs, Done tt, self') /\
    Trainer.config self' = Trainer.config self /\
    Trainer.optimizer self' = Trainer.optimizer self /\
    Trainer.iter_num self' = Trainer.iter_num self /\
    Trainer.iter_time self' = Trainer.iter_time self /\
    Trainer.callbacks self' = Trainer.callbacks self /\
    Trainer.lists self' = Trainer.lists self.
Proof.
  revert self. induction cs as [| c cs IH]; intros self.
  - exists self. cbn. auto 10.
  - cbn [Trainer.in_order].
    destruct (Hobserve c self) as (self1 & -> & Hc & Ho & Hi & Ht & Hcb & Hl).
    destruct (IH self1) as (self' & -> & Hc' & Ho' & Hi' & Ht' & Hcb' & Hl').
    exists self'. repeat split; congruence.
Qed.

(** One pass through the body of the outer loop reads the clock once,
    after the callbacks have run. *)
Lemma iteration_time (fuel : nat) (steps : Z) (self : Trainer.t)
    (fr : Trainer.Frame) :
  (N.of_nat (Py.range_len steps) <= Trainer.data_iter fr)%N ->
  Trainer.optimizer self <> None ->
  (length (Trainer.registered "on_batch_end" self) <= fuel)%nat ->
  exists self' fr',
    Trainer.iteration env call fuel steps (self, fr) =
      (Done (match CfgNode.max_iters (Trainer.config self) with
             | Some m => Trainer.iter_num self + 1 >=? m
             | None => false
             end), (self', fr')) /\
    Trainer.data_iter fr' = (Trainer.data_iter fr - N.of_nat (Py.range_len steps))%N /\
    Trainer.clock fr' = S (Trainer.clock fr) /\
    Trainer.config self' = Trainer.config self /\
    Trainer.optimizer self' = Trainer.optimizer self /\
    Trainer.iter_num self' = Trainer.iter_num self + 1 /\
    Trainer.registered "on_batch_end" self' = Trainer.registered "on_batch_end" self /\
    Trainer.iter_time self' = Trainer.time_time env (Trainer.clock fr) /\
    Trainer.iter_dt self'
    = (Trainer.time_time env (Trainer.clock fr) - Trainer.iter_time self)%Q.
Proof.
  intros Hdata Hopt Hlen. rewrite iteration_eq by assumption.
  set (self1 := Trainer.after_micros _ _ self).
  set (fr1 := Trainer.frame_after _ _ fr).
  destruct (after_micros_config (Trainer.served fr) (Py.range_len steps) self)
    as (Hc & Ho & Hcb & Hi). fold self1 in Hc, Ho, Hcb, Hi.
  destruct (after_micros_lists (Trainer.served fr) (Py.range_len steps) self)
    as (Hl & Ht). fold self1 in Hl, Ht.
  pose proof (registered_eq "on_batch_end" _ _ Hcb Hl) as Hreg1.
  unfold Eff.bind at 1.
  rewrite (trigger_in_order call (fun _ => True));
    [| | exact I | rewrite Hreg1; exact Hlen].
  2:{ intros l c s s' _ _ Hcs. split; [exact I |].
      destruct (Hobserve c s) as (s1 & Hs1 & _ & _ & _ & _ & _ & Hl1).
      unfold Trainer.items. congruence. }
  destruct (in_order_time (Trainer.registered "on_batch_end" self1) self1)
    as (self2 & -> & Hc2 & Ho2 & Hi2 & Ht2 & Hcb2 & Hl2).
  unfold Trainer.bookkeeping, Trainer.finished, Eff.bind, Trainer.update, Eff.modify,
    Trainer.now, Trainer.self_, Eff.ret. cbn.
  rewrite Hc2, Hc, Hi2, Hi, Ht2, Ht.
  eexists _, _. split; [reflexivity |]. cbn.
  split; [reflexivity |]. split; [reflexivity |]. split; [congruence |].
  split; [congruence |]. split; [reflexivity |].
  split; [| split; reflexivity].
  rewrite <- Hreg1. unfold Trainer.registered, Trainer.items. cbn.
  rewrite Hcb2, Hl2. reflexivity.
Qed.

Lemma while_time (fuel : nat) (steps M : Z) (j : nat) :
  forall self fr n,
    CfgNode.max_iters (Trainer.config self) = Some M ->
    M = Trainer.iter_num self + Z.of_nat (S j) ->
    (N.of_nat (S j * Py.range_len steps) <= Trainer.data_iter fr)%N ->
    Trainer.optimizer self <> None ->
    (length (Trainer.registered "on_batch_end" self) <= fuel)%nat ->
    (1 <= Trainer.clock fr)%nat ->
    Trainer.iter_time self = Trainer.time_time env (Trainer.clock fr - 1) ->
    (S j <= n)%nat ->
    exists self' fr',
      Eff.while_true n (Trainer.iteration env call fuel steps) (self, fr)
      = (Done tt, (self', fr')) /\
      Trainer.clock fr' = (Trainer.clock fr + S j)%nat /\
      Trainer.iter_time self' = Trainer.time_time env (Trainer.clock fr + j) /\
      Trainer.iter_dt self'
      = (Trainer.time_time env (Trainer.clock fr + j)
         - Trainer.time_time env (Trainer.clock fr + j - 1))%Q.
Proof.
  induction j as [| j IH];
    intros self fr n Hmax HM Hdata Hopt Hlen Hclock Htime Hn;
    (destruct n as [| n]; [lia |]);
    destruct (iteration_time fuel steps self fr ltac:(lia) Hopt Hlen)
      as (self' & fr' & Hit & Hdata' & Hk & Hcfg & Ho & Hi & Hreg & Ht & Hdt);
    rewrite Hmax in Hit; cbn [Eff.while_true]; erewrite bind_ok by exact Hit.
  - destruct (Z.geb_spec (Trainer.iter_num self + 1) M); [| lia].
    exists self', fr'. rewrite Nat.add_0_r. split; [reflexivity |].
    split; [lia |]. split; [assumption |]. rewrite Hdt, Htime. reflexivity.
  - destruct (Z.geb_spec (Trainer.iter_num self + 1) M); [lia |].
    destruct (IH self' fr' n) as (self'' & fr'' & Hloop & Hk' & Ht' & Hdt');
      [congruence | lia | lia | congruence | rewrite Hreg; exact Hlen | lia | | lia |].
    { rewrite Ht, Hk. f_equal. lia. }
    exists self'', fr''. split; [assumption |]. rewrite Hk in Hk', Ht', Hdt'.
    split; [lia |]. split.
    + rewrite Ht'. f_equal. lia.
    + rewrite Hdt'. f_equal; f_equal; lia.
Qed.

End Timing.

(** X16. [run] reads the clock once before the loop and once at the end
    of every iteration, after the callbacks: when the callbacks return
    and leave the trainer's configuration, optimizer, counter, time stamp
    and registered callbacks alone, a run of [M >= 1] iterations ends
    with [iter_time] the reading number [M] (counted from 0) and
    [iter_dt] the difference of the last two readings, the time of the
    whole last iteration, callbacks included. *)
Theorem run_time_stamps_are_consecutive_clock_readings
    (env : Trainer.Env) (call : Trainer.cbid -> Trainer.t -> exn + Trainer.t)
    (self : Trainer.t) (M : Z) (fuel : nat) :
  (forall c s, exists s',
     call c s = inr s' /\ Trainer.config s' = Trainer.config s /\
     Trainer.optimizer s' = Trainer.optimizer s /\
     Trainer.iter_num s' = Trainer.iter_num s /\
     Trainer.iter_time s' = Trainer.iter_time s /\
     Trainer.callbacks s' = Trainer.callbacks s /\
     Trainer.lists s' = Trainer.lists s) ->
  CfgNode.max_iters (Trainer.config self) = Some M ->
  1 <= M ->
  0 < CfgNode.batch_size (Trainer.config self) ->
  (N.of_nat (Z.to_nat M *
             Py.range_len (CfgNode.cross_batch_num (Trainer.config self)))
   <= Z.to_N (Trainer.cdiv (Trainer.sampler_len env self)
                (CfgNode.batch_size (Trainer.config self))))%N ->
  (Z.to_nat M <= fuel)%nat ->
  (length (Trainer.registered "on_batch_end" self) <= fuel)%nat ->
  exists s',
    Trainer.run env call fuel self = (Done tt, s') /\
    Trainer.clock (snd s') = S (Z.to_nat M) /\
    Trainer.iter_time (fst s') = Trainer.time_time env (Z.to_nat M) /\
    Trainer.iter_dt (fst s')
    = (Trainer.time_time env (Z.to_nat M) - Trainer.time_time env (Z.to_nat M - 1))%Q.
Proof.
  intros Hobserve Hmax HM Hbs Hdata Hfuel Hlen. unfold Trainer.run.
  destruct (setup_ok env self Hbs)
    as (self0 & fr0 & Hsetup & Hcfg & Hopt & Hi & Hd & _ & Hcb & Hl & Ht0 & Hk0).
  erewrite bind_ok by exact Hsetup.
  destruct (while_time env call Hobserve fuel
              (CfgNode.cross_batch_num (Trainer.config self))
              M (Z.to_nat M - 1) self0 fr0 fuel)
    as (self' & fr' & Hloop & Hk & Ht & Hdt);
    [congruence | lia | | assumption | | lia | rewrite Ht0, Hk0; reflexivity | lia |].
  { rewrite Hd. replace (S (Z.to_nat M - 1)) with (Z.to_nat M) by lia. exact Hdata. }
  { rewrite (registered_eq _ _ _ Hcb Hl). exact Hlen. }
  erewrite bind_ok by exact Hloop.
  rewrite Hk0 in Hk, Ht, Hdt.
  replace (1 + (Z.to_nat M - 1))%nat with (Z.to_nat M) in Ht, Hdt by lia.
  destruct (teardown_ok (fun _ => false) eq_refl self' fr') as (fr'' & -> & Hk'' & _).
  eexists. split; [reflexivity |]. cbn [fst snd].
  split; [lia |]. split; assumption.
Qed.

Lemma run_time_stamps_are_consecutive_clock_readings_witness :
  let self := Sample.trainer
                (CfgNode.set_max_iters (Some 3)
                   (CfgNode.set_cross_batch_num 2 Trainer.get_default_config)) in
  exists s',
    Trainer.run Sample.env Sample.quiet 3 self = (Done tt, s') /\
    Trainer.clock (snd s') = S (Z.to_nat 3) /\
    Trainer.iter_time (fst s') = Trainer.time_time Sample.env (Z.to_nat 3) /\
    Trainer.iter_dt (fst s')
    = (Trainer.time_time Sample.env (Z.to_nat 3)
       - Trainer.time_time Sample.env (Z.to_nat 3 - 1))%Q.
Proof.
  intros self.
  apply (run_time_stamps_are_consecutive_clock_readings Sample.env Sample.quiet self 3 3).
  - intros c s. exists s. repeat split.
  - reflexivity.
  - lia.
  - reflexivity.
  - vm_compute. discriminate.
  - lia.
  - vm_compute. lia.
Defined.

(** ** Callbacks that change the registry during a dispatch *)

(** Callbacks that only look are called to the end of the list. *)
Lemma for_each_live_lookers (call : Trainer.cbid -> Trainer.t -> exn + Trainer.t)
    (l : nat) (s : Trainer.t) :
  forall (fuel i : nat) (fr : Trainer.Frame),
    (forall c, c ∈ drop i (Trainer.items l s) -> call c s = inr s) ->
    (length (drop i (Trainer.items l s)) <= fuel)%nat ->
    Eff.for_each_live fuel (fun st => Trainer.items l (fst st)) i (Trainer.invoke call)
      (s, fr)
    = (Done tt,
       (s, Trainer.append_log (map Trainer.ECall (drop i (Trainer.items l s))) fr)).
Proof.
  induction fuel as [| fuel IH]; intros i fr Hlook Hlen;
    rewrite for_each_live_step;
    destruct (Trainer.items l s !! i) as [c |] eqn:Hi;
    try (rewrite drop_ge by (apply lookup_ge_None; exact Hi);
         cbn; rewrite append_log_nil; reflexivity).
  - rewrite (drop_S _ c _ Hi) in Hlen. cbn in Hlen. lia.
  - rewrite (drop_S _ c _ Hi) in Hlook, Hlen |- *. cbn [length] in Hlen.
    rewrite (Hlook c) by left.
    rewrite IH by (try lia; intros c' Hc'; apply Hlook; right; exact Hc').
    rewrite append_log_app. reflexivity.
Qed.

Lemma registered_cons (onevent : string) (c : Trainer.cbid) (rest : list Trainer.cbid)
    (self : Trainer.t) :
  Trainer.registered onevent self = c :: rest ->
  exists l,
    Trainer.callbacks self !! onevent = Some l /\ Trainer.items l self = c :: rest.
Proof.
  unfold Trainer.registered.
  destruct (Trainer.callbacks self !! onevent) as [l |]; [eauto | discriminate].
Qed.

(** X17. The dispatch goes through the live list: a callback that
    registers another one for the event while the event is being
    dispatched has it called in the same dispatch, after the callbacks
    that were registered when the dispatch began. *)
Theorem callback_registered_during_dispatch_is_called
    (call : Trainer.cbid -> Trainer.t -> exn + Trainer.t)
    (onevent : string) (c c' : Trainer.cbid) (rest : list Trainer.cbid)
    (self : Trainer.t) (fr : Trainer.Frame) (fuel : nat) :
  Trainer.well_formed self ->
  Trainer.registered onevent self = c :: rest ->
  call c self = inr (Trainer.add_callback onevent c' self) ->
  (forall c'' s, c'' ∈ rest ++ [c'] -> call c'' s = inr s) ->
  (length rest + 2 <= fuel)%nat ->
  Trainer.trigger_callbacks call fuel onevent (self, fr) =
    (Done tt,
     (Trainer.add_callback onevent c' self,
      Trainer.append_log
        (Trainer.ETrigger onevent :: map Trainer.ECall (c :: rest ++ [c'])) fr)) /\
  Trainer.registered onevent (Trainer.add_callback onevent c' self)
  = c :: rest ++ [c'].
Proof.
  intros Hwf Hreg Hc Hlook Hfuel.
  destruct (registered_cons onevent c rest self Hreg) as (l & Hl & Hitems).
  destruct (add_callback_spec onevent c' self Hwf) as (_ & Hreg' & Hsame & _).
  assert (Hitems' : Trainer.items l (Trainer.add_callback onevent c' self)
                    = c :: rest ++ [c']).
  { unfold Trainer.registered in Hreg'. rewrite (Hsame l Hl), Hl, Hitems in Hreg'.
    exact Hreg'. }
  split; [| rewrite Hreg', Hreg; reflexivity].
  rewrite trigger_eq, Hl, for_each_live_step. cbn [fst].
  rewrite Hitems. cbn [lookup list_lookup].
  destruct fuel as [| fuel']; [lia |]. rewrite Hc.
  rewrite for_each_live_lookers; rewrite Hitems'; cbn [drop].
  - rewrite !append_log_app. reflexivity.
  - intros c'' Hc''. apply Hlook. exact Hc''.
  - rewrite drop_0, length_app. cbn. lia.
Qed.

Lemma callback_registered_during_dispatch_is_called_witness :
  let self := Trainer.add_callback "on_batch_end" 6%nat
                (Trainer.add_callback "on_batch_end" 5%nat
                   (Sample.ready Sample.two_passes)) in
  Trainer.trigger_callbacks Demo.registrar 3 "on_batch_end" (self, Sample.frame) =
    (Done tt,
     (Trainer.add_callback "on_batch_end" 9%nat self,
      Trainer.append_log
        (Trainer.ETrigger "on_batch_end" :: map Trainer.ECall [5; 6; 9]%nat)
        Sample.frame)) /\
  Trainer.registered "on_batch_end" (Trainer.add_callback "on_batch_end" 9%nat self)
  = [5; 6; 9]%nat.
Proof.
  intros self.
  apply (callback_registered_during_dispatch_is_called Demo.registrar "on_batch_end"
           5%nat 9%nat [6%nat] self Sample.frame 3).
  - apply (registered_after_adds "on_batch_end" [5; 6]%nat).
    apply sample_trainer_well_formed.
  - reflexivity.
  - reflexivity.
  - intros c'' s Hc''. unfold Demo.registrar.
    destruct (Nat.eqb_spec c'' 5) as [-> | _]; [| reflexivity].
    apply list_elem_of_In in Hc''. cbn in Hc''. lia.
  - cbn. lia.
Defined.

Section Growing.

Variable call : Trainer.cbid -> Trainer.t -> exn + Trainer.t.
Variable onevent : string.

Hypothesis Hgrow :
  forall c s, exists c', call c s = inr (Trainer.add_callback onevent c' s).

(** While every call makes the list longer, the position stays inside
    the list. *)
Lemma for_each_live_growing (l : nat) :
  forall (fuel i : nat) (s : Trainer.t) (fr : Trainer.Frame),
    Trainer.well_formed s ->
    Trainer.callbacks s !! onevent = Some l ->
    (i < length (Trainer.items l s))%nat ->
    fst (Eff.for_each_live fuel (fun st => Trainer.items l (fst st)) i
           (Trainer.invoke call) (s, fr)) = Timeout.
Proof.
  induction fuel as [| fuel IH]; intros i s fr Hwf Hl Hi;
    rewrite for_each_live_step;
    destruct (lookup_lt_is_Some_2 _ _ Hi) as [c ->]; [reflexivity |].
  destruct (Hgrow c s) as [c' ->].
  destruct (add_callback_spec onevent c' s Hwf) as (Hwf' & Hreg' & Hsame & _).
  apply IH; [exact Hwf' | apply Hsame, Hl |].
  unfold Trainer.registered in Hreg'. rewrite (Hsame l Hl), Hl in Hreg'.
  rewrite Hreg', length_app. cbn. lia.
Qed.

Lemma trigger_growing (fuel : nat) (s : Trainer.t) (fr : Trainer.Frame) :
  Trainer.well_formed s ->
  Trainer.registered onevent s <> [] ->
  fst (Trainer.trigger_callbacks call fuel onevent (s, fr)) = Timeout.
Proof.
  intros Hwf Hne. rewrite trigger_eq. unfold Trainer.registered in Hne.
  destruct (Trainer.callbacks s !! onevent) as [l |] eqn:Hl; [| contradiction].
  apply for_each_live_growing; [exact Hwf | exact Hl |].
  destruct (Trainer.items l s); [contradiction | cbn; lia].
Qed.

End Growing.

(** X18. Nothing bounds a dispatch: when every callback registers a
    callback for the event each time it is called (itself, say), the
    list grows as fast as the dispatch moves through it, and
    [trigger_callbacks] does not return; a [run] whose loop reaches its
    first dispatch of "on_batch_end" with such callbacks does not return
    either, whatever [max_iters] is. *)
Theorem dispatch_never_ends_when_callbacks_register_callbacks
    (env : Trainer.Env) (call : Trainer.cbid -> Trainer.t -> exn + Trainer.t)
    (onevent : string) (self : Trainer.t) (fr : Trainer.Frame) :
  Trainer.well_formed self ->
  Trainer.registered onevent self <> [] ->
  (forall c s, exists c', call c s = inr (Trainer.add_callback onevent c' s)) ->
  (forall fuel,
     fst (Trainer.trigger_callbacks call fuel onevent (self, fr)) = Timeout) /\
  (onevent = "on_batch_end" ->
   0 < CfgNode.batch_size (Trainer.config self) ->
   (N.of_nat (Py.range_len (CfgNode.cross_batch_num (Trainer.config self)))
    <= Z.to_N (Trainer.cdiv (Trainer.sampler_len env self)
                 (CfgNode.batch_size (Trainer.config self))))%N ->
   forall fuel, fst (Trainer.run env call fuel self) = Timeout).
Proof.
  intros Hwf Hne Hgrow. split.
  - intros fuel. apply (trigger_growing call onevent Hgrow); assumption.
  - intros -> Hbs Hdata fuel. unfold Trainer.run.
    destruct (setup_ok env self Hbs)
      as (self0 & fr0 & Hsetup & Hcfg & Hopt & _ & Hd & _ & Hcb & Hl & _).
    erewrite bind_ok by exact Hsetup.
    destruct fuel as [| n]; [reflexivity |]. cbn [Eff.while_true].
    unfold Eff.bind at 1 2.
    rewrite iteration_eq by (rewrite ?Hd; assumption).
    set (self1 := Trainer.after_micros _ _ self0).
    destruct (after_micros_config (Trainer.served fr0)
                (Py.range_len (CfgNode.cross_batch_num (Trainer.config self))) self0)
      as (_ & _ & Hcb1 & _). fold self1 in Hcb1.
    destruct (after_micros_lists (Trainer.served fr0)
                (Py.range_len (CfgNode.cross_batch_num (Trainer.config self))) self0)
      as (Hl1 & _). fold self1 in Hl1.
    unfold Eff.bind at 1.
    match goal with
    | |- context [Trainer.trigger_callbacks call ?f "on_batch_end" (self1, ?fr1)] =>
        pose proof (trigger_growing call "on_batch_end" Hgrow f self1 fr1) as Htr;
        destruct (Trainer.trigger_callbacks call f "on_batch_end" (self1, fr1))
          as [r s1]
    end.
    cbn [fst] in Htr. rewrite Htr; [reflexivity | |].
    + unfold Trainer.well_formed in *. rewrite Hcb1, Hl1, Hcb, Hl. exact Hwf.
    + rewrite (registered_eq _ _ _ Hcb1 Hl1), (registered_eq _ _ _ Hcb Hl). exact Hne.
Qed.

Lemma dispatch_never_ends_when_callbacks_register_callbacks_witness :
  let self := Trainer.add_callback "on_batch_end" 5%nat
                (Sample.trainer Sample.two_passes) in
  (forall fuel,
     fst (Trainer.trigger_callbacks Demo.self_registering fuel "on_batch_end"
            (self, Sample.frame)) = Timeout) /\
  (forall fuel, fst (Trainer.run Sample.env Demo.self_registering fuel self) = Timeout).
Proof.
  intros self.
  destruct (dispatch_never_ends_when_callbacks_register_callbacks Sample.env
              Demo.self_registering "on_batch_end" self Sample.frame)
    as [Htrigger Hrun].
  - apply add_callback_spec, sample_trainer_well_formed.
  - discriminate.
  - intros c s. exists c. reflexivity.
  - split; [exact Htrigger |]. apply Hrun; [reflexivity | reflexivity |].
    vm_compute. discriminate.
Defined.

(** X19. Binding the event to another list while it is being
    dispatched does not change what the dispatch goes through: when the
    first callback calls [set_callback] for the event, the callbacks that
    were registered are still called, the new one is not, and only
    afterwards is the new one all that is registered. *)
Theorem set_callback_during_dispatch_takes_effect_afterwards
    (call : Trainer.cbid -> Trainer.t -> exn + Trainer.t)
    (onevent : string) (c c' : Trainer.cbid) (rest : list Trainer.cbid)
    (self : Trainer.t) (fr : Trainer.Frame) (fuel : nat) :
  Trainer.well_formed self ->
  Trainer.registered onevent self = c :: rest ->
  call c self = inr (Trainer.set_callback onevent c' self) ->
  (forall c'' s, c'' ∈ rest -> call c'' s = inr s) ->
  (length rest + 1 <= fuel)%nat ->
  Trainer.trigger_callbacks call fuel onevent (self, fr) =
    (Done tt,
     (Trainer.set_callback onevent c' self,
      Trainer.append_log
        (Trainer.ETrigger onevent :: map Trainer.ECall (c :: rest)) fr)) /\
  Trainer.registered onevent (Trainer.set_callback onevent c' self) = [c'].
Proof.
  intros Hwf Hreg Hc Hlook Hfuel.
  destruct (registered_cons onevent c rest self Hreg) as (l & Hl & Hitems).
  destruct (bind_new_list_spec onevent [c'] self) as (_ & _ & Hreg' & _ & Hold).
  fold (Trainer.set_callback onevent c' self) in Hreg', Hold.
  assert (Hitems' : Trainer.items l (Trainer.set_callback onevent c' self) = c :: rest)
    by (rewrite Hold; [exact Hitems | exact (well_formed_lookup onevent l self Hwf Hl)]).
  split; [| exact Hreg'].
  rewrite trigger_eq, Hl, for_each_live_step. cbn [fst].
  rewrite Hitems. cbn [lookup list_lookup].
  destruct fuel as [| fuel']; [lia |]. rewrite Hc.
  rewrite for_each_live_lookers; rewrite Hitems'; cbn [drop].
  - rewrite !append_log_app. reflexivity.
  - intros c'' Hc''. apply Hlook. exact Hc''.
  - rewrite drop_0. lia.
Qed.

Lemma set_callback_during_dispatch_takes_effect_afterwards_witness :
  let self := Trainer.add_callback "on_batch_end" 6%nat
                (Trainer.add_callback "on_batch_end" 5%nat
                   (Sample.ready Sample.two_passes)) in
  Trainer.trigger_callbacks Demo.replacer 2 "on_batch_end" (self, Sample.frame) =
    (Done tt,
     (Trainer.set_callback "on_batch_end" 9%nat self,
      Trainer.append_log
        (Trainer.ETrigger "on_batch_end" :: map Trainer.ECall [5; 6]%nat)
        Sample.frame)) /\
  Trainer.registered "on_batch_end" (Trainer.set_callback "on_batch_end" 9%nat self)
  = [9%nat].
Proof.
  intros self.
  apply (set_callback_during_dispatch_takes_effect_afterwards Demo.replacer
           "on_batch_end" 5%nat 9%nat [6%nat] self Sample.frame 2).
  - apply (registered_after_adds "on_batch_end" [5; 6]%nat).
    apply sample_trainer_well_formed.
  - reflexivity.
  - reflexivity.
  - intros c'' s Hc''. unfold Demo.replacer.
    destruct (Nat.eqb_spec c'' 5) as [-> | _]; [| reflexivity].
    apply list_elem_of_In in Hc''. cbn in Hc''. lia.
  - cbn. lia.
Defined.
